(** * VM-scaling operator scripts: a shallow embedding and its properties

    The repository holds two Python scripts,
    [python/task1/horizontal-scaling.py] (a polling controller that launches
    web-service instances when the load generator reports a low request
    rate) and [python/task2/autoscaling.py] (set-up, test orchestration and
    tear-down of an Auto Scaling Group).

    Both scripts are sequences of calls to the outside world (HTTP requests,
    the cloud API, the clock, the local file system) glued together by
    loops, exception handlers and a little parsing.  The embedding below
    therefore consists of

    - a small model of the Python run time the scripts rely on: exceptions,
      an outcome type, a state-and-trace monad, and a [world] whose answers
      to external calls are given by scripts (functions of the call index);
    - the library functions the scripts call ([str] operations, [re.findall]
      for the one pattern used, [configparser], [float]);
    - the functions of the two scripts, translated one by one;
    - the properties. *)

From Stdlib Require Import String Ascii List ZArith QArith Bool Arith Lia.
From Stdlib Require Import DecimalString.
Import ListNotations.

Local Open Scope list_scope.
Local Open Scope string_scope.
Local Open Scope Z_scope.

Set Implicit Arguments.

(* ================================================================== *)
(** ** Python run-time model *)
(* ================================================================== *)

Module Py.

(** Exception classes: those the calls of the scripts raise.  Each derives
    from Python's [Exception], and [ConnectionError] derives from
    [requests.exceptions.RequestException].  Interrupts and interpreter
    exits, which derive from [BaseException] only, are raised by no call
    and are not modelled. *)
Inductive exn_class : Type :=
| ConnectionError      (* requests.exceptions.ConnectionError *)
| RequestException     (* any other requests.exceptions.RequestException *)
| ClientError          (* botocore.exceptions: ClientError, WaiterError, ... *)
| IndexError
| KeyError
| ValueError
| TypeError
| ConfigParserError    (* configparser.Error and its subclasses *)
| OSError.

Record exn : Type := Exn { exn_cls : exn_class; exn_msg : string }.

(** [isinstance(e, requests.exceptions.ConnectionError)] *)
Definition is_ConnectionError (e : exn) : bool :=
  match exn_cls e with ConnectionError => true | _ => false end.

(** [isinstance(e, requests.exceptions.RequestException)] *)
Definition is_RequestException (e : exn) : bool :=
  match exn_cls e with
  | ConnectionError | RequestException => true
  | _ => false
  end.

(** [isinstance(e, Exception)], also what a bare [except:] catches here. *)
Definition is_Exception (_ : exn) : bool := true.

(** What a call returns: a value or a raised exception. *)
Inductive result (A : Type) : Type :=
| Ok (a : A)
| Err (e : exn).
Arguments Ok {A} a.
Arguments Err {A} e.

(** A [requests.Response], reduced to the two attributes the scripts read. *)
Record response : Type := Response { status_code : Z; text : string }.

(** JSON-like values: the [dict]/[list] structures the boto3 clients take
    and return, and the contents of the configuration file. *)
#[local] Unset Elimination Schemes.
Inductive json : Type :=
| JNull
| JBool (b : bool)
| JNum (z : Z)
| JStr (s : string)
| JList (l : list json)
| JObj (fields : list (string * json)).
#[local] Set Elimination Schemes.

(** Requests to the cloud API.  The first group is the resource interface
    used by the horizontal-scaling script; [Client] is a call
    [client.op] with keyword arguments on a boto3 client and [WaitFor] a
    call [client.get_waiter(name).wait], both used by the autoscaling
    script. *)
Inductive aws_req : Type :=
| CreateInstances (image_id instance_type sg_id : string)
| WaitUntilRunning (instance_id : string)
| Reload (instance_id : string)
| CreateSecurityGroup (group_name description : string)
| AuthorizeIngress (sg_id ip_protocol : string) (from_port to_port : Z)
                   (cidr_ip : string)
| TerminateInstances (instance_ids : list string)
| DeleteSecurityGroup (sg_id : string)
| Client (service op : string) (kwargs : json)
| WaitFor (service waiter : string) (kwargs : json).

(** The type of the answer to each request: the identifier of the new
    instance or group, the public DNS name read back by [reload()], a
    response dictionary, or nothing. *)
Definition aws_reply (r : aws_req) : Type :=
  match r with
  | CreateInstances _ _ _ => string
  | Reload _ => option string
  | CreateSecurityGroup _ _ => string
  | Client _ _ _ => json
  | _ => unit
  end.

(** The fields of an f-string or [str.format] call passed to [print]. *)
Inductive fmt : Type :=
| FS (s : string)
| FZ (z : Z)
| FQ (q : Q)
| FQ2 (q : Q)                 (* the [:.2f] format *)
| FOpt (o : option string)
| FIds (l : list string)
| FJ (j : json).

(** Observable events, in the order the program produces them. *)
Inductive event : Type :=
| EvGet (url : string) (timeout : option Z) (answer : result response)
| EvSleep (seconds : Z)
| EvNow (microseconds : Z)
| EvPrint (fields : list fmt)
| EvAws (request : aws_req) (error : option exn).

(** The outside world.  The [_script] fields give the answer to the n-th
    call of each kind, which may depend on the request; the [_calls]
    fields count the calls made so far.  [open_script] answers the n-th
    [open(path, "w")]: with [Ok] when the system opens the file, with the
    [OSError] it raises otherwise (no such directory, a name that is too
    long, no permission).  [files] is the content of the files the script
    has access to.  A run of a script is determined by the scripts of its
    world, and every behaviour of the environment is the script of some
    world. *)
Record world : Type := World {
  http_script : nat -> string -> option Z -> result response;
  http_calls : nat;
  clock_script : nat -> Z;
  clock_calls : nat;
  aws_script : nat -> forall r : aws_req, result (aws_reply r);
  aws_calls : nat;
  open_script : nat -> string -> result unit;
  open_calls : nat;
  files : list (string * string)
}.

(** How a computation ends: with a value, with an exception, or not at all
    within the fuel given to its unbounded loops. *)
Inductive outcome (A : Type) : Type :=
| Ret (a : A)
| Raise (e : exn)
| Diverge.
Arguments Ret {A} a.
Arguments Raise {A} e.
Arguments Diverge {A}.

Record run (S A : Type) : Type := Run {
  res : outcome A;
  fin : S;
  evs : list event
}.

(** Computations over a state [S] that emit events. *)
Definition M (S A : Type) : Type := S -> run S A.

Definition ret {S A} (a : A) : M S A := fun s => Run (Ret a) s [].

Definition raise {S A} (e : exn) : M S A := fun s => Run (Raise e) s [].

Definition diverge {S A} : M S A := fun s => Run Diverge s [].

Definition bind {S A B} (m : M S A) (k : A -> M S B) : M S B :=
  fun s =>
    match m s with
    | Run (Ret a) s1 ev1 =>
        match k a s1 with
        | Run o s2 ev2 => Run o s2 (ev1 ++ ev2)
        end
    | Run (Raise e) s1 ev1 => Run (Raise e) s1 ev1
    | Run Diverge s1 ev1 => Run Diverge s1 ev1
    end.

(** [try: m  except <catches> as e: handler e] *)
Definition try_except {S A} (m : M S A) (catches : exn -> bool)
    (handler : exn -> M S A) : M S A :=
  fun s =>
    match m s with
    | Run (Raise e) s1 ev1 =>
        if catches e then
          match handler e s1 with
          | Run o s2 ev2 => Run o s2 (ev1 ++ ev2)
          end
        else Run (Raise e) s1 ev1
    | r => r
    end.

(** [try: m  finally: cleanup].  The cleanup runs however [m] ends; an
    exception raised by the cleanup replaces the outcome of [m]. *)
Definition try_finally {S A} (m : M S A) (cleanup : M S unit) : M S A :=
  fun s =>
    match m s with
    | Run Diverge s1 ev1 => Run Diverge s1 ev1
    | Run o s1 ev1 =>
        match cleanup s1 with
        | Run (Ret _) s2 ev2 => Run o s2 (ev1 ++ ev2)
        | Run (Raise e) s2 ev2 => Run (Raise e) s2 (ev1 ++ ev2)
        | Run Diverge s2 ev2 => Run Diverge s2 (ev1 ++ ev2)
        end
    end.

Definition of_result {S A} (r : result A) : M S A :=
  match r with
  | Ok a => ret a
  | Err e => raise e
  end.

(** Run a computation on the world inside a larger state that also holds
    the local variables [L] of the caller. *)
Definition lift {L A} (m : M world A) : M (L * world) A :=
  fun s =>
    match m (snd s) with
    | Run o w ev => Run o (fst s, w) ev
    end.

Definition get_locals {L} : M (L * world) L :=
  fun s => Run (Ret (fst s)) s [].

Definition set_locals {L} (f : L -> L) : M (L * world) unit :=
  fun s => Run (Ret tt) (f (fst s), snd s) [].

End Py.

Import Py.

Declare Scope py_scope.
Delimit Scope py_scope with py.
Notation "x <- m ;; k" := (bind m (fun x => k))
  (at level 100, m at next level, right associativity) : py_scope.
Notation "m ;; k" := (bind m (fun _ => k))
  (at level 100, right associativity) : py_scope.
Local Open Scope py_scope.

(* ================================================================== *)
(** ** Calls to the outside world *)
(* ================================================================== *)

Module Sys.

Definition with_http_calls (n : nat) (w : world) : world :=
  World (http_script w) n (clock_script w) (clock_calls w)
        (aws_script w) (aws_calls w) (open_script w) (open_calls w) (files w).

Definition with_clock_calls (n : nat) (w : world) : world :=
  World (http_script w) (http_calls w) (clock_script w) n
        (aws_script w) (aws_calls w) (open_script w) (open_calls w) (files w).

Definition with_aws_calls (n : nat) (w : world) : world :=
  World (http_script w) (http_calls w) (clock_script w) (clock_calls w)
        (aws_script w) n (open_script w) (open_calls w) (files w).

Definition with_open_calls (n : nat) (w : world) : world :=
  World (http_script w) (http_calls w) (clock_script w) (clock_calls w)
        (aws_script w) (aws_calls w) (open_script w) n (files w).

Definition with_files (fs : list (string * string)) (w : world) : world :=
  World (http_script w) (http_calls w) (clock_script w) (clock_calls w)
        (aws_script w) (aws_calls w) (open_script w) (open_calls w) fs.

(** [requests.get(url)] and [requests.get(url, timeout=t)] *)
Definition requests_get (url : string) (timeout : option Z)
  : M world response :=
  fun w =>
    let a := http_script w (http_calls w) url timeout in
    Run (match a with Ok r => Ret r | Err e => Raise e end)
        (with_http_calls (S (http_calls w)) w)
        [EvGet url timeout a].

(** [time.sleep(seconds)] *)
Definition sleep (seconds : Z) : M world unit :=
  fun w => Run (Ret tt) w [EvSleep seconds].

(** [datetime.now(timezone.utc)], in microseconds since the epoch. *)
Definition now : M world Z :=
  fun w =>
    let t := clock_script w (clock_calls w) in
    Run (Ret t) (with_clock_calls (S (clock_calls w)) w) [EvNow t].

(** [print(...)] *)
Definition print (fields : list fmt) : M world unit :=
  fun w => Run (Ret tt) w [EvPrint fields].

(** A call to the cloud API. *)
Definition aws (r : aws_req) : M world (aws_reply r) :=
  fun w =>
    let a := aws_script w (aws_calls w) r in
    Run (match a with Ok v => Ret v | Err e => Raise e end)
        (with_aws_calls (S (aws_calls w)) w)
        [EvAws r (match a with Ok _ => None | Err e => Some e end)].

(** *** Files *)

Fixpoint lookup (path : string) (fs : list (string * string))
  : option string :=
  match fs with
  | [] => None
  | (p, c) :: rest => if String.eqb p path then Some c else lookup path rest
  end.

Fixpoint store (path content : string) (fs : list (string * string))
  : list (string * string) :=
  match fs with
  | [] => [(path, content)]
  | (p, c) :: rest =>
      if String.eqb p path then (p, content) :: rest
      else (p, c) :: store path content rest
  end.

(** A path that holds a NUL character. *)
Fixpoint has_nul (path : string) : bool :=
  match path with
  | EmptyString => false
  | String c rest => Ascii.eqb c Ascii.zero || has_nul rest
  end.

(** The answer to the [k]-th [open(path, "w")] from now on: Python refuses
    a path with a NUL character with a [ValueError] before it asks the
    system; any other path is answered by the system. *)
Definition open_answer (w : world) (k : nat) (path : string) : result unit :=
  if has_nul path then Err (Exn ValueError "embedded null byte")
  else open_script w (k + open_calls w) path.

(** [open(path, "w")]: the file is created or truncated, or the call
    raises and leaves the files as they are. *)
Definition open_w (path : string) : M world unit :=
  fun w =>
    let w1 := with_open_calls (S (open_calls w)) w in
    match open_answer w 0 path with
    | Ok _ => Run (Ret tt) (with_files (store path "" (files w1)) w1) []
    | Err e => Run (Raise e) w1 []
    end.

(** [f.write(s)] on a file opened for writing. *)
Definition write (path s : string) : M world unit :=
  fun w =>
    let old := match lookup path (files w) with Some c => c | None => "" end in
    Run (Ret tt) (with_files (store path (old ++ s) (files w)) w) [].

(** [f.close()] *)
Definition close (path : string) : M world unit := ret tt.

(** [open(path, "r").read()] *)
Definition read (path : string) : M world string :=
  fun w =>
    match lookup path (files w) with
    | Some c => Run (Ret c) w []
    | None => Run (Raise (Exn OSError ("No such file: " ++ path))) w []
    end.

End Sys.

(* ================================================================== *)
(** ** Strings *)
(* ================================================================== *)

Module Str.

(** [s[n:]] *)
Fixpoint drop (n : nat) (s : string) : string :=
  match n, s with
  | O, _ => s
  | S _, EmptyString => EmptyString
  | S k, String _ s' => drop k s'
  end.

(** [needle in hay] *)
Fixpoint contains (needle hay : string) : bool :=
  String.prefix needle hay ||
  match hay with
  | EmptyString => false
  | String _ hay' => contains needle hay'
  end.

(** [c.isspace()] on ASCII. *)
Definition is_space (c : ascii) : bool :=
  let n := nat_of_ascii c in
  (((9 <=? n) && (n <=? 13)) || ((28 <=? n) && (n <=? 32)))%nat.

Fixpoint lstrip_with (space : ascii -> bool) (s : string) : string :=
  match s with
  | EmptyString => EmptyString
  | String c s' => if space c then lstrip_with space s' else s
  end.

Fixpoint rstrip_with (space : ascii -> bool) (s : string) : string :=
  match s with
  | EmptyString => EmptyString
  | String c s' =>
      match rstrip_with space s' with
      | EmptyString => if space c then EmptyString else String c EmptyString
      | r => String c r
      end
  end.

Definition strip_with (space : ascii -> bool) (s : string) : string :=
  rstrip_with space (lstrip_with space s).

(** [s.strip()] *)
Definition strip (s : string) : string := strip_with is_space s.

(** [str(n)] for an integer. *)
Definition of_Z (z : Z) : string := NilZero.string_of_int (Z.to_int z).

(** [str(o)] for a string attribute that may be [None]. *)
Definition of_opt (o : option string) : string :=
  match o with Some s => s | None => "None" end.

End Str.

(* ================================================================== *)
(** ** Library functions the scripts call *)
(* ================================================================== *)

(** *** [re]: the pattern [name=(.*log)] *)

Module Re.

Definition newline : ascii := ascii_of_nat 10.

(** The group [(.*log)] matched at the start of [s]: [.] matches any
    character but a newline, and [.*] is greedy, so the capture runs up to
    the last ["log"] of the first line of [s]. *)
Fixpoint greedy_log (s : string) : option string :=
  match s with
  | EmptyString => None
  | String c s' =>
      if Ascii.eqb c newline then None
      else match greedy_log s' with
           | Some cap => Some (String c cap)
           | None => if String.prefix "log" s then Some "log" else None
           end
  end.

(** The pattern matched at the start of [s]; the result is group 1. *)
Definition match_here (s : string) : option string :=
  if String.prefix "name=" s then greedy_log (Str.drop 5 s) else None.

(** [findall]: scan from left to right; after a match, resume behind it.
    [skip] counts the characters of [s] that the previous match still
    covers. *)
Fixpoint findall_from (skip : nat) (s : string) : list string :=
  match s with
  | EmptyString => []
  | String _ s' =>
      match skip with
      | S k => findall_from k s'
      | O =>
          match match_here s with
          | Some cap => cap :: findall_from (4 + String.length cap) s'
          | None => findall_from 0 s'
          end
      end
  end.

(** [re.compile(r'name=(.*log)').findall(s)] *)
Definition findall (s : string) : list string := findall_from 0 s.

End Re.

(** *** [float] *)

Module Float.

(** The white space [float] skips around a numeral. *)
Definition is_space (c : ascii) : bool :=
  let n := nat_of_ascii c in
  (((9 <=? n) && (n <=? 13)) || (n =? 32))%nat.

Definition strip (s : string) : string := Str.strip_with is_space s.

Definition digit (c : ascii) : option Z :=
  let n := nat_of_ascii c in
  if ((48 <=? n) && (n <=? 57))%nat then Some (Z.of_nat n - 48) else None.

(** Read the digits at the start of [s]: their value after [acc], their
    number, and the rest of [s]. *)
Fixpoint read_digits (s : string) (acc : Z) (n : nat) : Z * nat * string :=
  match s with
  | EmptyString => (acc, n, s)
  | String c s' =>
      match digit c with
      | Some d => read_digits s' (10 * acc + d) (S n)
      | None => (acc, n, s)
      end
  end.

Definition value_error (s : string) : exn :=
  Exn ValueError ("could not convert string to float: " ++ s).

(** [float(s)] on decimal numerals: optional surrounding white space, an
    optional sign, digits with an optional fractional part.  The result is
    the exact decimal value, as a reduced fraction; the rounding to
    binary64 is not modelled, and neither are the other notations [float]
    reads (exponents, [inf], [nan], digit separators). *)
Definition of_string (s : string) : result Q :=
  let t := strip s in
  let '(neg, body) :=
    match t with
    | String "-" r => (true, r)
    | String "+" r => (false, r)
    | _ => (false, t)
    end in
  let signed (q : Q) := if neg then Qopp q else q in
  let '(ip, ni, rest) := read_digits body 0 0 in
  match rest with
  | EmptyString =>
      if (ni =? 0)%nat then Err (value_error s)
      else Ok (Qred (signed (ip # 1)))
  | String "." frac =>
      let '(fp, nf, rest') := read_digits frac 0 0 in
      match rest' with
      | EmptyString =>
          if (ni + nf =? 0)%nat then Err (value_error s)
          else Ok (Qred (signed ((ip * 10 ^ Z.of_nat nf + fp)
                                  # Z.to_pos (10 ^ Z.of_nat nf))))
      | _ => Err (value_error s)
      end
  | _ => Err (value_error s)
  end.

(** [x < y] on numbers. *)
Definition ltb (x y : Q) : bool := negb (Qle_bool y x).

End Float.

(** *** [configparser] *)

Module ConfigParser.

(** The lines a file object yields; the line terminators are left out, as
    the reader strips every line before it looks at it. *)
Fixpoint split_lines (s : string) : list string :=
  match s with
  | EmptyString => [EmptyString]
  | String c s' =>
      match split_lines s' with
      | [] => [String c EmptyString]
      | l :: ls =>
          if Ascii.eqb c Re.newline then EmptyString :: l :: ls
          else String c l :: ls
      end
  end.

(** Index of the first character of [line] that is not white space. *)
Fixpoint indent (line : string) : nat :=
  match line with
  | EmptyString => O
  | String c s' => if Str.is_space c then S (indent s') else O
  end.

(** The text of [s] before its last ["]"], if it has one. *)
Fixpoint upto_last_bracket (s : string) : option string :=
  match s with
  | EmptyString => None
  | String c s' =>
      match upto_last_bracket s' with
      | Some h => Some (String c h)
      | None => if Ascii.eqb c "]" then Some EmptyString else None
      end
  end.

(** The section-header pattern, an opening bracket, one or more characters
    and a closing bracket, matched at the start of a stripped line. *)
Definition section_header (value : string) : option string :=
  match value with
  | String "[" rest =>
      match upto_last_bracket rest with
      | Some EmptyString => None
      | o => o
      end
  | _ => None
  end.

Definition is_delimiter (c : ascii) : bool :=
  Ascii.eqb c "=" || Ascii.eqb c ":".

(** The option pattern matches a stripped line that holds a delimiter. *)
Fixpoint has_delimiter (value : string) : bool :=
  match value with
  | EmptyString => false
  | String c s' => is_delimiter c || has_delimiter s'
  end.

(** The option name, the text before the first delimiter, is empty when
    the stripped line starts with the delimiter. *)
Definition empty_option_name (value : string) : bool :=
  match value with
  | String c _ => is_delimiter c
  | EmptyString => true
  end.

Definition is_comment (stripped : string) : bool :=
  String.prefix "#" stripped || String.prefix ";" stripped.

(** What the reader keeps between lines: the section names in the order of
    their first appearance (the keys of its section dictionary), whether a
    section is open, whether an option is open (so that a more indented
    line continues its value), the indentation of the last header or
    option line, and whether a parsing error is pending. *)
Record reader : Type := Reader {
  section_names : list string;
  in_section : bool;
  in_option : bool;
  indent_level : nat;
  pending_error : bool
}.

Definition initial : reader := Reader [] false false O false.

Definition mem (name : string) (names : list string) : bool :=
  existsb (String.eqb name) names.

(** A header opens its section.  With [strict=False] a name met again
    reopens the existing section: its place among the keys stays where the
    name first appeared.  The default section is kept apart from the
    others. *)
Definition open_section (name : string) (names : list string) : list string :=
  if mem name names then names
  else if String.eqb name "DEFAULT" then names
  else (names ++ [name])%list.

(** One line of input.  [None] is [MissingSectionHeaderError]. *)
Definition read_line (st : reader) (line : string) : option reader :=
  let value := Str.strip line in
  if is_comment value then Some st
  else if String.eqb value "" then Some st
  else
    let cur := indent line in
    if in_section st && in_option st && (indent_level st <? cur)%nat
    then Some st
    else
      match section_header value with
      | Some name =>
          Some (Reader (open_section name (section_names st)) true false
                       cur (pending_error st))
      | None =>
          if negb (in_section st) then None
          else if has_delimiter value then
            Some (Reader (section_names st) true
                         (negb (empty_option_name value)) cur
                         (pending_error st || empty_option_name value))
          else
            Some (Reader (section_names st) true (in_option st) cur true)
      end.

Fixpoint read_lines (st : reader) (lines : list string) : option reader :=
  match lines with
  | [] => Some st
  | l :: ls =>
      match read_line st l with
      | Some st' => read_lines st' ls
      | None => None
      end
  end.

(** [config = ConfigParser(strict=False); config.read_string(s);
    config.sections()] *)
Definition sections_of_string (s : string) : result (list string) :=
  match read_lines initial (split_lines s) with
  | None => Err (Exn ConfigParserError "File contains no section headers.")
  | Some st =>
      if pending_error st
      then Err (Exn ConfigParserError "Source contains parsing errors")
      else Ok (section_names st)
  end.

End ConfigParser.

(* ================================================================== *)
(** ** python/task1/horizontal-scaling.py *)
(* ================================================================== *)

(** [get_test_start_time], which the script defines and never calls, reads
    option values through the interpolation of [configparser] and parses a
    date with [dateutil]; it is left out. *)

Module Horizontal.

Import Sys.

Definition nl : string := String Re.newline EmptyString.

(** The three entries read from [horizontal-scaling-config.json] when the
    module is loaded. *)
Record configuration : Type := Configuration {
  LOAD_GENERATOR_AMI : string;
  WEB_SERVICE_AMI : string;
  INSTANCE_TYPE : string
}.

(** An EC2 instance object: its identifier and the public DNS name it held
    when its attributes were last loaded. *)
Record instance : Type := Instance {
  id : string;
  public_dns_name : option string
}.

(** The local variables of [main] that outlive a statement: [sg] is
    [None] until the security group is bound. *)
Record frame : Type := Frame {
  sg : option string;
  all_instance_ids : list string;
  last_launch_time : Z
}.

Definition set_sg (g : string) (f : frame) : frame :=
  Frame (Some g) (all_instance_ids f) (last_launch_time f).

Definition append_instance_id (i : string) (f : frame) : frame :=
  Frame (sg f) (all_instance_ids f ++ [i]) (last_launch_time f).

Definition set_last_launch_time (t : Z) (f : frame) : frame :=
  Frame (sg f) (all_instance_ids f) t.

(** How the statements of a loop body end: by falling through to the next
    statement or with [continue]. *)
Inductive flow : Type := Fallthrough | Continue.

Section Script.

Variable config : configuration.

(** The built-in [float], applied to a string.  The scripts only compare
    its result with a threshold, so any function is admitted here;
    [Float.of_string] is the one the scenarios below run with. *)
Variable float : string -> result Q.

Definition create_instance (ami sg_id : string) : M world instance :=
  iid <- aws (CreateInstances ami (INSTANCE_TYPE config) sg_id) ;;
  print [FS "Instance "; FS iid;
         FS " launching... waiting for running state."] ;;
  aws (WaitUntilRunning iid) ;;
  dns <- aws (Reload iid) ;;
  ret (Instance iid dns).

Definition print_section (msg : string) : M world unit :=
  let hashes := "########################################" in
  print [FS (hashes ++ nl ++ "# " ++ msg ++ nl ++ hashes)].

Definition get_test_id (resp : response) : result string :=
  match Re.findall (text resp) with
  | x :: _ => Ok x
  | [] => Err (Exn IndexError "list index out of range")
  end.

(** [response.ok]: the status is not a client or server error. *)
Definition response_ok (r : response) : bool :=
  negb ((400 <=? status_code r) && (status_code r <? 600)).

(** [not response or response.status_code != 200] *)
Definition not_started (resp : option response) : bool :=
  match resp with
  | None => true
  | Some r => negb (response_ok r) || negb (status_code r =? 200)
  end.

Fixpoint initialize_test_loop (fuel : nat) (add_ws_string : string)
    (resp : option response) : M world (option response) :=
  match fuel with
  | O => diverge
  | S n =>
      if not_started resp then
        resp' <-
          try_except
            (r <- requests_get add_ws_string None ;; ret (Some r))
            is_ConnectionError
            (fun _ => sleep 1 ;; ret resp) ;;
        initialize_test_loop n add_ws_string resp'
      else ret resp
  end.

Definition initialize_test (fuel : nat) (lg_dns first_web_service_dns : string)
  : M world string :=
  let add_ws_string :=
    "http://" ++ lg_dns ++ "/test/horizontal?dns=" ++ first_web_service_dns in
  resp <- initialize_test_loop fuel add_ws_string None ;;
  match resp with
  | Some r => of_result (get_test_id r)
  | None => raise (Exn TypeError "'NoneType' object has no attribute 'text'")
  end.

Definition log_url (lg_dns log_name : string) : string :=
  "http://" ++ lg_dns ++ "/log?name=" ++ log_name.

Definition is_test_complete (lg_dns log_name : string) : M world bool :=
  let log_string := log_url lg_dns log_name in
  open_w (log_name ++ ".log") ;;
  r <- requests_get log_string None ;;
  let log_text := text r in
  write (log_name ++ ".log") log_text ;;
  close (log_name ++ ".log") ;;
  ret (Str.contains "[Test finished]" log_text).

(** The [while True] loop of [add_web_service_instance]. *)
Fixpoint submit_loop (fuel : nat) (lg_dns log_name add_req : string)
  : M world unit :=
  match fuel with
  | O => diverge
  | S n =>
      r <- requests_get add_req None ;;
      if status_code r =? 200 then
        print [FS "New WS submitted to LG."]
      else
        complete <- is_test_complete lg_dns log_name ;;
        if complete : bool then
          print [FS "New WS not submitted because test already completed."]
        else submit_loop n lg_dns log_name add_req
  end.

Definition add_web_service_instance (fuel : nat)
    (lg_dns sg2_id log_name : string) : M world unit :=
  ins <- create_instance (WEB_SERVICE_AMI config) sg2_id ;;
  print [FS "New WS launched. id="; FS (id ins); FS ", dns=";
         FS (Str.of_opt (public_dns_name ins))] ;;
  let add_req :=
    "http://" ++ lg_dns ++ "/test/horizontal/add?dns="
              ++ Str.of_opt (public_dns_name ins) in
  submit_loop fuel lg_dns log_name add_req.

(** The loop of [get_rps] over the reversed section names. *)
Fixpoint first_rps (sections : list string) : result Q :=
  match sections with
  | [] => Ok 0%Q
  | sec :: rest =>
      if Str.contains "Current rps=" sec
      then float (Str.drop (String.length "Current rps=") sec)
      else first_rps rest
  end.

Definition get_rps (lg_dns log_name : string) : M world Q :=
  let log_string := log_url lg_dns log_name in
  r <- requests_get log_string None ;;
  sections <- of_result (ConfigParser.sections_of_string (text r)) ;;
  let sections := rev sections in
  of_result (first_rps sections).

(** The loop of [wait_for_server_health]. *)
Fixpoint wait_loop (fuel : nat) (dns_name url : string) (retries : Z)
  : M world bool :=
  match fuel with
  | O => diverge
  | S n =>
      if retries <? 40 then
        ready <-
          try_except
            (resp <- requests_get url (Some 1) ;;
             if status_code resp =? 200 then
               print [FS "Server "; FS dns_name; FS " is READY!"] ;;
               ret true
             else ret false)
            is_RequestException
            (fun _ => ret false) ;;
        if ready : bool then ret true
        else
          sleep 2 ;;
          wait_loop n dns_name url (retries + 1)
      else
        print [FS "Server "; FS dns_name; FS " failed to become ready."] ;;
        ret false
  end.

(** The loop runs while [retries < 40] and [retries] starts at 0, so 41
    rounds of fuel let it reach its own exit. *)
Definition wait_for_server_health (dns_name : string) : M world bool :=
  print [FS "Waiting for "; FS dns_name; FS " to boot web application..."] ;;
  let url := "http://" ++ dns_name in
  wait_loop 41 dns_name url 0.

(** [not new_ws_dns] *)
Definition no_dns (dns : option string) : bool :=
  match dns with
  | None => true
  | Some s => String.eqb s ""
  end.

Definition add_url (lg_dns new_ws_dns : string) : string :=
  "http://" ++ lg_dns ++ "/test/horizontal/add?dns=" ++ new_ws_dns.

(** The [try] statement of the loop body. *)
Definition scale_out (lg_dns sg2_id : string) : M (frame * world) flow :=
  try_except
    (new_ws <- lift (create_instance (WEB_SERVICE_AMI config) sg2_id) ;;
     set_locals (append_instance_id (id new_ws)) ;;
     new_ws_dns <- lift (aws (Reload (id new_ws))) ;;
     if no_dns new_ws_dns then
       lift (print [FS "Error: Instance has no DNS name yet."]) ;;
       ret Continue
     else
       healthy <- lift (wait_for_server_health (Str.of_opt new_ws_dns)) ;;
       if healthy : bool then
         res <- lift (requests_get (add_url lg_dns (Str.of_opt new_ws_dns))
                                   None) ;;
         if status_code res =? 200 then
           t <- lift now ;;
           set_locals (set_last_launch_time t) ;;
           lift (print [FS "New WS "; FS (id new_ws);
                        FS " successfully added."]) ;;
           ret Fallthrough
         else
           lift (print [FS "Error adding to LG: "; FZ (status_code res)]) ;;
           ret Fallthrough
       else
         lift (print [FS "Skipping add: Server failed health check."]) ;;
         ret Fallthrough)
    is_Exception
    (fun e =>
       lift (print [FS "Scaling paused (likely AWS limit or error): ";
                    FS (exn_msg e)]) ;;
       ret Fallthrough).

(** [(current_time - last_launch_time).total_seconds()]: the difference,
    a whole number of microseconds, in seconds. *)
Definition total_seconds (current_time last : Z) : Q :=
  (current_time - last) # 1000000.

(** The body of the monitoring loop. *)
Definition loop_body (lg_dns log_name sg2_id : string)
  : M (frame * world) unit :=
  current_rps <- lift (get_rps lg_dns log_name) ;;
  current_time <- lift now ;;
  f <- get_locals ;;
  let time_diff := total_seconds current_time (last_launch_time f) in
  lift (print [FS "RPS: "; FQ current_rps;
               FS " | Time since last launch: "; FQ2 time_diff; FS "s"]) ;;
  fl <- (if Float.ltb current_rps 50 && Float.ltb 100 time_diff then
           lift (print [FS "RPS is low. Attempting to launch new WS..."]) ;;
           scale_out lg_dns sg2_id
         else ret Fallthrough) ;;
  match fl with
  | Continue => ret tt
  | Fallthrough => lift (sleep 1)
  end.

(** [while not is_test_complete(lg_dns, log_name): ...] *)
Fixpoint monitor (fuel : nat) (lg_dns log_name sg2_id : string)
  : M (frame * world) unit :=
  match fuel with
  | O => diverge
  | S n =>
      complete <- lift (is_test_complete lg_dns log_name) ;;
      if complete : bool then ret tt
      else
        loop_body lg_dns log_name sg2_id ;;
        monitor n lg_dns log_name sg2_id
  end.

(** [int(time.time())] *)
Definition time_time : M world Z :=
  t <- now ;; ret (Z.quot t 1000000).

(** The [try] block of [main]. *)
Definition main_body (fuel : nat) : M (frame * world) unit :=
  lift (print_section "1 - create two security groups") ;;
  t <- lift time_time ;;
  let sg_name := "vm_scaling_project_sg_" ++ Str.of_Z t in
  g <- lift (aws (CreateSecurityGroup sg_name
                    "Security Group for VM Scaling Project")) ;;
  set_locals (set_sg g) ;;
  lift (aws (AuthorizeIngress g "tcp" 80 80 "0.0.0.0/0")) ;;
  let sg1_id := g in
  let sg2_id := g in
  lift (print [FS "Created Security Group: "; FS sg1_id]) ;;
  lift (print_section "2 - create LG") ;;
  lg_instance <- lift (create_instance (LOAD_GENERATOR_AMI config) sg1_id) ;;
  set_locals (append_instance_id (id lg_instance)) ;;
  let lg_dns := Str.of_opt (public_dns_name lg_instance) in
  lift (print [FS "Load Generator running: id="; FS (id lg_instance);
               FS " dns="; FS lg_dns]) ;;
  ws_instance <- lift (create_instance (WEB_SERVICE_AMI config) sg2_id) ;;
  set_locals (append_instance_id (id ws_instance)) ;;
  let web_service_dns := Str.of_opt (public_dns_name ws_instance) in
  lift (print [FS "First Web Service running: id="; FS (id ws_instance);
               FS " dns="; FS web_service_dns]) ;;
  lift (print_section
          "3. Submit the first WS instance DNS to LG, starting test.") ;;
  log_name <- lift (initialize_test fuel lg_dns web_service_dns) ;;
  lift (print [FS "Test Initialized. Log file: "; FS log_name]) ;;
  t0 <- lift now ;;
  set_locals (set_last_launch_time t0) ;;
  monitor fuel lg_dns log_name sg2_id.

(** The [finally] block of [main]. *)
Definition main_cleanup : M (frame * world) unit :=
  lift (print_section "Cleanup: Terminating Resources") ;;
  f <- get_locals ;;
  (match all_instance_ids f with
   | [] => ret tt
   | ids =>
       lift (aws (TerminateInstances ids)) ;;
       lift (print [FS "Terminated instances: "; FIds ids])
   end) ;;
  match sg f with
  | None => ret tt
  | Some g =>
      lift (print
        [FS "Waiting for instances to terminate before deleting SG..."]) ;;
      lift (sleep 60) ;;
      try_except
        (lift (aws (DeleteSecurityGroup g)) ;;
         lift (print [FS "Security Group deleted."]))
        is_Exception
        (fun e =>
           lift (print
             [FS ("Could not delete SG (usually because instances are "
                  ++ "still terminating): "); FS (exn_msg e)]))
  end.

Definition initial_frame : frame := Frame None [] 0.

Definition main (fuel : nat) : M world unit :=
  fun w =>
    match try_finally (main_body fuel) main_cleanup (initial_frame, w) with
    | Run o s ev => Run o (snd s) ev
    end.

End Script.

End Horizontal.


(* ================================================================== *)
(** ** python/task2/autoscaling.py *)
(* ================================================================== *)

(** *** Dictionaries and lists as the boto3 clients return them *)

Module Json.

Definition and_then {A B} (r : result A) (k : A -> result B) : result B :=
  match r with
  | Ok a => k a
  | Err e => Err e
  end.

Fixpoint assoc (k : string) (fields : list (string * json)) : option json :=
  match fields with
  | [] => None
  | (k', v) :: rest => if String.eqb k' k then Some v else assoc k rest
  end.

Definition not_subscriptable : exn :=
  Exn TypeError "object is not subscriptable".

(** [j[k]] for a string [k] *)
Definition get_key (k : string) (j : json) : result json :=
  match j with
  | JObj fields =>
      match assoc k fields with
      | Some v => Ok v
      | None => Err (Exn KeyError k)
      end
  | JList _ => Err (Exn TypeError "list indices must be integers or slices")
  | JStr _ => Err (Exn TypeError "string indices must be integers")
  | _ => Err not_subscriptable
  end.

(** [j[0]] *)
Definition first (j : json) : result json :=
  match j with
  | JList (x :: _) => Ok x
  | JList [] => Err (Exn IndexError "list index out of range")
  | JStr (String c _) => Ok (JStr (String c EmptyString))
  | JStr EmptyString => Err (Exn IndexError "string index out of range")
  | JObj _ => Err (Exn KeyError "0")
  | _ => Err not_subscriptable
  end.

(** The truth value of [j]. *)
Definition truthy (j : json) : bool :=
  match j with
  | JNull => false
  | JBool b => b
  | JNum z => negb (z =? 0)
  | JStr s => negb (String.eqb s "")
  | JList l => match l with [] => false | _ => true end
  | JObj f => match f with [] => false | _ => true end
  end.

Fixpoint chars (s : string) : list json :=
  match s with
  | EmptyString => []
  | String c s' => JStr (String c EmptyString) :: chars s'
  end.

(** The values [for x in j] runs through. *)
Definition iter (j : json) : result (list json) :=
  match j with
  | JList l => Ok l
  | JObj fields => Ok (map (fun kv => JStr (fst kv)) fields)
  | JStr s => Ok (chars s)
  | _ => Err (Exn TypeError "object is not iterable")
  end.

(** [j == s] for a string literal [s] *)
Definition eq_str (j : json) (s : string) : bool :=
  match j with
  | JStr s' => String.eqb s' s
  | _ => false
  end.

(** [repr(j)]; quotes inside strings are not escaped. *)
Fixpoint repr (j : json) : string :=
  match j with
  | JNull => "None"
  | JBool true => "True"
  | JBool false => "False"
  | JNum z => Str.of_Z z
  | JStr s => "'" ++ s ++ "'"
  | JList l => "[" ++ String.concat ", " (map repr l) ++ "]"
  | JObj fields =>
      "{" ++ String.concat ", "
               ((fix go (l : list (string * json)) : list string :=
                   match l with
                   | [] => []
                   | (k, v) :: rest => ("'" ++ k ++ "': " ++ repr v) :: go rest
                   end) fields)
          ++ "}"
  end.

(** [str(j)], as [format] and f-strings apply it. *)
Definition str (j : json) : string :=
  match j with
  | JStr s => s
  | _ => repr j
  end.

(** [sep.join(l)] *)
Fixpoint join (sep : string) (l : list json) : result string :=
  match l with
  | [] => Ok ""
  | JStr s :: rest =>
      match rest with
      | [] => Ok s
      | _ => and_then (join sep rest) (fun t => Ok (s ++ sep ++ t))
      end
  | _ :: _ => Err (Exn TypeError "sequence item: expected str instance")
  end.

(** [[f(x) for x in l]] *)
Fixpoint for_each {A} (f : json -> result A) (l : list json)
  : result (list A) :=
  match l with
  | [] => Ok []
  | x :: rest =>
      and_then (f x) (fun y =>
      and_then (for_each f rest) (fun ys => Ok (y :: ys)))
  end.

End Json.

Module Autoscaling.

Import Sys.

(** What the module reads when it is loaded: the configuration file and
    the three entries bound to module-level names. *)
Record settings : Type := Settings {
  configuration : json;
  LOAD_GENERATOR_AMI : json;
  WEB_SERVICE_AMI : json;
  INSTANCE_TYPE : json
}.

Definition TAGS : json :=
  JList [JObj [("Key", JStr "Project"); ("Value", JStr "vm-scaling")]].

(** How the body of a [while True] loop ends. *)
Inductive flow : Type := Next | Break.

Section Script.

Variable config : settings.

(** [configuration[key]] *)
Definition cfg (key : string) : M world json :=
  of_result (Json.get_key key (configuration config)).

Definition get_default_vpc : M world json :=
  response <- aws (Client "ec2" "describe_vpcs"
    (JObj [("Filters",
            JList [JObj [("Name", JStr "isDefault");
                         ("Values", JList [JStr "true"])]])])) ;;
  of_result
    (Json.and_then (Json.get_key "Vpcs" response) (fun vpcs =>
     Json.and_then (Json.first vpcs) (fun vpc =>
     Json.get_key "VpcId" vpc))).

Definition get_subnets (vpc_id : json) : M world (list json) :=
  response <- aws (Client "ec2" "describe_subnets"
    (JObj [("Filters",
            JList [JObj [("Name", JStr "vpc-id");
                         ("Values", JList [vpc_id])]])])) ;;
  of_result
    (Json.and_then (Json.get_key "Subnets" response) (fun subnets =>
     Json.and_then (Json.iter subnets) (fun l =>
     Json.for_each (Json.get_key "SubnetId") l))).

Definition create_instance (ami sg_id : json) : M world json :=
  print [FS "Now launching instance with AMI: "; FJ ami; FS "..."] ;;
  response <- aws (Client "ec2" "run_instances"
    (JObj [("ImageId", ami);
           ("InstanceType", INSTANCE_TYPE config);
           ("SecurityGroupIds", JList [sg_id]);
           ("MinCount", JNum 1);
           ("MaxCount", JNum 1);
           ("TagSpecifications",
            JList [JObj [("ResourceType", JStr "instance");
                         ("Tags", TAGS)]])])) ;;
  instance_id <- of_result
    (Json.and_then (Json.get_key "Instances" response) (fun l =>
     Json.and_then (Json.first l) (fun i =>
     Json.get_key "InstanceId" i))) ;;
  print [FS "Now waiting for the instance "; FJ instance_id;
         FS " to be running..."] ;;
  aws (WaitFor "ec2" "instance_running"
         (JObj [("InstanceIds", JList [instance_id])])) ;;
  desc <- aws (Client "ec2" "describe_instances"
                 (JObj [("InstanceIds", JList [instance_id])])) ;;
  of_result
    (Json.and_then (Json.get_key "Reservations" desc) (fun rs =>
     Json.and_then (Json.first rs) (fun r =>
     Json.and_then (Json.get_key "Instances" r) (fun l =>
     Json.first l)))).

Definition get_test_id (resp : response) : result string :=
  match Re.findall (text resp) with
  | x :: _ => Ok x
  | [] => Err (Exn IndexError "list index out of range")
  end.

(** The loop shared by [initialize_test] and [initialize_warmup]. *)
Fixpoint initialize_loop (fuel : nat) (add_ws_string : string)
    (resp : option response) : M world (option response) :=
  match fuel with
  | O => diverge
  | S n =>
      if Horizontal.not_started resp then
        resp' <-
          try_except
            (r <- requests_get add_ws_string None ;; ret (Some r))
            is_ConnectionError
            (fun _ => sleep 1 ;; ret resp) ;;
        initialize_loop n add_ws_string resp'
      else ret resp
  end.

Definition test_id_of (resp : option response) : M world string :=
  match resp with
  | Some r => of_result (get_test_id r)
  | None => raise (Exn TypeError "'NoneType' object has no attribute 'text'")
  end.

Definition initialize_test (fuel : nat)
    (load_generator_dns first_web_service_dns : json) : M world string :=
  let add_ws_string :=
    "http://" ++ Json.str load_generator_dns ++ "/autoscaling?dns="
              ++ Json.str first_web_service_dns in
  resp <- initialize_loop fuel add_ws_string None ;;
  test_id_of resp.

Definition initialize_warmup (fuel : nat)
    (load_generator_dns load_balancer_dns : json) : M world string :=
  let add_ws_string :=
    "http://" ++ Json.str load_generator_dns ++ "/warmup?dns="
              ++ Json.str load_balancer_dns in
  resp <- initialize_loop fuel add_ws_string None ;;
  test_id_of resp.

Definition print_section (msg : string) : M world unit :=
  let hashes := "########################################" in
  print [FS (hashes ++ Horizontal.nl ++ "# " ++ msg ++ Horizontal.nl
                    ++ hashes)].

Definition is_test_complete (load_generator_dns : json) (log_name : string)
  : M world bool :=
  let log_string :=
    "http://" ++ Json.str load_generator_dns ++ "/log?name=" ++ log_name in
  open_w (log_name ++ ".log") ;;
  try_except
    (r <- requests_get log_string None ;;
     let log_text := text r in
     write (log_name ++ ".log") log_text)
    is_Exception
    (fun _ => ret tt) ;;
  close (log_name ++ ".log") ;;
  content <- read (log_name ++ ".log") ;;
  ret (Str.contains "[Test finished]" content).

(** The [while True] loop of [destroy_resources]. *)
Fixpoint await_group_deletion (fuel : nat) : M world unit :=
  match fuel with
  | O => diverge
  | S n =>
      fl <-
        try_except
          (name <- cfg "auto_scaling_group_name" ;;
           desc <- aws (Client "autoscaling" "describe_auto_scaling_groups"
                          (JObj [("AutoScalingGroupNames", JList [name])])) ;;
           groups <- of_result (Json.get_key "AutoScalingGroups" desc) ;;
           if negb (Json.truthy groups) then ret Break
           else
             groups' <- of_result (Json.get_key "AutoScalingGroups" desc) ;;
             status <- of_result
               (Json.and_then (Json.first groups')
                              (Json.get_key "Status")) ;;
             if Json.eq_str status "Delete in progress" then
               print [FS "ASG deletion in progress..."] ;;
               sleep 5 ;;
               ret Next
             else ret Next)
          is_Exception
          (fun _ => ret Break) ;;
      match fl with
      | Break => ret tt
      | Next => await_group_deletion n
      end
  end.

(** The identifiers collected by the two nested [for] loops. *)
Definition ids_of_reservations (instances : json) : result (list json) :=
  Json.and_then (Json.get_key "Reservations" instances) (fun rs =>
  Json.and_then (Json.iter rs) (fun rl =>
  Json.and_then
    (Json.for_each
       (fun r =>
          Json.and_then (Json.get_key "Instances" r) (fun is_ =>
          Json.and_then (Json.iter is_) (fun il =>
          Json.for_each (Json.get_key "InstanceId") il)))
       rl)
    (fun ll => Ok (concat ll)))).

Definition destroy_resources (fuel : nat) : M world unit :=
  print_section "Cleanup: Terminating Resources" ;;
  try_except
    (print [FS "Now deleting the Auto Scaling Group..."] ;;
     name <- cfg "auto_scaling_group_name" ;;
     aws (Client "autoscaling" "delete_auto_scaling_group"
            (JObj [("AutoScalingGroupName", name);
                   ("ForceDelete", JBool true)])) ;;
     await_group_deletion fuel)
    is_Exception
    (fun e => print [FS "There was an error while deleting ASG: ";
                     FS (exn_msg e)]) ;;
  try_except
    (print [FS "Now deleting the launch template..."] ;;
     name <- cfg "launch_template_name" ;;
     aws (Client "ec2" "delete_launch_template"
            (JObj [("LaunchTemplateName", name)])) ;;
     ret tt)
    is_Exception
    (fun e => print [FS "Error deleting LT: "; FS (exn_msg e)]) ;;
  try_except
    (name <- cfg "load_balancer_name" ;;
     lbs <- aws (Client "elbv2" "describe_load_balancers"
                   (JObj [("Names", JList [name])])) ;;
     l <- of_result (Json.get_key "LoadBalancers" lbs) ;;
     if Json.truthy l then
       lb_arn <- of_result
         (Json.and_then (Json.get_key "LoadBalancers" lbs) (fun l' =>
          Json.and_then (Json.first l')
                        (Json.get_key "LoadBalancerArn"))) ;;
       print [FS "Deleting Load Balancer..."] ;;
       aws (Client "elbv2" "delete_load_balancer"
              (JObj [("LoadBalancerArn", lb_arn)])) ;;
       print [FS "Waiting for LB deletion..."] ;;
       aws (WaitFor "elbv2" "load_balancers_deleted"
              (JObj [("LoadBalancerArns", JList [lb_arn])])) ;;
       sleep 10
     else ret tt)
    is_Exception
    (fun e => print [FS "Error deleting LB: "; FS (exn_msg e)]) ;;
  try_except
    (name <- cfg "auto_scaling_target_group" ;;
     tgs <- aws (Client "elbv2" "describe_target_groups"
                   (JObj [("Names", JList [name])])) ;;
     l <- of_result (Json.get_key "TargetGroups" tgs) ;;
     if Json.truthy l then
       tg_arn <- of_result
         (Json.and_then (Json.get_key "TargetGroups" tgs) (fun l' =>
          Json.and_then (Json.first l')
                        (Json.get_key "TargetGroupArn"))) ;;
       print [FS "Deleting Target Group..."] ;;
       aws (Client "elbv2" "delete_target_group"
              (JObj [("TargetGroupArn", tg_arn)])) ;;
       ret tt
     else ret tt)
    is_Exception
    (fun e => print [FS "Error deleting TG: "; FS (exn_msg e)]) ;;
  try_except
    (print [FS "Now terminating the Load Generator..."] ;;
     instances <- aws (Client "ec2" "describe_instances"
       (JObj [("Filters",
               JList [JObj [("Name", JStr "tag:Project");
                            ("Values", JList [JStr "vm-scaling"])];
                      JObj [("Name", JStr "instance-state-name");
                            ("Values", JList [JStr "running";
                                              JStr "pending"])]])])) ;;
     ids_to_term <- of_result (ids_of_reservations instances) ;;
     match ids_to_term with
     | [] => ret tt
     | _ =>
         aws (Client "ec2" "terminate_instances"
                (JObj [("InstanceIds", JList ids_to_term)])) ;;
         print [FS "Terminating: "; FJ (JList ids_to_term)] ;;
         aws (WaitFor "ec2" "instance_terminated"
                (JObj [("InstanceIds", JList ids_to_term)]))
     end)
    is_Exception
    (fun e => print [FS "Error terminating instances: "; FS (exn_msg e)]) ;;
  try_except
    (print [FS "Now deleting the CloudWatch Alarms..."] ;;
     aws (Client "cloudwatch" "delete_alarms"
            (JObj [("AlarmNames",
                    JList [JStr "ScaleOutAlarm"; JStr "ScaleInAlarm"])])) ;;
     ret tt)
    is_Exception
    (fun e => print [FS "Error deleting alarms: "; FS (exn_msg e)]).

(** [while not is_test_complete(lg_dns, log_name): time.sleep(pause)] *)
Fixpoint await_test (fuel : nat) (lg_dns : json) (log_name : string)
    (pause : Z) : M world unit :=
  match fuel with
  | O => diverge
  | S n =>
      complete <- is_test_complete lg_dns log_name ;;
      if complete : bool then ret tt
      else sleep pause ;; await_test n lg_dns log_name pause
  end.

Definition http_ingress (group_id : json) (port : Z) : aws_req :=
  Client "ec2" "authorize_security_group_ingress"
    (JObj [("GroupId", group_id);
           ("IpPermissions",
            JList [JObj [("IpProtocol", JStr "tcp");
                         ("FromPort", JNum port);
                         ("ToPort", JNum port);
                         ("IpRanges",
                          JList [JObj [("CidrIp", JStr "0.0.0.0/0")]])]])]).

Definition metric_alarm (alarm_name asg_name period evaluation_periods
    threshold : json) (comparison : string) (policy_arn : json) : aws_req :=
  Client "cloudwatch" "put_metric_alarm"
    (JObj [("AlarmName", alarm_name);
           ("MetricName", JStr "CPUUtilization");
           ("Namespace", JStr "AWS/EC2");
           ("Statistic", JStr "Average");
           ("Dimensions",
            JList [JObj [("Name", JStr "AutoScalingGroupName");
                         ("Value", asg_name)]]);
           ("Period", period);
           ("EvaluationPeriods", evaluation_periods);
           ("Threshold", threshold);
           ("ComparisonOperator", JStr comparison);
           ("AlarmActions", JList [policy_arn])]).

(** The [try] block of [main]. *)
Definition main_body (fuel : nat) : M world unit :=
  vpc_id <- get_default_vpc ;;
  subnets <- get_subnets vpc_id ;;
  print_section "1 - create two security groups" ;;
  t1 <- Horizontal.time_time ;;
  let sg_lg_name := "sg_lg_" ++ Str.of_Z t1 in
  sg1_resp <- aws (Client "ec2" "create_security_group"
    (JObj [("GroupName", JStr sg_lg_name);
           ("Description", JStr "LG SG");
           ("VpcId", vpc_id)])) ;;
  sg1_id <- of_result (Json.get_key "GroupId" sg1_resp) ;;
  aws (http_ingress sg1_id 80) ;;
  aws (http_ingress sg1_id 22) ;;
  print [FS "Created LG SG: "; FJ sg1_id] ;;
  t2 <- Horizontal.time_time ;;
  let sg_web_name := "sg_web_" ++ Str.of_Z t2 in
  sg2_resp <- aws (Client "ec2" "create_security_group"
    (JObj [("GroupName", JStr sg_web_name);
           ("Description", JStr "Web/ELB SG");
           ("VpcId", vpc_id)])) ;;
  sg2_id <- of_result (Json.get_key "GroupId" sg2_resp) ;;
  aws (http_ingress sg2_id 80) ;;
  print [FS "Created Web SG: "; FJ sg2_id] ;;
  print_section "2 - create LG" ;;
  lg_instance <- create_instance (LOAD_GENERATOR_AMI config) sg1_id ;;
  lg_id <- of_result (Json.get_key "InstanceId" lg_instance) ;;
  lg_dns <- of_result (Json.get_key "PublicDnsName" lg_instance) ;;
  print [FS "Load Generator running: id="; FJ lg_id; FS " dns="; FJ lg_dns] ;;
  print_section "3. Create LT (Launch Template)" ;;
  lt_name <- cfg "launch_template_name" ;;
  aws (Client "ec2" "create_launch_template"
    (JObj [("LaunchTemplateName", lt_name);
           ("LaunchTemplateData",
            JObj [("ImageId", WEB_SERVICE_AMI config);
                  ("InstanceType", INSTANCE_TYPE config);
                  ("SecurityGroupIds", JList [sg2_id]);
                  ("TagSpecifications",
                   JList [JObj [("ResourceType", JStr "instance");
                                ("Tags", TAGS)]]);
                  ("Monitoring", JObj [("Enabled", JBool true)])])])) ;;
  print [FS "Launch Template "; FJ lt_name; FS " created."] ;;
  print_section "4. Create TG (Target Group)" ;;
  tg_name <- cfg "auto_scaling_target_group" ;;
  tg_resp <- aws (Client "elbv2" "create_target_group"
    (JObj [("Name", tg_name);
           ("Protocol", JStr "HTTP");
           ("Port", JNum 80);
           ("VpcId", vpc_id);
           ("HealthCheckProtocol", JStr "HTTP");
           ("HealthCheckPath", JStr "/");
           ("TargetType", JStr "instance")])) ;;
  tg_arn <- of_result
    (Json.and_then (Json.get_key "TargetGroups" tg_resp) (fun l =>
     Json.and_then (Json.first l) (Json.get_key "TargetGroupArn"))) ;;
  print [FS "Target Group created: "; FJ tg_arn] ;;
  print_section "5. Create ELB (Application Load Balancer)" ;;
  lb_name <- cfg "load_balancer_name" ;;
  lb_resp <- aws (Client "elbv2" "create_load_balancer"
    (JObj [("Name", lb_name);
           ("Subnets", JList subnets);
           ("SecurityGroups", JList [sg2_id]);
           ("Scheme", JStr "internet-facing");
           ("Tags", TAGS);
           ("Type", JStr "application")])) ;;
  lb_arn <- of_result
    (Json.and_then (Json.get_key "LoadBalancers" lb_resp) (fun l =>
     Json.and_then (Json.first l) (Json.get_key "LoadBalancerArn"))) ;;
  lb_dns <- of_result
    (Json.and_then (Json.get_key "LoadBalancers" lb_resp) (fun l =>
     Json.and_then (Json.first l) (Json.get_key "DNSName"))) ;;
  print [FS "Waiting for Load Balancer to be active..."] ;;
  aws (WaitFor "elbv2" "load_balancer_available"
         (JObj [("LoadBalancerArns", JList [lb_arn])])) ;;
  print [FS "lb started. ARN="; FJ lb_arn; FS ", DNS="; FJ lb_dns] ;;
  print_section "6. Associate ELB with target group" ;;
  aws (Client "elbv2" "create_listener"
    (JObj [("LoadBalancerArn", lb_arn);
           ("Protocol", JStr "HTTP");
           ("Port", JNum 80);
           ("DefaultActions",
            JList [JObj [("Type", JStr "forward");
                         ("TargetGroupArn", tg_arn)]])])) ;;
  print [FS "Listener created."] ;;
  print_section "7. Create ASG (Auto Scaling Group)" ;;
  asg_name <- cfg "auto_scaling_group_name" ;;
  min_size <- cfg "asg_min_size" ;;
  max_size <- cfg "asg_max_size" ;;
  default_cooldown <- cfg "asg_default_cool_down_period" ;;
  zones <- of_result (Json.join "," subnets) ;;
  grace <- cfg "health_check_grace_period" ;;
  aws (Client "autoscaling" "create_auto_scaling_group"
    (JObj [("AutoScalingGroupName", asg_name);
           ("LaunchTemplate",
            JObj [("LaunchTemplateName", lt_name);
                  ("Version", JStr "$Latest")]);
           ("MinSize", min_size);
           ("MaxSize", max_size);
           ("DesiredCapacity", JNum 1);
           ("DefaultCooldown", default_cooldown);
           ("TargetGroupARNs", JList [tg_arn]);
           ("VPCZoneIdentifier", JStr zones);
           ("Tags",
            JList [JObj [("Key", JStr "Project");
                         ("Value", JStr "vm-scaling");
                         ("PropagateAtLaunch", JBool true)]]);
           ("HealthCheckType", JStr "EC2");
           ("HealthCheckGracePeriod", grace)])) ;;
  print [FS "ASG "; FJ asg_name; FS " created."] ;;
  print_section "8. Create policy and attached to ASG" ;;
  out_adjustment <- cfg "scale_out_adjustment" ;;
  out_cooldown <- cfg "cool_down_period_scale_out" ;;
  scale_out_resp <- aws (Client "autoscaling" "put_scaling_policy"
    (JObj [("AutoScalingGroupName", asg_name);
           ("PolicyName", JStr "ScaleOutPolicy");
           ("PolicyType", JStr "SimpleScaling");
           ("AdjustmentType", JStr "ChangeInCapacity");
           ("ScalingAdjustment", out_adjustment);
           ("Cooldown", out_cooldown)])) ;;
  scale_out_arn <- of_result (Json.get_key "PolicyARN" scale_out_resp) ;;
  in_adjustment <- cfg "scale_in_adjustment" ;;
  in_cooldown <- cfg "cool_down_period_scale_in" ;;
  scale_in_resp <- aws (Client "autoscaling" "put_scaling_policy"
    (JObj [("AutoScalingGroupName", asg_name);
           ("PolicyName", JStr "ScaleInPolicy");
           ("PolicyType", JStr "SimpleScaling");
           ("AdjustmentType", JStr "ChangeInCapacity");
           ("ScalingAdjustment", in_adjustment);
           ("Cooldown", in_cooldown)])) ;;
  scale_in_arn <- of_result (Json.get_key "PolicyARN" scale_in_resp) ;;
  print [FS "Scaling policies created."] ;;
  print_section "9. Create Cloud Watch alarm." ;;
  period <- cfg "alarm_period" ;;
  out_periods <- cfg "alarm_evaluation_periods_scale_out" ;;
  upper <- cfg "cpu_upper_threshold" ;;
  aws (metric_alarm (JStr "ScaleOutAlarm") asg_name period out_periods upper
         "GreaterThanThreshold" scale_out_arn) ;;
  period' <- cfg "alarm_period" ;;
  in_periods <- cfg "alarm_evaluation_periods_scale_in" ;;
  lower <- cfg "cpu_lower_threshold" ;;
  aws (metric_alarm (JStr "ScaleInAlarm") asg_name period' in_periods lower
         "LessThanThreshold" scale_in_arn) ;;
  print [FS "CloudWatch Alarms created."] ;;
  print_section "10. Submit ELB DNS to LG, starting warm up test." ;;
  sleep 10 ;;
  warmup_log_name <- initialize_warmup fuel lg_dns lb_dns ;;
  print [FS "Warmup log: "; FS warmup_log_name] ;;
  await_test fuel lg_dns warmup_log_name 10 ;;
  print_section "10.5. Reset ASG to 1 instance before main test" ;;
  print [FS ("The warmup likely scaled the ASG up. "
             ++ "Forcing scale down to 1 to save budget...")] ;;
  aws (Client "autoscaling" "update_auto_scaling_group"
    (JObj [("AutoScalingGroupName", asg_name);
           ("DesiredCapacity", JNum 1)])) ;;
  sleep 60 ;;
  print_section "11. Submit ELB DNS to LG, starting auto scaling test." ;;
  log_name <- initialize_test fuel lg_dns lb_dns ;;
  print [FS "Test log: "; FS log_name] ;;
  await_test fuel lg_dns log_name 20 ;;
  destroy_resources fuel.

Definition main (fuel : nat) : M world unit :=
  try_except
    (main_body fuel)
    is_Exception
    (fun e =>
       print [FS "CRITICAL ERROR: "; FS (exn_msg e)] ;;
       destroy_resources fuel).

End Script.

End Autoscaling.
(* ================================================================== *)
(** ** Observations on event lists *)
(* ================================================================== *)

Module Obs.

(** A health probe is the only request made with a time-out. *)
Definition is_probe (e : event) : bool :=
  match e with
  | EvGet _ (Some _) _ => true
  | _ => false
  end.

Definition probes (l : list event) : nat := List.length (filter is_probe l).

(** The answer to the last probe of an event list. *)
Fixpoint last_probe (l : list event) : option (result response) :=
  match l with
  | [] => None
  | e :: l' =>
      match last_probe l' with
      | Some a => Some a
      | None =>
          match e with
          | EvGet _ (Some _) a => Some a
          | _ => None
          end
      end
  end.

(** A probe that does not show a healthy server: a transport error or a
    status other than 200. *)
Definition probe_fails (a : result response) : Prop :=
  match a with
  | Err e => is_RequestException e = true
  | Ok r => status_code r <> 200
  end.

End Obs.

(** ** The pattern [name=(.*log)], in words *)

Module Pattern.

(** No character of [s] is a newline. *)
Fixpoint one_line (s : string) : Prop :=
  match s with
  | EmptyString => True
  | String c s' => c <> Re.newline /\ one_line s'
  end.

(** The pattern matches [text] at offset [i] with [cap] as its group:
    [text] reads ["name="] at [i], then [cap], which is some characters of
    one line followed by ["log"]. *)
Definition matches (text : string) (i : nat) (cap : string) : Prop :=
  exists pre body post,
    text = pre ++ "name=" ++ cap ++ post /\
    String.length pre = i /\
    cap = body ++ "log" /\
    one_line body.

(** [cap] is the group of the first match: the match at the least offset
    and, the star being greedy, the longest one there. *)
Definition first_capture (text cap : string) : Prop :=
  exists i,
    matches text i cap /\
    forall j cap',
      matches text j cap' ->
      (i < j)%nat \/ (i = j /\ (String.length cap' <= String.length cap)%nat).

End Pattern.

(** ** Observations on an iteration of the monitoring loop *)

Module Watch.

(** A scale-out attempt starts with the request for a new instance. *)
Definition is_launch (e : event) : bool :=
  match e with
  | EvAws (CreateInstances _ _ _) _ => true
  | _ => false
  end.

Definition launches (l : list event) : nat := List.length (filter is_launch l).

(** The start of the URL that registers a worker with the load generator
    [lg_dns]. *)
Definition add_prefix (lg_dns : string) : string :=
  "http://" ++ lg_dns ++ "/test/horizontal/add?dns=".

(** A registration request that came back with status 200. *)
Definition is_registration (lg_dns : string) (e : event) : bool :=
  match e with
  | EvGet url None (Ok a) =>
      String.prefix (add_prefix lg_dns) url && (status_code a =? 200)
  | _ => false
  end.

Definition registered (lg_dns : string) (l : list event) : bool :=
  existsb (is_registration lg_dns) l.

(** The last reading of the clock in an event list. *)
Fixpoint last_now (l : list event) : option Z :=
  match l with
  | [] => None
  | e :: l' =>
      match last_now l' with
      | Some t => Some t
      | None =>
          match e with
          | EvNow t => Some t
          | _ => None
          end
      end
  end.

Definition is_sleep (e : event) : bool :=
  match e with
  | EvSleep _ => true
  | _ => false
  end.

(** Events of the cloud API other than a launch, and output. *)
Definition is_provisioning_step (e : event) : bool :=
  match e with
  | EvAws (WaitUntilRunning _) _ => true
  | EvAws (Reload _) _ => true
  | EvPrint _ => true
  | _ => false
  end.

(** Events of the health check: probes, pauses and output. *)
Definition is_health_step (e : event) : bool :=
  match e with
  | EvGet _ (Some _) _ => true
  | EvSleep _ => true
  | EvPrint _ => true
  | _ => false
  end.

(** What an iteration prints and reads before it decides. *)
Definition report (rps : Q) (t : Z) (f : Horizontal.frame) : list event :=
  [EvNow t;
   EvPrint [FS "RPS: "; FQ rps; FS " | Time since last launch: ";
            FQ2 (Horizontal.total_seconds t (Horizontal.last_launch_time f));
            FS "s"]].

Definition low : event :=
  EvPrint [FS "RPS is low. Attempting to launch new WS..."].

(** The line an attempt prints when it has registered its instance. *)
Definition is_success_report (e : event) : bool :=
  match e with
  | EvPrint [FS a; FS _; FS b] =>
      String.eqb a "New WS " && String.eqb b " successfully added."
  | _ => false
  end.

(** The lines an attempt prints when it gives up: after an exception,
    without a DNS name, after a failed health check, after a refused
    registration. *)
Definition is_failure_report (e : event) : bool :=
  match e with
  | EvPrint [FS a; FS _] =>
      String.eqb a "Scaling paused (likely AWS limit or error): "
  | EvPrint [FS a] =>
      String.eqb a "Error: Instance has no DNS name yet."
      || String.eqb a "Skipping add: Server failed health check."
  | EvPrint [FS a; FZ _] => String.eqb a "Error adding to LG: "
  | _ => false
  end.

Definition no_dns_report : event :=
  EvPrint [FS "Error: Instance has no DNS name yet."].

(** The last event of a list. *)
Definition final (l : list event) : event := last l (EvSleep 0).

(** The line the handler of the attempt prints. *)
Definition paused (e : exn) : event :=
  EvPrint [FS "Scaling paused (likely AWS limit or error): "; FS (exn_msg e)].

End Watch.

(** ** The rates a report holds, in words *)

Module Report.

(** The section headers of a report, in the order of their lines, each as
    often as it occurs. *)
Definition headers (report : string) : list string :=
  flat_map
    (fun line =>
       match ConfigParser.section_header (Str.strip line) with
       | Some name => [name]
       | None => []
       end)
    (ConfigParser.split_lines report).





(** The headers that report a rate. *)
Definition rate_headers (report : string) : list string :=
  filter (Str.contains "Current rps=") (headers report).

(** The most recently reported rate: the value of the last such header. *)
Definition latest_rate (report : string) : option (result Q) :=
  match rev (rate_headers report) with
  | [] => None
  | h :: _ =>
      Some (Float.of_string (Str.drop (String.length "Current rps=") h))
  end.

End Report.

(** ** Observations on the release of resources *)

Module Teardown.

Definition creates_security_group (e : event) : bool :=
  match e with
  | EvAws (CreateSecurityGroup _ _) None => true
  | EvAws (Client _ op _) None => String.eqb op "create_security_group"
  | _ => false
  end.

Definition deletes_security_group (e : event) : bool :=
  match e with
  | EvAws (DeleteSecurityGroup _) _ => true
  | EvAws (Client _ op _) _ => String.eqb op "delete_security_group"
  | _ => false
  end.

Definition terminates_instances (e : event) : bool :=
  match e with
  | EvAws (TerminateInstances _) _ => true
  | EvAws (Client _ op _) _ => String.eqb op "terminate_instances"
  | _ => false
  end.

Definition count (p : event -> bool) (l : list event) : nat :=
  List.length (filter p l).

(** No event of a computation satisfies [p], whatever state it starts
    in. *)
Definition never {S A} (p : event -> bool) (m : M S A) : Prop :=
  forall s, existsb p (evs (m s)) = false.

End Teardown.

(** ** Observations on the start of a test *)

Module Start.

(** An answer after which the loop of [initialize_test] asks again: a
    status other than 200, or a connection error. *)
Definition retried (a : result response) : bool :=
  match a with
  | Ok r => negb (status_code r =? 200)
  | Err e => is_ConnectionError e
  end.

(** The events of a round that is retried: the request and, after a
    connection error, a pause of one second. *)
Definition round (url : string) (a : result response) : list event :=
  match a with
  | Ok _ => [EvGet url None a]
  | Err _ => [EvGet url None a; EvSleep 1]
  end.

(** The events of [n] retried rounds, the [k]-th of which was answered
    [answer k]. *)
Fixpoint rounds (url : string) (answer : nat -> result response) (n : nat)
  : list event :=
  match n with
  | O => []
  | S k => round url (answer O) ++ rounds url (fun i => answer (S i)) k
  end.

(** What the function makes of the answer that ends the loop. *)
Definition started (a : result response) : outcome string :=
  match a with
  | Ok r =>
      match Horizontal.get_test_id r with
      | Ok name => Ret name
      | Err e => Raise e
      end
  | Err e => Raise e
  end.

Definition is_request (e : event) : bool :=
  match e with
  | EvGet _ _ _ => true
  | _ => false
  end.

Definition requests (l : list event) : nat := List.length (filter is_request l).

End Start.

(** ** Time spent asleep *)

Module Pauses.

(** The seconds slept over an event list. *)
Fixpoint slept (l : list event) : Z :=
  match l with
  | [] => 0
  | EvSleep s :: l' => s + slept l'
  | _ :: l' => slept l'
  end.

End Pauses.

(** ** Observations on [add_web_service_instance] *)

Module Submit.

Definition submitted : event := EvPrint [FS "New WS submitted to LG."].

Definition not_submitted : event :=
  EvPrint [FS "New WS not submitted because test already completed."].

(** How the events of the function end when it returns: with a
    registration that came back with status 200, or without any and with a
    fetched log that holds the terminal marker. *)
Definition submission (lg_dns log_name : string) (l : list event) : Prop :=
  (Watch.registered lg_dns l = true /\ Watch.final l = submitted) \/
  (Watch.registered lg_dns l = false /\ Watch.final l = not_submitted /\
   exists a,
     In (EvGet (Horizontal.log_url lg_dns log_name) None (Ok a)) l /\
     Str.contains "[Test finished]" (text a) = true).

End Submit.

(** ** Observations on the calls of the autoscaling script *)

Module Calls.

(** A call [client.op(...)] on the boto3 client of [service]. *)
Definition is_call (service op : string) (e : event) : bool :=
  match e with
  | EvAws (Client s o _) _ => String.eqb s service && String.eqb o op
  | _ => false
  end.

(** What [print_section] prints for [msg]. *)
Definition heading (msg : string) : string :=
  "########################################" ++ Horizontal.nl
    ++ "# " ++ msg ++ Horizontal.nl
    ++ "########################################".

Definition is_heading (msg : string) (e : event) : bool :=
  match e with
  | EvPrint [FS s] => String.eqb s (heading msg)
  | _ => false
  end.

(** The configuration file holds an entry for [key]. *)
Definition has_key (key : string) (configuration : json) : Prop :=
  exists v, Json.get_key key configuration = Ok v.

End Calls.

(** ** How computations end *)

Module Flow.

(** No exception leaves [m]. *)
Definition no_raise {S A} (m : M S A) : Prop :=
  forall s e, res (m s) <> Raise e.

(** [m] returns, whatever the state. *)
Definition returns {S A} (m : M S A) : Prop :=
  forall s, exists a, res (m s) = Ret a.

(** However [m] ends, [n] of its events satisfy [p]. *)
Definition always {S A} (p : event -> bool) (n : nat) (m : M S A) : Prop :=
  forall s, Teardown.count p (evs (m s)) = n.

(** When [m] returns, [n] of its events satisfy [p]. *)
Definition tally {S A} (p : event -> bool) (n : nat) (m : M S A) : Prop :=
  forall s a, res (m s) = Ret a -> Teardown.count p (evs (m s)) = n.

(** When [m] returns, [n] of its events satisfy [p]; when it raises,
    none does. *)
Definition settles {S A} (p : event -> bool) (n : nat) (m : M S A) : Prop :=
  forall s,
    match res (m s) with
    | Ret _ => Teardown.count p (evs (m s)) = n
    | Raise _ => Teardown.count p (evs (m s)) = 0%nat
    | Diverge => True
    end.

End Flow.

(** ** Observations on the polling of a test *)

Module Poll.

(** An answer to the fetch of the log that shows the test finished. *)
Definition finished (a : result response) : bool :=
  match a with
  | Ok r => Str.contains "[Test finished]" (text r)
  | Err _ => false
  end.

(** What an answer leaves in the log file. *)
Definition saved (a : result response) : string :=
  match a with
  | Ok r => text r
  | Err _ => ""
  end.

(** The events of [n] polls that did not end the wait, the [k]-th of which
    was answered [answer k]: each fetch is followed by the pause. *)
Fixpoint polls (url : string) (pause : Z) (answer : nat -> result response)
    (n : nat) : list event :=
  match n with
  | O => []
  | S k =>
      EvGet url None (answer O) :: EvSleep pause
        :: polls url pause (fun i => answer (S i)) k
  end.

End Poll.

(** ** Observations on the termination of instances by tag *)

Module Tagged.

(** The query of [destroy_resources] for the instances to terminate: those
    that carry the project tag and are running or pending. *)
Definition query : aws_req :=
  Client "ec2" "describe_instances"
    (JObj [("Filters",
            JList [JObj [("Name", JStr "tag:Project");
                         ("Values", JList [JStr "vm-scaling"])];
                   JObj [("Name", JStr "instance-state-name");
                         ("Values", JList [JStr "running";
                                           JStr "pending"])]])]).

Definition is_aws (e : event) : bool :=
  match e with
  | EvAws _ _ => true
  | _ => false
  end.

(** The calls to the cloud API among the events, in order. *)
Definition calls (l : list event) : list event := filter is_aws l.

(** The cloud answers as its script says, whatever [m] does, and the
    count of the calls advances by the calls that [m] makes. *)
Definition keeps {A} (m : M world A) : Prop :=
  forall w,
    aws_script (fin (m w)) = aws_script w /\
    aws_calls (fin (m w))
    = (aws_calls w + List.length (calls (evs (m w))))%nat.

(** Every request of [m] to terminate instances names the instances that
    the cloud listed in answer to a query that [m] made, its [k]-th call:
    all the instances of the answer, and at least one. *)
Definition listed {A} (m : M world A) : Prop :=
  forall w kwargs err,
    In (EvAws (Client "ec2" "terminate_instances" kwargs) err) (evs (m w)) ->
    exists k reply ids,
      nth_error (calls (evs (m w))) k = Some (EvAws query None) /\
      aws_script w (aws_calls w + k) query = Ok reply /\
      Autoscaling.ids_of_reservations reply = Ok ids /\
      ids <> [] /\
      kwargs = JObj [("InstanceIds", JList ids)].

End Tagged.

(* ================================================================== *)
(** ** Concrete worlds *)
(* ================================================================== *)

Module Scenarios.

Import Horizontal.

(** A cloud API that grants every request. *)
Definition aws_grants (r : aws_req) : result (aws_reply r) :=
  match r return result (aws_reply r) with
  | CreateInstances _ _ _ => Ok "i-0a1b2c3d"
  | Reload _ => Ok (Some "ec2-3-80-1-7.compute-1.amazonaws.com")
  | CreateSecurityGroup _ _ => Ok "sg-01234567"
  | Client _ _ _ => Ok JNull
  | WaitUntilRunning _ => Ok tt
  | AuthorizeIngress _ _ _ _ _ => Ok tt
  | TerminateInstances _ => Ok tt
  | DeleteSecurityGroup _ => Ok tt
  | WaitFor _ _ _ => Ok tt
  end.

Definition refused : exn := Exn ConnectionError "Connection refused".

(** A clock that advances by one second per reading. *)
Definition ticking (n : nat) : Z := Z.of_nat n * 1000000.

(** A working directory that can be written to and has no subdirectory:
    a name that holds a slash or is longer than 255 bytes is refused. *)
Definition directory (n : nat) (path : string) : result unit :=
  if Str.contains "/" path then
    Err (Exn OSError ("No such file or directory: " ++ path))
  else if (255 <? String.length path)%nat then
    Err (Exn OSError ("File name too long: " ++ path))
  else Ok tt.

(** Nothing answers over HTTP. *)
Definition unreachable : world :=
  World (fun _ _ _ => Err refused) 0 ticking 0 (fun _ => aws_grants) 0
        directory 0 [].

Definition config : configuration :=
  Configuration "ami-0469ff4742c562d63" "ami-0e3d567ccafde16c5" "m5.large".

Definition lg : string := "ec2-54-1-2-3.compute-1.amazonaws.com".

Definition log : string := "test.1436.log".

Definition group : string := "sg-01234567".

Definition lines (l : list string) : string := String.concat nl l.

(** A load generator that answers every fetch of the log with [report],
    every probe with status [probe] and every registration with status
    [added]. *)
Definition serving (report : string) (probe added : Z)
  : nat -> string -> option Z -> result response :=
  fun _ url timeout =>
    match timeout with
    | Some _ => Ok (Response probe "")
    | None =>
        if String.prefix (Watch.add_prefix lg) url
        then Ok (Response added "")
        else Ok (Response 200 report)
    end.

(** A clock that advances by two hundred seconds per reading. *)
Definition slow (n : nat) : Z := (Z.of_nat n + 1) * 200000000.

(** A report with a low request rate. *)
Definition quiet_report : string :=
  lines ["; Test launched."; "[Test]"; "type=horizontal"; "testId=1436";
         "testFile=test.1436.log"; ""; "[Minute 1]";
         "ec2-3-80-1-7.compute-1.amazonaws.com=10.00";
         "[Current rps=10.00]"; ""].

(** A report with a request rate above the threshold. *)
Definition busy_report : string :=
  lines ["[Test]"; "type=horizontal"; ""; "[Minute 1]";
         "ec2-3-80-1-7.compute-1.amazonaws.com=80.00";
         "[Current rps=80.00]"; ""].

(** A report that ends with the terminal marker. *)
Definition finished_report : string :=
  lines ["[Test]"; "type=horizontal"; "[Minute 1]"; "[Current rps=62.50]";
         "[Test finished]"; ""].

(** The local variables of [main] as the loop finds them. *)
Definition monitoring : frame :=
  Frame (Some group) ["i-0000000a"; "i-0000000b"] 0.

(** Low rate, cool-down over, everything granted. *)
Definition calm : world :=
  World (serving quiet_report 200 200) 0 slow 0 (fun _ => aws_grants) 0
        directory 0 [].

(** High rate, cool-down over. *)
Definition busy : world :=
  World (serving busy_report 200 200) 0 slow 0 (fun _ => aws_grants) 0
        directory 0 [].

(** The local variables fifty seconds after a launch, as [slow] reads the
    clock. *)
Definition cooling : frame :=
  Frame (Some group) ["i-0000000a"; "i-0000000b"] 150000000.

(** The test is over. *)
Definition over : world :=
  World (serving finished_report 200 200) 0 slow 0 (fun _ => aws_grants) 0
        directory 0 [].

Definition vcpu_limit : exn :=
  Exn ClientError
      ("An error occurred (VcpuLimitExceeded) when calling the "
       ++ "RunInstances operation").

(** The account has reached its limit: no new instance is granted. *)
Definition aws_at_limit (r : aws_req) : result (aws_reply r) :=
  match r return result (aws_reply r) with
  | CreateInstances _ _ _ => Err vcpu_limit
  | r' => aws_grants r'
  end.

Definition capped : world :=
  World (serving quiet_report 200 200) 0 slow 0 (fun _ => aws_at_limit) 0
        directory 0 [].

(** New instances come up without a public DNS name. *)
Definition aws_without_dns (r : aws_req) : result (aws_reply r) :=
  match r return result (aws_reply r) with
  | Reload _ => Ok None
  | r' => aws_grants r'
  end.

Definition nameless : world :=
  World (serving quiet_report 200 200) 0 slow 0 (fun _ => aws_without_dns) 0
        directory 0 [].

(** A report in which the newest rate, 45, repeats an earlier one. *)
Definition repeating_report : string :=
  lines ["[Test]"; "type=horizontal"; "";
         "[Minute 1]"; "[Current rps=45]"; "";
         "[Minute 2]"; "[Current rps=10]"; "";
         "[Minute 3]"; "[Current rps=45]"; ""].

Definition repeating : world :=
  World (serving repeating_report 200 200) 0 slow 0 (fun _ => aws_grants) 0
        directory 0 [].

(** A report with the rates 10, 30 and 45, in this order. *)
Definition rising_report : string :=
  lines ["[Test]"; "type=horizontal"; "";
         "[Minute 1]"; "[Current rps=10]"; "";
         "[Minute 2]"; "[Current rps=30]"; "";
         "[Minute 3]"; "[Current rps=45]"; ""].

Definition rising : world :=
  World (serving rising_report 200 200) 0 slow 0 (fun _ => aws_grants) 0
        directory 0 [].

(** *** The autoscaling script *)

Definition settings : Autoscaling.settings :=
  Autoscaling.Settings
    (JObj [("load_generator_ami", JStr "ami-0469ff4742c562d63");
           ("web_service_ami", JStr "ami-0e3d567ccafde16c5");
           ("instance_type", JStr "m5.large");
           ("launch_template_name", JStr "vm-scaling-lt");
           ("auto_scaling_target_group", JStr "vm-scaling-tg");
           ("load_balancer_name", JStr "vm-scaling-lb");
           ("auto_scaling_group_name", JStr "vm-scaling-asg");
           ("asg_min_size", JNum 1);
           ("asg_max_size", JNum 4);
           ("asg_default_cool_down_period", JNum 100);
           ("health_check_grace_period", JNum 60);
           ("scale_out_adjustment", JNum 1);
           ("cool_down_period_scale_out", JNum 100);
           ("scale_in_adjustment", JNum (-1));
           ("cool_down_period_scale_in", JNum 60);
           ("alarm_period", JNum 60);
           ("alarm_evaluation_periods_scale_out", JNum 1);
           ("cpu_upper_threshold", JNum 80);
           ("alarm_evaluation_periods_scale_in", JNum 1);
           ("cpu_lower_threshold", JNum 20)])
    (JStr "ami-0469ff4742c562d63")
    (JStr "ami-0e3d567ccafde16c5")
    (JStr "m5.large").

(** What the cloud answers to each client operation when all goes well. *)
Definition client_reply (op : string) : json :=
  if String.eqb op "describe_vpcs" then
    JObj [("Vpcs", JList [JObj [("VpcId", JStr "vpc-0abc")]])]
  else if String.eqb op "describe_subnets" then
    JObj [("Subnets", JList [JObj [("SubnetId", JStr "subnet-1")];
                             JObj [("SubnetId", JStr "subnet-2")]])]
  else if String.eqb op "create_security_group" then
    JObj [("GroupId", JStr "sg-01234567")]
  else if String.eqb op "run_instances" then
    JObj [("Instances", JList [JObj [("InstanceId", JStr "i-0000000a")]])]
  else if String.eqb op "describe_instances" then
    JObj [("Reservations",
           JList [JObj [("Instances",
                         JList [JObj [("InstanceId", JStr "i-0000000a");
                                      ("PublicDnsName", JStr lg)]])]])]
  else if String.eqb op "create_target_group" then
    JObj [("TargetGroups", JList [JObj [("TargetGroupArn", JStr "arn:tg")]])]
  else if String.eqb op "describe_target_groups" then
    JObj [("TargetGroups", JList [JObj [("TargetGroupArn", JStr "arn:tg")]])]
  else if String.eqb op "create_load_balancer" then
    JObj [("LoadBalancers",
           JList [JObj [("LoadBalancerArn", JStr "arn:lb");
                        ("DNSName", JStr "lb.elb.amazonaws.com")]])]
  else if String.eqb op "describe_load_balancers" then
    JObj [("LoadBalancers",
           JList [JObj [("LoadBalancerArn", JStr "arn:lb")]])]
  else if String.eqb op "put_scaling_policy" then
    JObj [("PolicyARN", JStr "arn:policy")]
  else if String.eqb op "describe_auto_scaling_groups" then
    JObj [("AutoScalingGroups", JList [])]
  else JObj [].

Definition aws_serves (r : aws_req) : result (aws_reply r) :=
  match r return result (aws_reply r) with
  | Client _ op _ => Ok (client_reply op)
  | r' => aws_grants r'
  end.

(** A load generator that starts each test at once and whose tests are
    over at the first look. *)
Definition prompt : nat -> string -> option Z -> result response :=
  fun _ url _ =>
    if Str.contains "/log?name=" url
    then Ok (Response 200 finished_report)
    else Ok (Response 200 "<a href=/log?name=test.1436.log>Test</a>").

Definition smooth : world :=
  World prompt 0 slow 0 (fun _ => aws_serves) 0
        directory 0 [].

(** *** Worlds for the start of a test *)

Definition ws : string := "ec2-3-80-1-7.compute-1.amazonaws.com".

(** A load generator that refuses the first connection, answers the second
    request with status 503 and starts the test at the third. *)
Definition starting : nat -> string -> option Z -> result response :=
  fun n _ _ =>
    match n with
    | O => Err refused
    | S O => Ok (Response 503 "")
    | _ => Ok (Response 200 "<a href=/log?name=test.1436.log>Test</a>")
    end.

Definition warming : world :=
  World starting 0 ticking 0 (fun _ => aws_grants) 0
        directory 0 [].

(** *** Worlds in which the cloud fails *)

Definition waiter_error : exn :=
  Exn ClientError "Waiter InstanceRunning failed: Max attempts exceeded".

(** Instances are granted and never reach the running state. *)
Definition aws_never_running (r : aws_req) : result (aws_reply r) :=
  match r return result (aws_reply r) with
  | WaitUntilRunning _ => Err waiter_error
  | r' => aws_grants r'
  end.

Definition stalled : world :=
  World (serving quiet_report 200 200) 0 slow 0 (fun _ => aws_never_running) 0
        directory 0 [].

Definition unauthorized : exn :=
  Exn ClientError
      ("An error occurred (UnauthorizedOperation) when calling the "
       ++ "CreateSecurityGroup operation").

(** No security group is granted. *)
Definition aws_denies_group (r : aws_req) : result (aws_reply r) :=
  match r return result (aws_reply r) with
  | CreateSecurityGroup _ _ => Err unauthorized
  | r' => aws_grants r'
  end.

Definition groupless : world :=
  World (serving quiet_report 200 200) 0 slow 0 (fun _ => aws_denies_group) 0
        directory 0 [].

(** *** Worlds for the autoscaling script *)

(** A load generator whose log cannot be fetched at first, then shows a
    running test, then a finished one. *)
Definition finishing : nat -> string -> option Z -> result response :=
  fun n _ _ =>
    match n with
    | O => Err refused
    | S O => Ok (Response 200 quiet_report)
    | _ => Ok (Response 200 finished_report)
    end.

Definition winding_down : world :=
  World finishing 0 ticking 0 (fun _ => aws_serves) 0
        directory 0 [].

(** An account without a default VPC. *)
Definition aws_without_vpc (r : aws_req) : result (aws_reply r) :=
  match r return result (aws_reply r) with
  | Client _ op _ =>
      if String.eqb op "describe_vpcs" then Ok (JObj [("Vpcs", JList [])])
      else Ok (client_reply op)
  | r' => aws_grants r'
  end.

Definition bare : world :=
  World prompt 0 slow 0 (fun _ => aws_without_vpc) 0
        directory 0 [].

(** *** A world in which the cool-down never ends *)

(** A clock that stands still, fifty seconds after the epoch. *)
Definition stopped (n : nat) : Z := 50000000.

Definition timeless : world :=
  World (serving quiet_report 200 200) 0 stopped 0 (fun _ => aws_grants) 0
        directory 0 [].

End Scenarios.

(* ================================================================== *)
(** * Properties *)
(* ================================================================== *)

Unset Implicit Arguments.

(** ** [get_test_id] *)

Section GetTestId.

Import Pattern.

Lemma append_assoc (a b c : string) : (a ++ b) ++ c = a ++ b ++ c.
Proof. induction a as [|x a IH]; cbn; congruence. Qed.

Lemma length_append (a b : string) :
  String.length (a ++ b) = (String.length a + String.length b)%nat.
Proof. induction a as [|x a IH]; cbn; congruence. Qed.

Lemma prefix_append (p s : string) :
  String.prefix p s = true <-> exists post, s = p ++ post.
Proof.
  revert s. induction p as [|c p IH]; intros s.
  - destruct s; cbn; split; eauto.
  - destruct s as [|d s]; cbn.
    + split; [discriminate | intros [post H]; discriminate].
    + destruct (ascii_dec c d) as [->|Hne].
      * rewrite IH. split; intros [post H]; exists post; congruence.
      * split; [discriminate | intros [post H]; congruence].
Qed.

Lemma greedy_log_sound (s cap : string) :
  Re.greedy_log s = Some cap ->
  exists body post, s = cap ++ post /\ cap = body ++ "log" /\ one_line body.
Proof.
  revert cap. induction s as [|c s IH]; intros cap; cbn [Re.greedy_log].
  - discriminate.
  - destruct (Ascii.eqb c Re.newline) eqn:Hc; [discriminate|].
    apply Ascii.eqb_neq in Hc.
    destruct (Re.greedy_log s) as [cap1|].
    + intros [= <-]. destruct (IH cap1 eq_refl) as (body & post & -> & -> & Hl).
      exists (String c body), post. cbn. auto.
    + destruct (String.prefix "log" (String c s)) eqn:Hp; [|discriminate].
      intros [= <-]. apply prefix_append in Hp. destruct Hp as [post Hp].
      exists "", post. cbn. auto.
Qed.

Lemma greedy_log_complete (body post : string) :
  one_line body -> Re.greedy_log (body ++ "log" ++ post) <> None.
Proof.
  induction body as [|c body IH]; intros Hl.
  - cbn. destruct (Re.greedy_log post); cbn; try discriminate.
    destruct post; discriminate.
  - destruct Hl as [Hc Hl]. cbn [String.append Re.greedy_log].
    apply Ascii.eqb_neq in Hc. rewrite Hc.
    specialize (IH Hl). destruct (Re.greedy_log _); [discriminate | tauto].
Qed.

Lemma greedy_log_longest (s cap : string) :
  Re.greedy_log s = Some cap ->
  forall body post,
    s = body ++ "log" ++ post -> one_line body ->
    (String.length (body ++ "log") <= String.length cap)%nat.
Proof.
  revert cap. induction s as [|c s IH]; intros cap; cbn [Re.greedy_log].
  - discriminate.
  - destruct (Ascii.eqb c Re.newline) eqn:Hc; [discriminate|].
    destruct (Re.greedy_log s) as [cap1|] eqn:Hg.
    + intros [= <-] body post Hs Hl.
      destruct body as [|d body].
      * destruct (greedy_log_sound _ _ Hg) as (b1 & p1 & _ & -> & _).
        cbn. rewrite length_append. cbn. lia.
      * cbn in Hs. injection Hs as -> ->. destruct Hl as [_ Hl].
        specialize (IH cap1 eq_refl body post eq_refl Hl). cbn. lia.
    + destruct (String.prefix "log" (String c s)); [|discriminate].
      intros [= <-] body post Hs Hl.
      destruct body as [|d body]; [cbn; lia|].
      cbn in Hs. injection Hs as -> ->. destruct Hl as [_ Hl].
      exfalso. revert Hg. now apply greedy_log_complete.
Qed.

(** The pattern matched at offset 0. *)
Lemma match_here_some (s cap : string) :
  Re.match_here s = Some cap ->
  matches s 0 cap /\
  forall cap', matches s 0 cap' ->
               (String.length cap' <= String.length cap)%nat.
Proof.
  unfold Re.match_here.
  destruct (String.prefix "name=" s) eqn:Hp; [|discriminate].
  apply prefix_append in Hp. destruct Hp as [rest ->].
  change (Str.drop 5 ("name=" ++ rest)) with rest.
  intros Hg. split.
  - destruct (greedy_log_sound _ _ Hg) as (body & post & -> & -> & Hl).
    exists "", body, post. auto.
  - intros cap' (pre & body & post & Ht & Hlen & -> & Hl).
    destruct pre; [|discriminate]. cbn in Ht.
    injection Ht as ->.
    apply (greedy_log_longest _ _ Hg body post); auto.
    now rewrite append_assoc.
Qed.

Lemma match_here_none (s : string) :
  Re.match_here s = None -> forall cap, ~ matches s 0 cap.
Proof.
  unfold Re.match_here. intros H cap (pre & body & post & -> & Hlen & -> & Hl).
  destruct pre; [|discriminate].
  change ("" ++ "name=" ++ (body ++ "log") ++ post)
    with ("name=" ++ (body ++ "log") ++ post) in H.
  replace (String.prefix "name=" ("name=" ++ (body ++ "log") ++ post))
    with true in H by (symmetry; apply prefix_append; eauto).
  change (Str.drop 5 ("name=" ++ (body ++ "log") ++ post))
    with ((body ++ "log") ++ post) in H.
  rewrite append_assoc in H. revert H. now apply greedy_log_complete.
Qed.

Lemma matches_tail (c : ascii) (s : string) (j : nat) (cap : string) :
  matches (String c s) (S j) cap <-> matches s j cap.
Proof.
  split.
  - intros (pre & body & post & Ht & Hlen & Hc & Hl).
    destruct pre as [|d pre]; [discriminate|].
    cbn in Ht, Hlen. injection Ht as -> ->. injection Hlen as Hlen.
    exists pre, body, post. auto.
  - intros (pre & body & post & -> & Hlen & Hc & Hl).
    exists (String c pre), body, post. cbn. auto.
Qed.

Lemma matches_empty (i : nat) (cap : string) : ~ matches "" i cap.
Proof.
  intros (pre & body & post & Ht & _). destruct pre; discriminate.
Qed.

(** The head of the list [findall] returns. *)
Lemma findall_head (s : string) :
  match Re.findall s with
  | [] => forall i cap, ~ matches s i cap
  | c0 :: _ => first_capture s c0
  end.
Proof.
  unfold Re.findall. induction s as [|c s IH]; cbn [Re.findall_from].
  - intros i cap. apply matches_empty.
  - destruct (Re.match_here (String c s)) as [cap|] eqn:Hm.
    + destruct (match_here_some _ _ Hm) as [H0 Hmax].
      exists 0%nat. split; [exact H0|]. intros j cap' Hj.
      destruct j; [right; split; auto | left; lia].
    + pose proof (match_here_none _ Hm) as Hnone.
      destruct (Re.findall_from 0 s) as [|c0 rest].
      * intros [|i] cap; [apply Hnone | rewrite matches_tail; apply IH].
      * destruct IH as (i & Hi & Hfirst). exists (S i). split.
        -- now apply matches_tail.
        -- intros [|j] cap' Hj; [now apply Hnone in Hj|].
           apply matches_tail in Hj. destruct (Hfirst _ _ Hj) as [?|[? ?]];
             [left | right; split]; lia.
Qed.

(** C9.  [get_test_id], the same function in both scripts, returns the
    group of the first match of [name=(.*log)] in the response text when
    the pattern matches somewhere, and raises [IndexError] when it matches
    nowhere; so it returns a value exactly when a log identifier is
    present. *)
Theorem get_test_id_partial (resp : response) :
  let present := exists i cap, matches (text resp) i cap in
  (present ->
   exists cap0, Horizontal.get_test_id resp = Ok cap0 /\
                first_capture (text resp) cap0) /\
  (~ present ->
   Horizontal.get_test_id resp
   = Err (Exn IndexError "list index out of range")) /\
  ((exists v, Horizontal.get_test_id resp = Ok v) <-> present) /\
  Autoscaling.get_test_id resp = Horizontal.get_test_id resp.
Proof.
  cbn zeta. unfold Horizontal.get_test_id, Autoscaling.get_test_id.
  pose proof (findall_head (text resp)) as H.
  destruct (Re.findall (text resp)) as [|c0 rest].
  - repeat split.
    + intros (i & cap & Hm). now apply H in Hm.
    + intros (v & Hv). discriminate.
    + intros (i & cap & Hm). now apply H in Hm.
  - repeat split.
    + intros _. exists c0. auto.
    + intros Hn. exfalso. apply Hn. destruct H as (i & Hi & _). eauto.
    + intros _. destruct H as (i & Hi & _). eauto.
    + intros _. eauto.
Qed.

(** C9, on a response that names its log file. *)
Lemma get_test_id_partial_witness :
  exists cap0,
    Horizontal.get_test_id
      (Response 200 "<a href=/log?name=test.1436.log>Test</a>") = Ok cap0 /\
    first_capture "<a href=/log?name=test.1436.log>Test</a>" cap0.
Proof.
  apply (proj1 (get_test_id_partial
                  (Response 200 "<a href=/log?name=test.1436.log>Test</a>"))).
  exists 13%nat, "test.1436.log".
  exists "<a href=/log?", "test.1436.", ">Test</a>".
  cbn. repeat split; discriminate.
Defined.

End GetTestId.

(** ** [is_test_complete] *)

Section IsTestComplete.

Import Sys.

Lemma lookup_store (path content : string) (fs : list (string * string)) :
  lookup path (store path content fs) = Some content.
Proof.
  induction fs as [|[p c] fs IH]; cbn.
  - now rewrite String.eqb_refl.
  - destruct (String.eqb p path) eqn:E; cbn; rewrite E; auto.
Qed.

Lemma store_store (path c1 c2 : string) (fs : list (string * string)) :
  store path c2 (store path c1 fs) = store path c2 fs.
Proof.
  induction fs as [|[p c] fs IH]; cbn.
  - now rewrite String.eqb_refl.
  - destruct (String.eqb p path) eqn:E; cbn; rewrite E; congruence.
Qed.

(** C10.  Both [is_test_complete] functions open the log file before
    they fetch the log, outside any [try]: when [open] raises, its
    exception leaves the function, nothing is fetched and no file has
    changed.  When [open] returned, the autoscaling script's
    [is_test_complete] does not raise when the fetch of the log does: the
    log file, truncated when it was opened, stays empty, and the answer,
    read back from the file, is [False]; when the fetch succeeds the file
    holds the fetched text and the answer says whether the text holds the
    marker.  In the horizontal-scaling script, when [open] returned, the
    exception of the fetch leaves [is_test_complete]. *)
Theorem is_test_complete_fetch_error
    (load_generator_dns : json) (lg_dns log_name : string) (w w' : world) :
  let path := log_name ++ ".log" in
  let url := "http://" ++ Json.str load_generator_dns ++ "/log?name="
                       ++ log_name in
  let r := Autoscaling.is_test_complete load_generator_dns log_name w in
  let h := Horizontal.is_test_complete lg_dns log_name w' in
  let file := lookup path (files (fin r)) in
  match open_answer w 0 path with
  | Err e => res r = Raise e /\ evs r = [] /\ files (fin r) = files w
  | Ok _ =>
      match http_script w (http_calls w) url None with
      | Err _ => res r = Ret false /\ file = Some ""
      | Ok resp =>
          res r = Ret (Str.contains "[Test finished]" (text resp)) /\
          file = Some (text resp)
      end
  end /\
  match open_answer w' 0 path with
  | Err e => res h = Raise e /\ evs h = [] /\ files (fin h) = files w'
  | Ok _ =>
      match http_script w' (http_calls w')
              (Horizontal.log_url lg_dns log_name) None with
      | Err e => res h = Raise e
      | Ok resp => res h = Ret (Str.contains "[Test finished]" (text resp))
      end
  end.
Proof.
  cbn zeta. split.
  - unfold Autoscaling.is_test_complete, bind, try_except, requests_get,
      open_w, write, close, read, ret.
    destruct (open_answer w 0 _) as [[]|e]; cbn; [|auto].
    destruct (http_script w (http_calls w) _ None) as [resp|e]; cbn.
    + rewrite !lookup_store. cbn. rewrite store_store, !lookup_store. cbn. auto.
    + rewrite !lookup_store. cbn. rewrite !lookup_store. auto.
  - unfold Horizontal.is_test_complete, bind, requests_get, open_w, write,
      close, ret.
    destruct (open_answer w' 0 _) as [[]|e]; cbn; [|auto].
    destruct (http_script w' (http_calls w') _ None) as [resp|e]; cbn; auto.
Qed.
End IsTestComplete.

(** ** [wait_for_server_health] *)

Section WaitForServerHealth.

Import Sys Horizontal Obs.

Variables (dns_name url : string).

(** The loop, started with [b] rounds left before [retries] reaches 40. *)
Lemma wait_loop_spec (fuel : nat) :
  forall (b : nat) (retries : Z) (w : world),
    retries = 40 - Z.of_nat b ->
    (b <= 40)%nat ->
    (b < fuel)%nat ->
    let r := wait_loop fuel dns_name url retries w in
    res r <> Diverge /\
    (probes (evs r) <= b)%nat /\
    (res r = Ret true ->
     exists a, last_probe (evs r) = Some (Ok a) /\ status_code a = 200) /\
    ((forall k, (k < b)%nat ->
                probe_fails (http_script w (http_calls w + k) url (Some 1))) ->
     res r = Ret false /\ probes (evs r) = b).
Proof.
  induction fuel as [|n IH]; intros b retries w Hr Hb Hf; [lia|].
  cbn [wait_loop].
  destruct (retries <? 40) eqn:Hlt.
  - apply Z.ltb_lt in Hlt.
    destruct b as [|b]; [lia|].
    specialize (IH b (retries + 1) (with_http_calls (S (http_calls w)) w)).
    cbn zeta in IH.
    destruct IH as (IH1 & IH2 & IH3 & IH4); [lia | lia | lia |].
    clear Hr Hb Hf Hlt.
    remember (wait_loop n dns_name url (retries + 1)
                (with_http_calls (S (http_calls w)) w)) as rec eqn:Hrec.
    assert (H0 : forall P : Prop,
               (forall k, (k < S b)%nat ->
                  probe_fails
                    (http_script w (http_calls w + k) url (Some 1))) ->
               ~ probe_fails (http_script w (http_calls w) url (Some 1)) -> P).
    { intros P H Hn. exfalso. apply Hn.
      specialize (H 0%nat ltac:(lia)). now rewrite Nat.add_0_r in H. }
    assert (HS : (forall k, (k < S b)%nat ->
                  probe_fails
                    (http_script w (http_calls w + k) url (Some 1))) ->
                 forall k, (k < b)%nat ->
                  probe_fails
                    (http_script w (S (http_calls w) + k) url (Some 1))).
    { intros H k Hk. specialize (H (S k) ltac:(lia)).
      now rewrite Nat.add_succ_r in H. }
    unfold bind, try_except, requests_get.
    destruct (http_script w (http_calls w) url (Some 1)) as [a|e] eqn:Ha.
    + destruct (status_code a =? 200) eqn:Hs; cbn.
      * apply Z.eqb_eq in Hs. repeat split.
        -- discriminate.
        -- unfold probes; cbn. lia.
        -- intros _. exists a. split; [reflexivity | exact Hs].
        -- apply (H0 _ H). cbn. tauto.
        -- apply (H0 _ H). cbn. tauto.
      * rewrite <- Hrec. destruct rec as [o s2 ev2]. cbn in *.
        apply Z.eqb_neq in Hs. repeat split.
        -- exact IH1.
        -- unfold probes in *; cbn. lia.
        -- intros Ht. destruct (IH3 Ht) as (a' & Hl & Hc).
           exists a'. rewrite Hl. auto.
        -- apply IH4, HS, H.
        -- unfold probes in *; cbn. f_equal. apply IH4, HS, H.
    + destruct (is_RequestException e) eqn:He; cbn.
      * rewrite <- Hrec. destruct rec as [o s2 ev2]. cbn in *.
        repeat split.
        -- exact IH1.
        -- unfold probes in *; cbn. lia.
        -- intros Ht. destruct (IH3 Ht) as (a' & Hl & Hc).
           exists a'. rewrite Hl. auto.
        -- apply IH4, HS, H.
        -- unfold probes in *; cbn. f_equal. apply IH4, HS, H.
      * repeat split.
        -- discriminate.
        -- unfold probes; cbn. lia.
        -- discriminate.
        -- apply (H0 _ H). cbn. rewrite He. discriminate.
        -- apply (H0 _ H). cbn. rewrite He. discriminate.
  - apply Z.ltb_ge in Hlt. assert (b = 0)%nat by lia. subst b.
    cbn. repeat split; try discriminate. unfold probes; cbn. lia.
Qed.

End WaitForServerHealth.

Section WaitForServerHealthClaims.

Import Sys Horizontal Obs.

(** The health check comes to an end. *)
Lemma wait_for_server_health_returns (dns_name : string) (w : world) :
  res (wait_for_server_health dns_name w) <> Diverge.
Proof.
  unfold wait_for_server_health, bind, print.
  pose proof (@wait_loop_spec dns_name ("http://" ++ dns_name) 41 40 0 w
                eq_refl (le_n _) (le_n _)) as H.
  cbn zeta in H.
  destruct (wait_loop 41 dns_name ("http://" ++ dns_name) 0 w) as [o s ev].
  cbn [res] in *. tauto.
Qed.

(** C4.  Whatever the world answers, [wait_for_server_health] comes to an
    end, makes at most 40 probes, and answers [True] only when its last
    probe came back with status 200 (never on a probe that raised).  When
    each of the 40 probes raises a transport error or comes back with
    another status than 200, it makes exactly 40 probes and answers
    [False]. *)
Theorem wait_for_server_health_budget (dns_name : string) (w : world) :
  let r := wait_for_server_health dns_name w in
  ((forall k, (k < 40)%nat ->
      probe_fails
        (http_script w (http_calls w + k) ("http://" ++ dns_name) (Some 1))) ->
   res r = Ret false /\ probes (evs r) = 40%nat) /\
  (res r = Ret true ->
   exists a, last_probe (evs r) = Some (Ok a) /\ status_code a = 200) /\
  (probes (evs r) <= 40)%nat /\
  res r <> Diverge.
Proof.
  cbn zeta. unfold wait_for_server_health, bind, print.
  pose proof (@wait_loop_spec dns_name ("http://" ++ dns_name) 41 40 0 w
                eq_refl (le_n _) (le_n _)) as H.
  cbn zeta in H.
  destruct (wait_loop 41 dns_name ("http://" ++ dns_name) 0 w)
    as [o s ev].
  cbn [res evs fin] in *. destruct H as (H1 & H2 & H3 & H4).
  change (probes (EvPrint
            [FS "Waiting for "; FS dns_name;
             FS " to boot web application..."] :: ev)) with (probes ev).
  split; [exact H4 | split; [| split; [exact H2 | exact H1]]].
  intros Ht. destruct (H3 Ht) as (a & Hl & Hc). exists a.
  cbn [app last_probe]. rewrite Hl. auto.
Qed.

(** C4, at a server that never answers: 40 probes, then [False]. *)
Lemma wait_for_server_health_budget_witness :
  let r := wait_for_server_health "ec2-3-80-1-7.compute-1.amazonaws.com"
             Scenarios.unreachable in
  res r = Ret false /\ probes (evs r) = 40%nat.
Proof.
  apply (proj1 (wait_for_server_health_budget
                  "ec2-3-80-1-7.compute-1.amazonaws.com"
                  Scenarios.unreachable)).
  intros k _. reflexivity.
Defined.

End WaitForServerHealthClaims.

(** ** [get_rps] *)

Section GetRps.

Import Sys Horizontal Scenarios.

(** The loop over the reversed section names picks the last name that
    holds ["Current rps="]. *)
Lemma first_rps_rev (float : string -> result Q) (sections : list string) :
  first_rps float (rev sections)
  = match rev (filter (Str.contains "Current rps=") sections) with
    | [] => Ok 0%Q
    | h :: _ => float (Str.drop (String.length "Current rps=") h)
    end.
Proof.
  rewrite <- (rev_involutive sections) at 2. rewrite rev_involutive.
  replace (rev (filter (Str.contains "Current rps=") sections))
    with (filter (Str.contains "Current rps=") (rev sections)).
  2:{ induction sections as [|s l IH]; [reflexivity|].
      cbn [rev filter]. rewrite filter_app, IH. cbn [filter].
      destruct (Str.contains "Current rps=" s); cbn [rev];
        [reflexivity | now rewrite app_nil_r]. }
  induction (rev sections) as [|s l IH]; [reflexivity|].
  cbn [first_rps filter]. destruct (Str.contains "Current rps=" s); auto.
Qed.

(** Without a rate section the rate is 0. *)
Lemma get_rps_absent (float : string -> result Q)
    (lg_dns log_name : string) (w : world)
    (a : response) (sections : list string) :
  http_script w (http_calls w) (log_url lg_dns log_name) None = Ok a ->
  ConfigParser.sections_of_string (text a) = Ok sections ->
  (forall sec, In sec sections -> Str.contains "Current rps=" sec = false) ->
  res (get_rps float lg_dns log_name w) = Ret 0%Q.
Proof.
  intros Ha Hs Hn. unfold get_rps, bind, requests_get, of_result.
  rewrite Ha. cbn. rewrite Hs. cbn. rewrite first_rps_rev.
  replace (filter (Str.contains "Current rps=") sections) with (@nil string).
  - reflexivity.
  - symmetry. clear Hs. induction sections as [|s l IH]; [reflexivity|].
    cbn. rewrite (Hn s (or_introl eq_refl)). apply IH.
    intros sec Hsec. apply Hn. now right.
Qed.

(** Three rate sections with 10, 30 and 45, in this order: the rate is
    45. *)
Lemma get_rps_rising : res (get_rps Float.of_string lg log rising) = Ret 45%Q.
Proof. reflexivity. Qed.

(** C5.  A report whose rate sections read 45, 10 and 45, in this order:
    the most recently reported rate is 45, and [get_rps] returns 10.  The
    section name met a second time does not move in the list of sections,
    so the loop over the reversed list stops at the section that says
    10. *)
Theorem get_rps_repeated_rate :
  Report.latest_rate repeating_report = Some (Ok 45%Q) /\
  ConfigParser.sections_of_string repeating_report
  = Ok ["Test"; "Minute 1"; "Current rps=45"; "Minute 2"; "Current rps=10";
        "Minute 3"] /\
  res (get_rps Float.of_string lg log repeating) = Ret 10%Q.
Proof. repeat split; reflexivity. Qed.

End GetRps.

(** ** The parts of a scale-out attempt *)

Section Parts.

Import Sys Horizontal Watch.

Variable config : configuration.

Lemma get_rps_run (float : string -> result Q)
    (lg_dns log_name : string) (w : world) :
  let a := http_script w (http_calls w) (log_url lg_dns log_name) None in
  evs (get_rps float lg_dns log_name w)
  = [EvGet (log_url lg_dns log_name) None a] /\
  fin (get_rps float lg_dns log_name w)
  = with_http_calls (S (http_calls w)) w /\
  res (get_rps float lg_dns log_name w) <> Diverge.
Proof.
  cbn zeta. unfold get_rps, bind, requests_get, of_result.
  destruct (http_script w (http_calls w) (log_url lg_dns log_name) None)
    as [a|e]; cbn; [|repeat split; discriminate].
  destruct (ConfigParser.sections_of_string (text a)) as [l|e]; cbn;
    [|repeat split; discriminate].
  destruct (first_rps float (rev l)); cbn; repeat split; discriminate.
Qed.

(** [create_instance] asks for one instance, first of all. *)
Lemma create_instance_run (ami sg_id : string) (w : world) :
  let r := create_instance config ami sg_id w in
  exists err rest,
    evs r = EvAws (CreateInstances ami (INSTANCE_TYPE config) sg_id) err
            :: rest /\
    forallb is_provisioning_step rest = true /\
    (err <> None -> exists e, err = Some e /\ res r = Raise e /\ rest = []) /\
    res r <> Diverge.
Proof.
  cbn zeta. unfold create_instance, bind, aws, print, ret. cbn.
  destruct (aws_script w (aws_calls w) _) as [iid|e]; cbn.
  2:{ exists (Some e), []. repeat split; try discriminate. eauto. }
  destruct (aws_script w (S (aws_calls w)) (WaitUntilRunning iid)) as [[]|e];
    cbn.
  2:{ eexists None, _. repeat split; try discriminate; try tauto. }
  destruct (aws_script w (S (S (aws_calls w))) (Reload iid)) as [dns|e]; cbn;
    eexists None, _; repeat split; try discriminate; try tauto.
Qed.

Lemma wait_loop_steps (dns_name url : string) (fuel : nat) :
  forall (retries : Z) (w : world),
    forallb is_health_step (evs (wait_loop fuel dns_name url retries w)) = true.
Proof.
  induction fuel as [|n IH]; intros retries w; [reflexivity|].
  cbn [wait_loop]. destruct (retries <? 40); [|reflexivity].
  unfold bind, try_except, requests_get.
  specialize (IH (retries + 1) (with_http_calls (S (http_calls w)) w)).
  destruct (http_script w (http_calls w) url (Some 1)) as [a|e].
  - destruct (status_code a =? 200); cbn; [reflexivity|].
    destruct (wait_loop n dns_name url (retries + 1) _); cbn in *. exact IH.
  - destruct (is_RequestException e); cbn; [|reflexivity].
    destruct (wait_loop n dns_name url (retries + 1) _); cbn in *. exact IH.
Qed.

Lemma wait_for_server_health_steps (dns_name : string) (w : world) :
  forallb is_health_step (evs (wait_for_server_health dns_name w)) = true.
Proof.
  unfold wait_for_server_health, bind, print.
  pose proof (wait_loop_steps dns_name ("http://" ++ dns_name) 41 0 w) as H.
  destruct (wait_loop 41 dns_name ("http://" ++ dns_name) 0 w); cbn in *.
  exact H.
Qed.

End Parts.

(** ** One iteration of the monitoring loop *)

Section Attempt.

Import Sys Horizontal Watch.

Variable config : configuration.
Variables (lg_dns log_name sg2_id : string).

Lemma launches_app (l1 l2 : list event) :
  launches (l1 ++ l2) = (launches l1 + launches l2)%nat.
Proof. unfold launches. now rewrite filter_app, length_app. Qed.

Lemma launches_cons (e : event) (l : list event) :
  launches (e :: l) = ((if is_launch e then 1 else 0) + launches l)%nat.
Proof. unfold launches. cbn. now destruct (is_launch e). Qed.

Lemma registered_app (lg : string) (l1 l2 : list event) :
  registered lg (l1 ++ l2) = registered lg l1 || registered lg l2.
Proof. apply existsb_app. Qed.

Lemma last_now_app (l1 l2 : list event) :
  last_now (l1 ++ l2)
  = match last_now l2 with Some t => Some t | None => last_now l1 end.
Proof.
  induction l1 as [|e l1 IH]; cbn.
  - now destruct (last_now l2).
  - rewrite IH. now destruct (last_now l2).
Qed.

Lemma provisioning_steps_silent (lg : string) (l : list event) :
  forallb is_provisioning_step l = true ->
  launches l = 0%nat /\ registered lg l = false /\ last_now l = None.
Proof.
  induction l as [|e l IH]; cbn; [auto|].
  intros H. apply andb_prop in H. destruct H as [He Hl].
  destruct (IH Hl) as (H1 & H2 & H3). unfold launches in *. cbn.
  rewrite H3. unfold registered in H2. rewrite H2.
  destruct e as [u [t|] a| | | |[] err]; try discriminate; cbn; auto.
Qed.

Lemma health_steps_silent (lg : string) (l : list event) :
  forallb is_health_step l = true ->
  launches l = 0%nat /\ registered lg l = false /\ last_now l = None.
Proof.
  induction l as [|e l IH]; cbn; [auto|].
  intros H. apply andb_prop in H. destruct H as [He Hl].
  destruct (IH Hl) as (H1 & H2 & H3). unfold launches in *. cbn.
  rewrite H3. unfold registered in H2. rewrite H2.
  destruct e as [u [t|] a| | | |[] err]; try discriminate; cbn; auto.
Qed.

Lemma add_url_prefix (lg d : string) :
  String.prefix (add_prefix lg) (add_url lg d) = true.
Proof.
  apply prefix_append. exists d. unfold add_prefix, add_url.
  now rewrite !append_assoc.
Qed.

Lemma final_app_cons (l : list event) (x : event) (l' : list event) :
  final (l ++ x :: l') = final (x :: l').
Proof.
  unfold final. induction l as [|a l IH]; [reflexivity|].
  cbn [app]. rewrite <- IH. cbn [last].
  destruct (l ++ x :: l')%list eqn:E; [destruct l; discriminate | reflexivity].
Qed.

Lemma final_cons (a b : event) (l : list event) :
  final (a :: b :: l) = final (b :: l).
Proof. reflexivity. Qed.

Lemma final_cons_app (a : event) (l : list event) (x : event)
    (l' : list event) :
  final (a :: l ++ x :: l') = final (x :: l').
Proof. apply (final_app_cons (a :: l)). Qed.

Ltac observe :=
  unfold launches, registered in *;
  repeat progress
    (cbn [filter existsb last_now is_launch is_registration List.length
          fst snd res fin evs app orb andb Nat.add sg last_launch_time
          append_instance_id set_last_launch_time];
     rewrite ?filter_app, ?length_app, ?existsb_app, ?last_now_app,
       ?add_url_prefix, ?final_cons_app, ?final_app_cons;
     repeat match goal with
            | H : List.length (filter is_launch _) = _ |- _ => rewrite H
            | H : existsb (is_registration _) _ = _ |- _ => rewrite H
            | H : last_now _ = _ |- _ => rewrite H
            | H : (status_code _ =? 200) = _ |- _ => rewrite H
            end).

Ltac settle :=
  repeat split; eauto;
  try (intros [=]); try (intros ? [=]);
  try (left; split; reflexivity); try (right; split; reflexivity).

Lemma scale_out_run (f : frame) (w : world) :
  let r := scale_out config lg_dns sg2_id (f, w) in
  let c := create_instance config (WEB_SERVICE_AMI config) sg2_id w in
  (exists fl, res r = Ret fl) /\
  launches (evs r) = 1%nat /\
  (if registered lg_dns (evs r)
   then last_now (evs r) = Some (last_launch_time (fst (fin r)))
   else last_launch_time (fst (fin r)) = last_launch_time f) /\
  sg (fst (fin r)) = sg f /\
  ((is_success_report (final (evs r)) = true /\
    registered lg_dns (evs r) = true) \/
   (is_failure_report (final (evs r)) = true /\
    registered lg_dns (evs r) = false)) /\
  (res r = Ret Continue -> final (evs r) = no_dns_report) /\
  (forall e, res c = Raise e ->
             r = Run (Ret Fallthrough) (f, fin c) (evs c ++ [paused e])).
Proof.
  cbn zeta.
  unfold scale_out, try_except, bind, lift, set_locals, ret. cbn [fst snd].
  pose proof (create_instance_run config (WEB_SERVICE_AMI config) sg2_id w)
    as Hc.
  cbn zeta in Hc. destruct Hc as (err & rest & Hev & Hrest & _ & Hdiv).
  destruct (provisioning_steps_silent lg_dns rest Hrest) as (R1 & R2 & R3).
  destruct (create_instance config (WEB_SERVICE_AMI config) sg2_id w)
    as [[i|e|] w1 ev1]; cbn [fst snd res fin evs] in *; subst ev1.
  - unfold aws.
    destruct (aws_script w1 (aws_calls w1) (Reload (id i))) as [dns|e];
      cbn [fst snd res fin evs app is_Exception].
    + destruct (no_dns dns) eqn:Hd; cbn [fst snd res fin evs app print].
      * observe. settle.
      * pose proof (wait_for_server_health_steps (Str.of_opt dns)
                      (with_aws_calls (S (aws_calls w1)) w1)) as Hh.
        apply (health_steps_silent lg_dns) in Hh.
        destruct Hh as (H1 & H2 & H3).
        pose proof (wait_for_server_health_returns (Str.of_opt dns)
                      (with_aws_calls (S (aws_calls w1)) w1)) as Hnd.
        destruct (wait_for_server_health (Str.of_opt dns)
                    (with_aws_calls (S (aws_calls w1)) w1))
          as [[[|]|e|] w2 ev2]; cbn [fst snd res fin evs app] in *;
          [| | | congruence].
        -- unfold requests_get.
           destruct (http_script w2 (http_calls w2) _ None) as [a|e] eqn:Ha;
             cbn [fst snd res fin evs app is_Exception print].
           ++ destruct (status_code a =? 200) eqn:Hs;
                cbn [fst snd res fin evs app is_Exception print now];
                observe; settle.
           ++ observe. settle.
        -- cbn [print]. observe. settle.
        -- cbn [print evs]. observe. settle.
    + cbn [print evs]. observe. settle.
  - cbn [is_Exception print evs fst snd res fin app].
    observe. settle. subst. reflexivity.
  - congruence.
Qed.

(** The built-in [float]: any function. *)
Variable float : string -> result Q.

(** The body of the loop, step by step. *)
Lemma loop_body_unfold (f : frame) (w : world) :
  loop_body config float lg_dns log_name sg2_id (f, w) =
  let g := get_rps float lg_dns log_name w in
  match res g with
  | Ret rps =>
      let t := clock_script (fin g) (clock_calls (fin g)) in
      let w1 := with_clock_calls (S (clock_calls (fin g))) (fin g) in
      if Float.ltb rps 50
         && Float.ltb 100 (total_seconds t (last_launch_time f))
      then
        let s := scale_out config lg_dns sg2_id (f, w1) in
        match res s with
        | Ret Continue =>
            Run (Ret tt) (fin s) (evs g ++ report rps t f ++ low :: evs s)
        | Ret Fallthrough =>
            Run (Ret tt) (fin s)
                (evs g ++ report rps t f ++ low :: evs s ++ [EvSleep 1])
        | Raise e =>
            Run (Raise e) (fin s) (evs g ++ report rps t f ++ low :: evs s)
        | Diverge =>
            Run Diverge (fin s) (evs g ++ report rps t f ++ low :: evs s)
        end
      else Run (Ret tt) (f, w1) (evs g ++ report rps t f ++ [EvSleep 1])
  | Raise e => Run (Raise e) (f, fin g) (evs g)
  | Diverge => Run Diverge (f, fin g) (evs g)
  end.
Proof.
  cbn zeta. unfold loop_body, bind, lift, get_locals, ret. cbn [fst snd].
  destruct (get_rps float lg_dns log_name w) as [[rps|e|] w1 ev1];
    cbn [res fin evs fst snd now print]; try reflexivity.
  destruct (Float.ltb rps 50 &&
            Float.ltb 100 (total_seconds (clock_script w1 (clock_calls w1))
                                         (last_launch_time f))).
  - cbn [res fin evs fst snd app].
    destruct (scale_out config lg_dns sg2_id _) as [[[|]|e|] s2 ev2];
      cbn [res fin evs fst snd app sleep report low];
      destruct s2; cbn [fst snd]; rewrite ?app_nil_r; reflexivity.
  - cbn [res fin evs fst snd app sleep report]. reflexivity.
Qed.

Lemma ltb_lt (x y : Q) : Float.ltb x y = true <-> (x < y)%Q.
Proof.
  unfold Float.ltb. rewrite negb_true_iff.
  destruct (Qle_bool y x) eqn:E.
  - apply Qle_bool_iff in E. split; [discriminate|].
    intros H. exfalso. exact (Qlt_not_le _ _ H E).
  - split; [|reflexivity]. intros _. apply Qnot_le_lt. intros H.
    apply Qle_bool_iff in H. congruence.
Qed.

(** C1.  In an iteration of the monitoring loop a new instance is requested
    exactly when the request rate read from the log is below 50 and more
    than 100 seconds have passed since [last_launch_time]; otherwise, also
    when reading the rate fails, none is requested. *)
Theorem scale_out_iff_low_rps_and_cooldown (f : frame) (w : world) :
  let r := loop_body config float lg_dns log_name sg2_id (f, w) in
  let g := get_rps float lg_dns log_name w in
  let current_time := clock_script (fin g) (clock_calls (fin g)) in
  (launches (evs r) = 1%nat <->
   exists current_rps,
     res g = Ret current_rps /\
     (current_rps < 50)%Q /\
     (100 < total_seconds current_time (last_launch_time f))%Q) /\
  (launches (evs r) <> 1%nat -> launches (evs r) = 0%nat).
Proof.
  cbn zeta. rewrite loop_body_unfold. cbn zeta.
  destruct (get_rps_run float lg_dns log_name w) as (Hev & _ & _).
  cbn zeta in Hev. rewrite Hev.
  destruct (res (get_rps float lg_dns log_name w)) as [rps|e|].
  2,3: cbn; split; [split; [discriminate | intros (x & [=] & _)] | auto].
  set (t := clock_script _ _). set (w1 := with_clock_calls _ _).
  destruct (Float.ltb rps 50) eqn:H1;
    destruct (Float.ltb 100 (total_seconds t (last_launch_time f))) eqn:H2;
    cbn [andb].
  2,3,4: cbn; split; [split; [discriminate|] | auto];
    intros (x & [= <-] & Ha & Hb); apply ltb_lt in Ha, Hb;
    rewrite ?Ha in H1; rewrite ?Hb in H2; discriminate.
  destruct (scale_out_run f w1) as ((fl & Hfl) & Hl & _).
  apply ltb_lt in H1, H2.
  rewrite Hfl.
  destruct fl; cbn [evs]; unfold report, low; cbn [app];
    rewrite !launches_cons, ?launches_app, Hl; cbn;
    (split; [split; eauto | intros H; now elim H]).
Qed.


Lemma prefix_cancel (a b c : string) :
  String.prefix (a ++ b) (a ++ c) = String.prefix b c.
Proof.
  induction a as [|x a IH]; cbn; [reflexivity|].
  destruct (ascii_dec x x); [exact IH | congruence].
Qed.

(** The URL of the log is not a registration URL. *)
Lemma log_url_not_add (lg log : string) :
  String.prefix (add_prefix lg) (log_url lg log) = false.
Proof.
  unfold add_prefix, log_url.
  rewrite (prefix_cancel "http://"), (prefix_cancel lg). reflexivity.
Qed.

Lemma fetch_not_registration (lg log : string) (a : result response) :
  is_registration lg (EvGet (log_url lg log) None a) = false.
Proof.
  destruct a as [a|e]; cbn [is_registration]; [|reflexivity].
  now rewrite log_url_not_add.
Qed.

(** C2.  Over an iteration of the monitoring loop, [last_launch_time] is
    set, to the reading of the clock that follows, when the iteration holds
    a registration request that came back with status 200; in every other
    iteration it keeps its value.  A scale-out attempt holds such a request
    when it ends with the report of the added instance, and holds none
    when it ends with one of the reports of a failure: an exception (of
    the provisioning, among others), a missing DNS name, a failed health
    check, a registration that came back with another status. *)
Theorem cooldown_reset_iff_registered (f : frame) (w : world) :
  let r := loop_body config float lg_dns log_name sg2_id (f, w) in
  let attempt := scale_out config lg_dns sg2_id (f, w) in
  (if registered lg_dns (evs r)
   then last_now (evs r) = Some (last_launch_time (fst (fin r)))
   else last_launch_time (fst (fin r)) = last_launch_time f) /\
  ((is_success_report (final (evs attempt)) = true /\
    registered lg_dns (evs attempt) = true) \/
   (is_failure_report (final (evs attempt)) = true /\
    registered lg_dns (evs attempt) = false)).
Proof.
  cbn zeta. split.
  2:{ destruct (scale_out_run f w) as (_ & _ & _ & _ & H & _). exact H. }
  rewrite loop_body_unfold. cbn zeta.
  destruct (get_rps_run float lg_dns log_name w) as (Hev & _ & _).
  cbn zeta in Hev. rewrite Hev.
  pose proof (fetch_not_registration lg_dns log_name
                (http_script w (http_calls w) (log_url lg_dns log_name) None))
    as Hf.
  destruct (res (get_rps float lg_dns log_name w)) as [rps|e|].
  2,3: unfold registered; cbn [evs fin fst existsb]; rewrite Hf; reflexivity.
  set (t := clock_script _ _). set (w1 := with_clock_calls _ _).
  destruct (Float.ltb rps 50 &&
            Float.ltb 100 (total_seconds t (last_launch_time f))).
  2:{ unfold registered, report. cbn [evs fin fst existsb app].
      rewrite Hf. reflexivity. }
  destruct (scale_out_run f w1) as ((fl & Hfl) & _ & Hreg & _).
  cbn zeta in Hreg. rewrite Hfl.
  assert (Hr : forall tl,
    registered lg_dns tl = false -> last_now tl = None ->
    (if registered lg_dns
          ([EvGet (log_url lg_dns log_name) None
              (http_script w (http_calls w) (log_url lg_dns log_name) None)]
           ++ report rps t f ++ low
           :: evs (scale_out config lg_dns sg2_id (f, w1)) ++ tl)
     then last_now
          ([EvGet (log_url lg_dns log_name) None
              (http_script w (http_calls w) (log_url lg_dns log_name) None)]
           ++ report rps t f ++ low
           :: evs (scale_out config lg_dns sg2_id (f, w1)) ++ tl)
          = Some (last_launch_time
                    (fst (fin (scale_out config lg_dns sg2_id (f, w1)))))
     else last_launch_time
            (fst (fin (scale_out config lg_dns sg2_id (f, w1))))
          = last_launch_time f)).
  { intros tl Hr1 Hr2. unfold report, low. cbn [app].
    unfold registered in *. cbn [existsb]. rewrite Hf.
    cbn [is_registration orb last_now].
    rewrite existsb_app, Hr1, last_now_app, Hr2, orb_false_r.
    destruct (existsb (is_registration lg_dns)
                (evs (scale_out config lg_dns sg2_id (f, w1)))).
    - rewrite Hreg. reflexivity.
    - exact Hreg. }
  destruct fl; cbn [evs fin].
  - apply Hr; reflexivity.
  - specialize (Hr [] eq_refl eq_refl). now rewrite app_nil_r in Hr.
Qed.


(** One round of the loop. *)
Lemma monitor_unfold (fuel : nat) (f : frame) (w : world) :
  monitor config float (S fuel) lg_dns log_name sg2_id (f, w) =
  let k := is_test_complete lg_dns log_name w in
  match res k with
  | Ret true => Run (Ret tt) (f, fin k) (evs k)
  | Ret false =>
      let b := loop_body config float lg_dns log_name sg2_id (f, fin k) in
      match res b with
      | Ret _ =>
          let m := monitor config float fuel lg_dns log_name sg2_id (fin b) in
          Run (res m) (fin m) (evs k ++ evs b ++ evs m)
      | Raise e => Run (Raise e) (fin b) (evs k ++ evs b)
      | Diverge => Run Diverge (fin b) (evs k ++ evs b)
      end
  | Raise e => Run (Raise e) (f, fin k) (evs k)
  | Diverge => Run Diverge (f, fin k) (evs k)
  end.
Proof.
  cbn [monitor]. unfold bind at 1. unfold lift at 1. cbn [snd fst].
  destruct (is_test_complete lg_dns log_name w) as [[[|]|e|] wk evk];
    cbn [res fin evs]; try reflexivity.
  - unfold ret. now rewrite app_nil_r.
  - unfold bind.
    destruct (loop_body config float lg_dns log_name sg2_id (f, wk))
      as [[[]|e|] sb evb]; cbn [res fin evs]; try reflexivity.
    destruct (monitor config float fuel lg_dns log_name sg2_id sb)
      as [om sm evm].
    reflexivity.
Qed.

(** C7.  Let an iteration find a low rate and an expired cool-down, and let
    the provisioning of the new instance raise [e].  Then the iteration
    ends normally: it prints the error and sleeps, the local variables are
    as before (no identifier tracked, cool-down untouched), exactly one
    instance was asked for (no retry), and the monitoring loop goes on with
    its next round. *)
Theorem provisioning_error_abandons_attempt
    (fuel : nat) (f : frame) (w0 : world) (rps : Q) (e : exn) :
  let k := is_test_complete lg_dns log_name w0 in
  let g := get_rps float lg_dns log_name (fin k) in
  let t := clock_script (fin g) (clock_calls (fin g)) in
  let w1 := with_clock_calls (S (clock_calls (fin g))) (fin g) in
  let c := create_instance config (WEB_SERVICE_AMI config) sg2_id w1 in
  let body := (evs g ++ report rps t f ++ low :: evs c
                     ++ [paused e; EvSleep 1])%list in
  res k = Ret false ->
  res g = Ret rps ->
  (rps < 50)%Q ->
  (100 < total_seconds t (last_launch_time f))%Q ->
  res c = Raise e ->
  loop_body config float lg_dns log_name sg2_id (f, fin k)
  = Run (Ret tt) (f, fin c) body /\
  launches body = 1%nat /\
  monitor config float (S fuel) lg_dns log_name sg2_id (f, w0)
  = let m := monitor config float fuel lg_dns log_name sg2_id (f, fin c) in
    Run (res m) (fin m) (evs k ++ body ++ evs m).
Proof.
  cbn zeta. intros Hk Hg H1 H2 Hc.
  match goal with
  | H : res (create_instance _ _ _ ?w1) = Raise _ |- ?L = ?R /\ _ =>
      assert (Hbody : L = R);
      [ destruct (scale_out_run f w1) as (_ & _ & _ & _ & _ & _ & Hs) |]
  end.
  { rewrite loop_body_unfold. cbn zeta. rewrite Hg.
    apply ltb_lt in H1, H2. rewrite H1, H2. cbn [andb].
    cbn zeta in Hs. rewrite (Hs e Hc). cbn [res fin evs].
    now rewrite <- app_assoc. }
  split; [exact Hbody | split].
  - destruct (get_rps_run float lg_dns log_name
                (fin (is_test_complete lg_dns log_name w0)))
      as (Hev & _ & _).
    cbn zeta in Hev. rewrite Hev.
    match goal with
    | H : res (create_instance ?cfg ?ami ?g ?w1) = Raise _ |- _ =>
        destruct (create_instance_run cfg ami g w1)
          as (err & rest & Hcev & Hrest & _)
    end.
    rewrite Hcev.
    destruct (provisioning_steps_silent lg_dns rest Hrest) as (R1 & _).
    unfold report, low, paused. cbn [app].
    rewrite !launches_cons, launches_app, R1. reflexivity.
  - rewrite monitor_unfold. cbn zeta. rewrite Hk, Hbody. reflexivity.
Qed.

(** The completion check: the exception of [open] leaves it before
    anything is fetched; when [open] returned it fetches the log once. *)
Lemma is_test_complete_cases (w : world) :
  let url := log_url lg_dns log_name in
  let a := http_script w (http_calls w) url None in
  let k := is_test_complete lg_dns log_name w in
  match open_answer w 0 (log_name ++ ".log") with
  | Err e => k = Run (Raise e) (with_open_calls (S (open_calls w)) w) []
  | Ok _ =>
      evs k = [EvGet url None a] /\
      res k = match a with
              | Ok resp => Ret (Str.contains "[Test finished]" (text resp))
              | Err e => Raise e
              end
  end.
Proof.
  unfold is_test_complete, bind, requests_get, open_w, write, close, ret.
  destruct (open_answer w 0 _) as [[]|e]; cbn; [|reflexivity].
  destruct (http_script w (http_calls w) _ None); split; reflexivity.
Qed.

Lemma is_test_complete_launches (w : world) :
  launches (evs (is_test_complete lg_dns log_name w)) = 0%nat.
Proof.
  pose proof (is_test_complete_cases w) as H. cbn zeta in H.
  destruct (open_answer w 0 _) as [[]|e].
  - destruct H as [-> _]. reflexivity.
  - rewrite H. reflexivity.
Qed.

(** C3.  Every round of the monitoring loop starts with the completion
    check: the events of the loop begin with those of the check, a fetch of
    the log.  When the check answers [False] the body of the loop, which
    holds the threshold check, runs next, in the world the check has left.
    When the check answers [True] the loop has returned: nothing follows
    the check, so no instance is requested, and the local variables are as
    they were. *)
Theorem completion_check_comes_first (fuel : nat) (f : frame) (w : world) :
  let k := is_test_complete lg_dns log_name w in
  let r := monitor config float (S fuel) lg_dns log_name sg2_id (f, w) in
  let b := loop_body config float lg_dns log_name sg2_id (f, fin k) in
  (exists rest, evs r = (evs k ++ rest)%list) /\
  launches (evs k) = 0%nat /\
  (res k = Ret false -> exists rest, evs r = (evs k ++ evs b ++ rest)%list) /\
  (res k = Ret true -> r = Run (Ret tt) (f, fin k) (evs k)).
Proof.
  cbn zeta. rewrite monitor_unfold. cbn zeta.
  pose proof (is_test_complete_launches w) as Hl.
  assert (Hnil : forall l : list event, exists rest, l = (l ++ rest)%list)
    by (intros l; exists []; now rewrite app_nil_r).
  destruct (res (is_test_complete lg_dns log_name w)) as [[|]|e|];
    cbn [evs].
  - split; [apply Hnil |].
    split; [exact Hl | split; [discriminate | reflexivity]].
  - split; [| split; [exact Hl | split; [intros _ | discriminate]]];
      destruct (res (loop_body config float lg_dns log_name sg2_id _));
      cbn [evs]; eauto; exists []; now rewrite app_nil_r.
  - split; [apply Hnil |].
    split; [exact Hl | split; discriminate].
  - split; [apply Hnil |].
    split; [exact Hl | split; discriminate].
Qed.

(** An iteration that returns has slept for a second at its end, unless
    its attempt ended with the report of the missing DNS name. *)
Lemma loop_body_final_event (f : frame) (w : world) :
  let r := loop_body config float lg_dns log_name sg2_id (f, w) in
  res r = Ret tt ->
  final (evs r) = EvSleep 1 \/ final (evs r) = no_dns_report.
Proof.
  cbn zeta. rewrite loop_body_unfold. cbn zeta.
  destruct (res (get_rps float lg_dns log_name w)) as [rps|e|];
    try discriminate.
  set (t := clock_script _ _). set (w1 := with_clock_calls _ _).
  destruct (Float.ltb rps 50 &&
            Float.ltb 100 (total_seconds t (last_launch_time f))).
  2:{ intros _. left. unfold report. cbn [evs app].
      now rewrite final_app_cons. }
  destruct (scale_out_run f w1) as ((fl & Hfl) & Hl & _ & _ & _ & Hc & _).
  cbn zeta in Hc. rewrite Hfl in *. destruct fl; cbn [evs]; intros _.
  - left. unfold report, low. cbn [app].
    rewrite final_app_cons, !final_cons, final_cons_app. reflexivity.
  - right. specialize (Hc eq_refl). revert Hc Hl.
    destruct (evs (scale_out config lg_dns sg2_id (f, w1))) as [|x l];
      [discriminate|].
    intros Hc _. unfold report, low. cbn [app].
    rewrite final_app_cons, 3!final_cons. exact Hc.
Qed.

End Attempt.

(** ** Iterations in concrete worlds *)

Section Witnesses.

Import Sys Horizontal Watch Scenarios.

(** C1, in an iteration that finds ten requests per second two hundred
    seconds after the last launch. *)
Lemma scale_out_iff_low_rps_and_cooldown_witness :
  launches (evs (loop_body config Float.of_string lg log group
                   (monitoring, calm))) = 1%nat.
Proof.
  apply (proj2 (proj1 (scale_out_iff_low_rps_and_cooldown
                         config lg log group Float.of_string
                         monitoring calm))).
  exists 10%Q. split; [reflexivity | split; reflexivity].
Defined.

(** Eighty requests per second: no attempt. *)
Example no_attempt_when_busy :
  launches (evs (loop_body config Float.of_string lg log group
                   (monitoring, busy))) = 0%nat.
Proof. reflexivity. Qed.

(** Ten requests per second, fifty seconds after the last launch: no
    attempt. *)
Example no_attempt_during_cooldown :
  launches (evs (loop_body config Float.of_string lg log group
                   (cooling, calm))) = 0%nat.
Proof. reflexivity. Qed.

(** An attempt that registers its instance resets the cool-down to the
    reading of the clock that follows the registration. *)
Example cooldown_reset_on_registration :
  let r := loop_body config Float.of_string lg log group (monitoring, calm) in
  registered lg (evs r) = true /\
  last_launch_time (fst (fin r)) = 400000000 /\
  last_now (evs r) = Some 400000000.
Proof. repeat split; reflexivity. Qed.

(** An attempt whose provisioning fails leaves it alone. *)
Example cooldown_kept_on_provisioning_error :
  let r :=
    loop_body config Float.of_string lg log group (monitoring, capped) in
  registered lg (evs r) = false /\
  fst (fin r) = monitoring.
Proof. repeat split; reflexivity. Qed.

(** C3, on a log that already holds the terminal marker. *)
Lemma completion_check_comes_first_witness :
  monitor config Float.of_string 1 lg log group (monitoring, over)
  = Run (Ret tt) (monitoring, fin (is_test_complete lg log over))
        (evs (is_test_complete lg log over)).
Proof.
  apply (proj2 (proj2 (proj2 (completion_check_comes_first
                                config lg log group Float.of_string 0
                                monitoring over)))).
  reflexivity.
Defined.

(** C7, with an account that has reached its vCPU limit. *)
Lemma provisioning_error_abandons_attempt_witness :
  let k := is_test_complete lg log capped in
  let g := get_rps Float.of_string lg log (fin k) in
  let w1 := with_clock_calls (S (clock_calls (fin g))) (fin g) in
  let c := create_instance config (WEB_SERVICE_AMI config) group w1 in
  let r := loop_body config Float.of_string lg log group (monitoring, fin k) in
  res c = Raise vcpu_limit /\
  res r = Ret tt /\
  fst (fin r) = monitoring.
Proof.
  cbn zeta.
  destruct (provisioning_error_abandons_attempt
              config lg log group Float.of_string 1 monitoring capped 10%Q
              vcpu_limit eq_refl eq_refl eq_refl eq_refl eq_refl) as (H & _).
  rewrite H. repeat split; reflexivity.
Defined.

End Witnesses.

(** ** The pause between rounds *)

Section Pause.

Import Sys Horizontal Watch Scenarios.

(** C6.  An iteration in which the new instance comes up without a public
    DNS name: the iteration requests the instance, prints the error and
    ends there, without any sleep.  In the iteration that registers its
    instance the last event is the sleep of one second. *)
Theorem missing_dns_skips_sleep :
  let r :=
    loop_body config Float.of_string lg log group (monitoring, nameless) in
  let r' :=
    loop_body config Float.of_string lg log group (monitoring, calm) in
  res r = Ret tt /\
  launches (evs r) = 1%nat /\
  existsb is_sleep (evs r) = false /\
  last (evs r) (EvSleep 0)
  = EvPrint [FS "Error: Instance has no DNS name yet."] /\
  res r' = Ret tt /\
  last (evs r') (EvSleep 0) = EvSleep 1.
Proof. repeat split; reflexivity. Qed.

End Pause.

(** ** What the teardown of each script releases *)

Section Never.

Import Sys Teardown.

Variable p : event -> bool.

Lemma never_ret {S A} (a : A) : never p (@ret S A a).
Proof. intros s. reflexivity. Qed.

Lemma never_raise {S A} (e : exn) : never p (@raise S A e).
Proof. intros s. reflexivity. Qed.

Lemma never_diverge {S A} : never p (@diverge S A).
Proof. intros s. reflexivity. Qed.

Lemma never_of_result {S A} (r : result A) : never p (@of_result S A r).
Proof. destruct r; intros s; reflexivity. Qed.

Lemma never_bind {S A B} (m : M S A) (k : A -> M S B) :
  never p m -> (forall a, never p (k a)) -> never p (bind m k).
Proof.
  intros Hm Hk s. unfold bind. specialize (Hm s).
  destruct (m s) as [[a|e|] s1 ev1]; cbn [evs] in *; auto.
  specialize (Hk a s1). destruct (k a s1) as [o s2 ev2]. cbn [evs] in *.
  now rewrite existsb_app, Hm, Hk.
Qed.

Lemma never_try_except {S A} (m : M S A) (catches : exn -> bool)
    (handler : exn -> M S A) :
  never p m -> (forall e, never p (handler e)) ->
  never p (try_except m catches handler).
Proof.
  intros Hm Hh s. unfold try_except. specialize (Hm s).
  destruct (m s) as [[a|e|] s1 ev1]; cbn [evs] in *; auto.
  destruct (catches e); cbn [evs]; auto.
  specialize (Hh e s1). destruct (handler e s1) as [o s2 ev2].
  cbn [evs] in *. now rewrite existsb_app, Hm, Hh.
Qed.

Lemma never_lift {L A} (m : M world A) :
  never p m -> never p (@lift L A m).
Proof.
  intros Hm s. unfold lift. specialize (Hm (snd s)).
  now destruct (m (snd s)).
Qed.

Lemma never_get_locals {L} : never p (@get_locals L).
Proof. intros s. reflexivity. Qed.

Lemma never_set_locals {L} (f : L -> L) : never p (set_locals f).
Proof. intros s. reflexivity. Qed.

Lemma never_open_w (path : string) : never p (open_w path).
Proof. intros s. unfold open_w. now destruct (open_answer s 0 path). Qed.

Lemma never_write (path t : string) : never p (write path t).
Proof. intros s. reflexivity. Qed.

Lemma never_close (path : string) : never p (close path).
Proof. intros s. reflexivity. Qed.

Lemma never_read (path : string) : never p (read path).
Proof. intros s. unfold read. now destruct (lookup path (files s)). Qed.

Hypothesis p_print : forall l, p (EvPrint l) = false.
Hypothesis p_sleep : forall n, p (EvSleep n) = false.
Hypothesis p_now : forall t, p (EvNow t) = false.
Hypothesis p_get : forall u t a, p (EvGet u t a) = false.

Lemma never_print (l : list fmt) : never p (print l).
Proof. intros s. cbn. now rewrite p_print. Qed.

Lemma never_sleep (n : Z) : never p (sleep n).
Proof. intros s. cbn. now rewrite p_sleep. Qed.

Lemma never_now : never p now.
Proof. intros s. cbn. now rewrite p_now. Qed.

Lemma never_requests_get (url : string) (timeout : option Z) :
  never p (requests_get url timeout).
Proof. intros s. cbn. now rewrite p_get. Qed.

Lemma never_aws (r : aws_req) :
  (forall err, p (EvAws r err) = false) -> never p (aws r).
Proof. intros H s. cbn. now rewrite H. Qed.

End Never.

Ltac quiet_step :=
  first
    [ solve [auto]
    | simple apply never_ret | simple apply never_raise
    | simple apply never_diverge
    | simple apply never_of_result | simple apply never_get_locals
    | simple apply never_set_locals
    | simple apply never_open_w | simple apply never_write
    | simple apply never_close | simple apply never_read
    | simple apply never_print; intros; reflexivity
    | simple apply never_sleep; intros; reflexivity
    | simple apply never_now; intros; reflexivity
    | simple apply never_requests_get; intros; reflexivity
    | simple apply never_aws; intros; reflexivity
    | simple apply never_lift
    | simple apply never_bind; [|intros ?]
    | simple apply never_try_except; [|intros ?]
    | match goal with
      | |- Teardown.never _ (if ?b then _ else _) => destruct b
      | |- Teardown.never _ (match ?x with _ => _ end) => destruct x
      | |- Teardown.never _ (let _ := _ in _) => cbn zeta
      end ].

Ltac quiet := repeat quiet_step.

Section AutoscalingTeardown.

Import Sys Teardown Autoscaling.

Variable config : settings.

Lemma initialize_loop_silent (fuel : nat) :
  forall url resp,
    never deletes_security_group (initialize_loop fuel url resp).
Proof.
  induction fuel as [|n IH]; intros url resp; cbn [initialize_loop]; quiet.
Qed.

Lemma is_test_complete_silent (lg : json) (log_name : string) :
  never deletes_security_group (is_test_complete lg log_name).
Proof. unfold is_test_complete. quiet. Qed.

Lemma await_test_silent (fuel : nat) :
  forall lg log_name pause,
    never deletes_security_group (await_test fuel lg log_name pause).
Proof.
  pose proof is_test_complete_silent as H.
  induction fuel as [|n IH]; intros lg log_name pause; cbn [await_test];
    quiet.
Qed.

Lemma await_group_deletion_silent (fuel : nat) :
  never deletes_security_group (await_group_deletion config fuel).
Proof.
  induction fuel as [|n IH]; cbn [await_group_deletion]; unfold cfg; quiet.
Qed.

Lemma destroy_resources_silent (fuel : nat) :
  never deletes_security_group (destroy_resources config fuel).
Proof.
  pose proof await_group_deletion_silent as H.
  unfold destroy_resources, print_section, cfg. quiet.
Qed.

(** On no path does the autoscaling script ask for the deletion of a
    security group. *)
Lemma autoscaling_main_silent (fuel : nat) :
  never deletes_security_group (main config fuel).
Proof.
  pose proof initialize_loop_silent as H1.
  pose proof await_test_silent as H2.
  pose proof destroy_resources_silent as H3.
  unfold main, main_body, get_default_vpc, get_subnets, create_instance,
    initialize_warmup, initialize_test, test_id_of, print_section, cfg,
    Horizontal.time_time, http_ingress, metric_alarm.
  quiet.
Qed.

End AutoscalingTeardown.

Section HorizontalTeardown.

Import Sys Teardown Horizontal.

Variable config : configuration.

(** However the [try] block of [main] ends, the [finally] block runs
    next, on the local variables as the block left them. *)
Lemma main_always_cleans_up (float : string -> result Q) (fuel : nat)
    (w : world) :
  let b := main_body config float fuel (initial_frame, w) in
  res b <> Diverge ->
  evs (main config float fuel w) = (evs b ++ evs (main_cleanup (fin b)))%list.
Proof.
  cbn zeta. unfold main, try_finally.
  destruct (main_body config float fuel (initial_frame, w)) as [[[]|e|] s1 ev1];
    cbn [res fin evs]; intros H; try (now elim H);
    destruct (main_cleanup s1) as [[[]|e'|] s2 ev2]; reflexivity.
Qed.

(** The [finally] block asks once for the termination of the tracked
    instances, all in one request, when there are any; it then asks once
    for the deletion of the security group, when one was created, unless
    the termination request raised. *)
Lemma main_cleanup_releases (f : frame) (w : world) :
  let r := main_cleanup (f, w) in
  let ids := all_instance_ids f in
  let t := aws_script w (aws_calls w) (TerminateInstances ids) in
  filter terminates_instances (evs r)
  = match ids with
    | [] => []
    | _ => [EvAws (TerminateInstances ids)
                  (match t with Ok _ => None | Err e => Some e end)]
    end /\
  count deletes_security_group (evs r)
  = match sg f, ids, t with
    | None, _, _ => 0%nat
    | Some _, _ :: _, Err _ => 0%nat
    | Some _, _, _ => 1%nat
    end /\
  (forall g, sg f = Some g ->
             count deletes_security_group (evs r) = 1%nat ->
             exists err, In (EvAws (DeleteSecurityGroup g) err) (evs r)).
Proof.
  cbn zeta. unfold main_cleanup, print_section, bind, lift, get_locals,
    try_except, ret, print, sleep, aws, count.
  cbn [fst snd res fin evs].
  destruct f as [g ids t0]. cbn [sg all_instance_ids].
  destruct ids as [|i ids].
  - destruct g as [g|]; cbn.
    + destruct (aws_script w (aws_calls w) (DeleteSecurityGroup g));
        cbn; repeat split; try reflexivity;
        intros g' [= <-] _; eexists; eauto 10.
    + repeat split; try reflexivity. intros g' [=].
  - cbn.
    destruct (aws_script w (aws_calls w) (TerminateInstances (i :: ids)))
      as [[]|e]; cbn.
    + destruct g as [g|]; cbn.
      * destruct (aws_script w (S (aws_calls w)) (DeleteSecurityGroup g));
          cbn; repeat split; try reflexivity;
          intros g' [= <-] _; eexists; eauto 10.
      * repeat split; try reflexivity. intros g' [=].
    + destruct g as [g|]; repeat split; try reflexivity; intros g' [=].
      discriminate.
Qed.

End HorizontalTeardown.

(** ** Teardown in concrete worlds *)

Section TeardownRuns.

Import Sys Teardown Scenarios.

(** C8.  A run of the autoscaling script in which every call succeeds and
    both tests finish: [main] returns, and its events hold the creation of
    two security groups, one termination of instances, and no deletion of
    a security group.  The same for a run that fails at its first call and
    goes through the handler.  The horizontal-scaling script, on a run
    that completes and on a run that leaves its [try] block with an
    exception, terminates its instances once and deletes the one group it
    created. *)
Theorem autoscaling_leaves_security_groups :
  let r := Autoscaling.main settings 3 smooth in
  let r' := Autoscaling.main settings 3 unreachable in
  let h := Horizontal.main config Float.of_string 3 smooth in
  let h' := Horizontal.main config Float.of_string 3 over in
  res r = Ret tt /\
  count creates_security_group (evs r) = 2%nat /\
  count terminates_instances (evs r) = 1%nat /\
  count deletes_security_group (evs r) = 0%nat /\
  res r' = Ret tt /\
  count deletes_security_group (evs r') = 0%nat /\
  res h = Ret tt /\
  count creates_security_group (evs h) = 1%nat /\
  count terminates_instances (evs h) = 1%nat /\
  count deletes_security_group (evs h) = 1%nat /\
  res h' = Raise (Exn IndexError "list index out of range") /\
  count creates_security_group (evs h') = 1%nat /\
  count terminates_instances (evs h') = 1%nat /\
  count deletes_security_group (evs h') = 1%nat.
Proof. repeat split; vm_compute; reflexivity. Qed.

End TeardownRuns.

(* ================================================================== *)
(** * Further properties *)
(* ================================================================== *)

(** ** [initialize_test] and [initialize_warmup] *)

Section StartOfTest.

Import Sys Horizontal Start.

Lemma not_started_retried (a : response) :
  not_started (Some a) = retried (Ok a).
Proof.
  unfold not_started, retried, response_ok.
  destruct (status_code a =? 200) eqn:E; cbn; [|apply orb_true_r].
  apply Z.eqb_eq in E. rewrite E. reflexivity.
Qed.

Lemma rounds_ext (url : string) (n : nat) :
  forall f g : nat -> result response,
    (forall k, (k < n)%nat -> f k = g k) -> rounds url f n = rounds url g n.
Proof.
  induction n as [|n IH]; intros f g H; [reflexivity|].
  cbn [rounds]. rewrite (H 0%nat) by lia. f_equal.
  apply IH. intros k Hk. apply H. lia.
Qed.

(** The loop, from a response that does not end it, in a world whose
    [n]-th answer from now is the first that is not retried. *)
Lemma initialize_test_loop_spec (url : string) (n : nat) :
  forall (fuel : nat) (resp : option response) (w : world),
    not_started resp = true ->
    (forall k, (k < n)%nat ->
       retried (http_script w (http_calls w + k) url None) = true) ->
    retried (http_script w (http_calls w + n) url None) = false ->
    (n + 2 <= fuel)%nat ->
    let r := initialize_test_loop fuel url resp w in
    evs r = (rounds url (fun k => http_script w (http_calls w + k) url None) n
               ++ [EvGet url None (http_script w (http_calls w + n) url None)])
              %list /\
    res r = match http_script w (http_calls w + n) url None with
            | Ok a => Ret (Some a)
            | Err e => Raise e
            end.
Proof.
  induction n as [|n IH]; intros fuel resp w Hresp Hre Hstop Hfuel r.
  - destruct fuel as [|[|fuel]]; [lia | lia |]. subst r.
    cbn [initialize_test_loop]. rewrite Hresp.
    rewrite Nat.add_0_r in *.
    unfold bind, try_except, requests_get. cbn [rounds app].
    destruct (http_script w (http_calls w) url None) as [a|e].
    + cbn [res fin evs ret initialize_test_loop].
      rewrite not_started_retried, Hstop. cbn. auto.
    + cbn in Hstop. rewrite Hstop. cbn. auto.
  - destruct fuel as [|fuel]; [lia|]. subst r.
    cbn [initialize_test_loop]. rewrite Hresp.
    pose proof (Hre 0%nat ltac:(lia)) as H0.
    rewrite Nat.add_0_r in H0.
    set (w1 := with_http_calls (S (http_calls w)) w).
    assert (Hshift : forall k, http_script w1 (http_calls w1 + k) url None
                      = http_script w (http_calls w + S k) url None).
    { intros k. unfold w1. cbn. f_equal. lia. }
    assert (IH' : forall resp', not_started resp' = true ->
              let r := initialize_test_loop fuel url resp' w1 in
              evs r = (rounds url
                         (fun i => http_script w (http_calls w + S i) url None)
                         n
                       ++ [EvGet url None
                             (http_script w (http_calls w + S n) url None)])
                        %list /\
              res r = match http_script w (http_calls w + S n) url None with
                      | Ok a => Ret (Some a)
                      | Err e => Raise e
                      end).
    { intros resp' Hr'. specialize (IH fuel resp' w1 Hr'). cbn zeta in IH.
      rewrite <- Hshift.
      rewrite <- (rounds_ext url n _ _ (fun k _ => Hshift k)).
      apply IH.
      - intros k Hk. rewrite Hshift. apply Hre. lia.
      - rewrite Hshift. exact Hstop.
      - lia. }
    clear IH Hshift.
    unfold bind at 1. unfold try_except, bind, requests_get.
    cbn [rounds]. rewrite Nat.add_0_r.
    fold w1.
    destruct (http_script w (http_calls w) url None) as [a|e].
    + cbn [res fin evs ret app round].
      specialize (IH' (Some a)). rewrite not_started_retried in IH'.
      specialize (IH' H0). cbn zeta in IH'.
      destruct (initialize_test_loop fuel url (Some a) w1) as [o s ev].
      cbn [res evs] in *. destruct IH' as [-> ->]. auto.
    + cbn in H0. rewrite H0. cbn [res fin evs ret app round sleep].
      specialize (IH' resp Hresp). cbn zeta in IH'.
      destruct (initialize_test_loop fuel url resp w1) as [o s ev].
      cbn [res evs] in *. destruct IH' as [-> ->]. auto.
Qed.

Lemma requests_app (l1 l2 : list event) :
  requests (l1 ++ l2) = (requests l1 + requests l2)%nat.
Proof. unfold requests. now rewrite filter_app, length_app. Qed.

(** Each retried round holds one request. *)
Lemma requests_rounds (url : string) (n : nat) :
  forall answer, requests (rounds url answer n) = n.
Proof.
  induction n as [|n IH]; intros answer; [reflexivity|].
  cbn [rounds]. rewrite requests_app, IH. now destruct (answer 0%nat).
Qed.

(** The loop in a world in which every answer is retried. *)
Lemma initialize_test_loop_retries (url : string) (fuel : nat) :
  forall (resp : option response) (w : world),
    not_started resp = true ->
    (forall k, retried (http_script w (http_calls w + k) url None) = true) ->
    let r := initialize_test_loop fuel url resp w in
    evs r = rounds url (fun k => http_script w (http_calls w + k) url None)
                   fuel /\
    res r = Diverge.
Proof.
  induction fuel as [|fuel IH]; intros resp w Hresp Hre r;
    [split; reflexivity|].
  subst r. cbn [initialize_test_loop]. rewrite Hresp.
  pose proof (Hre 0%nat) as H0. rewrite Nat.add_0_r in H0.
  set (w1 := with_http_calls (S (http_calls w)) w).
  assert (Hshift : forall k, http_script w1 (http_calls w1 + k) url None
                    = http_script w (http_calls w + S k) url None).
  { intros k. unfold w1. cbn. f_equal. lia. }
  assert (IH' : forall resp', not_started resp' = true ->
            let r := initialize_test_loop fuel url resp' w1 in
            evs r = rounds url
                      (fun i => http_script w (http_calls w + S i) url None)
                      fuel /\
            res r = Diverge).
  { intros resp' Hr'. specialize (IH resp' w1 Hr'). cbn zeta in IH.
    rewrite <- (rounds_ext url fuel _ _ (fun k _ => Hshift k)).
    apply IH. intros k. rewrite Hshift. apply Hre. }
  clear IH Hshift.
  unfold bind at 1. unfold try_except, bind, requests_get.
  cbn [rounds]. rewrite Nat.add_0_r. fold w1.
  destruct (http_script w (http_calls w) url None) as [a|e].
  - cbn [res fin evs ret app round].
    specialize (IH' (Some a)). rewrite not_started_retried in IH'.
    specialize (IH' H0). cbn zeta in IH'.
    destruct (initialize_test_loop fuel url (Some a) w1) as [o s ev].
    cbn [res evs] in *. destruct IH' as [-> ->]. auto.
  - cbn in H0. rewrite H0. cbn [res fin evs ret app round sleep].
    specialize (IH' resp Hresp). cbn zeta in IH'.
    destruct (initialize_test_loop fuel url resp w1) as [o s ev].
    cbn [res evs] in *. destruct IH' as [-> ->]. auto.
Qed.

(** The two scripts run the same loop. *)
Lemma initialize_loop_eq (fuel : nat) :
  forall (url : string) (resp : option response) (w : world),
    Autoscaling.initialize_loop fuel url resp w
    = initialize_test_loop fuel url resp w.
Proof. reflexivity. Qed.

(** X1.  [initialize_test] of the horizontal-scaling script asks the load
    generator to start the test until an answer ends the loop.  Let the
    answers to its first [n] requests be retried (a connection error, or a
    status other than 200) and the next one not.  Then it makes [n + 1]
    requests, all for the same URL; it sleeps for a second after each
    connection error and not at all after a refusing status; and it ends
    with what the last answer gives: the test name read in a response with
    status 200, the [IndexError] of a response that holds none, or the
    exception of the request. *)
Theorem initialize_test_first_200 (fuel n : nat)
    (lg_dns first_web_service_dns : string) (w : world) :
  let url := "http://" ++ lg_dns ++ "/test/horizontal?dns="
                       ++ first_web_service_dns in
  let answer k := http_script w (http_calls w + k) url None in
  let r := initialize_test fuel lg_dns first_web_service_dns w in
  (forall k, (k < n)%nat -> retried (answer k) = true) ->
  retried (answer n) = false ->
  (n + 2 <= fuel)%nat ->
  evs r = (rounds url answer n ++ [EvGet url None (answer n)])%list /\
  res r = started (answer n).
Proof.
  cbn zeta. intros Hre Hstop Hfuel.
  destruct (initialize_test_loop_spec _ n fuel None w eq_refl Hre Hstop Hfuel)
    as [Hev Hres].
  unfold initialize_test, bind.
  destruct (initialize_test_loop fuel _ None w) as [o s ev].
  cbn [res evs] in *. subst ev o. unfold started.
  destruct (http_script w (http_calls w + n) _ None) as [a|e];
    [|split; reflexivity].
  unfold of_result, ret, raise.
  destruct (get_test_id a); cbn [res evs]; now rewrite app_nil_r.
Qed.

(** X1, at a load generator that refuses a connection, then answers 503,
    then starts the test. *)
Lemma initialize_test_first_200_witness :
  let url := "http://" ++ Scenarios.lg ++ "/test/horizontal?dns="
                       ++ Scenarios.ws in
  let r := initialize_test 4 Scenarios.lg Scenarios.ws Scenarios.warming in
  evs r = [EvGet url None (Err Scenarios.refused); EvSleep 1;
           EvGet url None (Ok (Response 503 ""));
           EvGet url None
             (Ok (Response 200 "<a href=/log?name=test.1436.log>Test</a>"))]
  /\ res r = Ret "test.1436.log".
Proof.
  apply (initialize_test_first_200 4 2 Scenarios.lg Scenarios.ws
           Scenarios.warming).
  - intros [|[|k]] Hk; [reflexivity | reflexivity | lia].
  - reflexivity.
  - lia.
Defined.

(** X2.  [initialize_test] has no way out but an answer that ends its
    loop: while every answer is a connection error or carries a status
    other than 200 it keeps asking, one request per round, however many
    rounds it is given. *)
Theorem initialize_test_retries_forever (fuel : nat)
    (lg_dns first_web_service_dns : string) (w : world) :
  let url := "http://" ++ lg_dns ++ "/test/horizontal?dns="
                       ++ first_web_service_dns in
  let answer k := http_script w (http_calls w + k) url None in
  let r := initialize_test fuel lg_dns first_web_service_dns w in
  (forall k, retried (answer k) = true) ->
  res r = Diverge /\
  evs r = rounds url answer fuel /\
  requests (evs r) = fuel.
Proof.
  cbn zeta. intros Hre.
  destruct (initialize_test_loop_retries _ fuel None w eq_refl Hre)
    as [Hev Hres].
  unfold initialize_test, bind.
  destruct (initialize_test_loop fuel _ None w) as [o s ev].
  cbn [res evs] in *. subst ev o. cbn [res evs].
  repeat split. apply requests_rounds.
Qed.

(** X2, at a load generator that nothing reaches. *)
Lemma initialize_test_retries_forever_witness :
  let r := initialize_test 7 Scenarios.lg Scenarios.ws Scenarios.unreachable in
  res r = Diverge /\ requests (evs r) = 7%nat.
Proof.
  destruct (initialize_test_retries_forever 7 Scenarios.lg Scenarios.ws
              Scenarios.unreachable (fun _ => eq_refl)) as (H1 & _ & H3).
  split; [exact H1 | exact H3].
Defined.

(** X3.  [initialize_test] and [initialize_warmup] of the autoscaling
    script follow the same protocol, each with its own URL: [n] retried
    answers, then the answer that ends the loop; a pause of a second after
    each connection error only; the test name of the last response, or the
    exception that the request or the missing name raises. *)
Theorem autoscaling_start_first_200 (warmup : bool) (fuel n : nat)
    (load_generator_dns dns : json) (w : world) :
  let path := if warmup then "/warmup?dns=" else "/autoscaling?dns=" in
  let url := "http://" ++ Json.str load_generator_dns ++ path
                       ++ Json.str dns in
  let answer k := http_script w (http_calls w + k) url None in
  let r := if warmup
           then Autoscaling.initialize_warmup fuel load_generator_dns dns w
           else Autoscaling.initialize_test fuel load_generator_dns dns w in
  (forall k, (k < n)%nat -> retried (answer k) = true) ->
  retried (answer n) = false ->
  (n + 2 <= fuel)%nat ->
  evs r = (rounds url answer n ++ [EvGet url None (answer n)])%list /\
  res r = started (answer n).
Proof.
  cbn zeta. intros Hre Hstop Hfuel.
  destruct (initialize_test_loop_spec _ n fuel None w eq_refl Hre Hstop Hfuel)
    as [Hev Hres].
  assert (H : forall url',
    url' = "http://" ++ Json.str load_generator_dns
             ++ (if warmup then "/warmup?dns=" else "/autoscaling?dns=")
             ++ Json.str dns ->
    let r := bind (Autoscaling.initialize_loop fuel url' None)
                  Autoscaling.test_id_of w in
    evs r = (rounds url'
               (fun k => http_script w (http_calls w + k) url' None) n
             ++ [EvGet url' None (http_script w (http_calls w + n) url' None)])
              %list /\
    res r = started (http_script w (http_calls w + n) url' None)).
  { intros url' ->. cbn zeta. unfold bind. rewrite initialize_loop_eq.
    destruct (initialize_test_loop fuel _ None w) as [o s ev].
    cbn [res evs] in *. subst ev o. unfold started.
    destruct (http_script w (http_calls w + n) _ None) as [a|e];
      [|split; reflexivity].
    unfold Autoscaling.test_id_of, of_result, ret, raise.
    change (Autoscaling.get_test_id a) with (get_test_id a).
    destruct (get_test_id a); cbn [res evs]; now rewrite app_nil_r. }
  destruct warmup; apply H; reflexivity.
Qed.

(** X3, for the warm-up, at a load generator that refuses a connection,
    then answers 503, then starts the test. *)
Lemma autoscaling_start_first_200_witness :
  let url := "http://" ++ Scenarios.lg ++ "/warmup?dns=lb.elb.amazonaws.com" in
  let r := Autoscaling.initialize_warmup 4 (JStr Scenarios.lg)
             (JStr "lb.elb.amazonaws.com") Scenarios.warming in
  evs r = [EvGet url None (Err Scenarios.refused); EvSleep 1;
           EvGet url None (Ok (Response 503 ""));
           EvGet url None
             (Ok (Response 200 "<a href=/log?name=test.1436.log>Test</a>"))]
  /\ res r = Ret "test.1436.log".
Proof.
  apply (autoscaling_start_first_200 true 4 2 (JStr Scenarios.lg)
           (JStr "lb.elb.amazonaws.com") Scenarios.warming).
  - intros [|[|k]] Hk; [reflexivity | reflexivity | lia].
  - reflexivity.
  - lia.
Defined.

End StartOfTest.

(** ** The pauses of [wait_for_server_health] *)

Section HealthPauses.

Import Sys Horizontal Obs Pauses.

Lemma slept_app (l1 l2 : list event) : slept (l1 ++ l2) = slept l1 + slept l2.
Proof.
  induction l1 as [|e l1 IH]; [reflexivity|].
  cbn [app slept]. destruct e; rewrite IH; lia.
Qed.

(** The loop, started with [b] rounds left before [retries] reaches 40. *)
Lemma wait_loop_pauses (dns_name url : string) (fuel : nat) :
  forall (b : nat) (retries : Z) (w : world),
    retries = 40 - Z.of_nat b ->
    (b <= 40)%nat ->
    (b < fuel)%nat ->
    let r := wait_loop fuel dns_name url retries w in
    let n := Z.of_nat (probes (evs r)) in
    match res r with
    | Ret true => 1 <= n <= Z.of_nat b /\ slept (evs r) = 2 * (n - 1)
    | Ret false => n = Z.of_nat b /\ slept (evs r) = 2 * n
    | Raise e =>
        1 <= n <= Z.of_nat b /\ slept (evs r) = 2 * (n - 1) /\
        last_probe (evs r) = Some (Err e) /\ is_RequestException e = false
    | Diverge => False
    end /\
    (forall u t a, In (EvGet u t a) (evs r) -> u = url /\ t = Some 1).
Proof.
  induction fuel as [|fuel IH]; intros b retries w Hr Hb Hf; [lia|].
  cbn [wait_loop].
  destruct (retries <? 40) eqn:Hlt.
  - apply Z.ltb_lt in Hlt.
    destruct b as [|b]; [lia|].
    specialize (IH b (retries + 1) (with_http_calls (S (http_calls w)) w)).
    cbn zeta in IH.
    destruct IH as (IH1 & IH2); [lia | lia | lia |].
    clear Hr Hf Hlt.
    unfold bind, try_except, requests_get.
    destruct (http_script w (http_calls w) url (Some 1)) as [a|e] eqn:Ha.
    + destruct (status_code a =? 200) eqn:Hs;
        cbn [res fin evs app print ret sleep].
      * unfold probes. cbn. split; [lia|].
        intros u t a' [E|[E|[]]];
          [injection E as <- <- <-; auto | discriminate E].
      * destruct (wait_loop fuel dns_name url (retries + 1) _) as [o s2 ev2].
        cbn [res fin evs app sleep] in *.
        unfold probes in *. cbn [filter is_probe List.length slept].
        rewrite Nat2Z.inj_succ.
        split.
        -- destruct o as [[|]|e0|]; cbv iota in IH1 |- *; try tauto; try lia.
           destruct IH1 as (? & ? & Hl & ?). cbn [last_probe]. rewrite Hl.
           repeat split; auto; lia.
        -- intros u t a' [E|[E|H]];
             [injection E as <- <- <-; auto | discriminate E | eauto].
    + destruct (is_RequestException e) eqn:He;
        cbn [res fin evs app print ret sleep].
      * destruct (wait_loop fuel dns_name url (retries + 1) _) as [o s2 ev2].
        cbn [res fin evs app sleep] in *.
        unfold probes in *. cbn [filter is_probe List.length slept].
        rewrite Nat2Z.inj_succ.
        split.
        -- destruct o as [[|]|e0|]; cbv iota in IH1 |- *; try tauto; try lia.
           destruct IH1 as (? & ? & Hl & ?). cbn [last_probe]. rewrite Hl.
           repeat split; auto; lia.
        -- intros u t a' [E|[E|H]];
             [injection E as <- <- <-; auto | discriminate E | eauto].
      * unfold probes. cbn. split; [repeat split; auto; lia|].
        intros u t a' [E|[]]. injection E as <- <- <-; auto.
  - apply Z.ltb_ge in Hlt. assert (b = 0)%nat by lia. subst b.
    cbn. split; [lia|]. intros u t a [[=]|[]].
Qed.

(** X4.  [wait_for_server_health] sleeps for two seconds after each probe
    that fails and before the next one, and never otherwise.  It answers
    [False] only after 40 probes and 80 seconds asleep, and [True] after
    two seconds for each probe but the last; an exception of a probe that
    is no [RequestException] leaves the function at once.  Every probe
    asks for [http://<dns_name>] with a time-out of one second. *)
Theorem wait_for_server_health_pauses (dns_name : string) (w : world) :
  let r := wait_for_server_health dns_name w in
  let n := Z.of_nat (probes (evs r)) in
  match res r with
  | Ret true => slept (evs r) = 2 * (n - 1)
  | Ret false => n = 40 /\ slept (evs r) = 80
  | Raise e =>
      slept (evs r) = 2 * (n - 1) /\
      last_probe (evs r) = Some (Err e) /\ is_RequestException e = false
  | Diverge => False
  end /\
  1 <= n <= 40 /\
  0 <= slept (evs r) <= 80 /\
  (forall u t a, In (EvGet u t a) (evs r) ->
                 u = "http://" ++ dns_name /\ t = Some 1).
Proof.
  cbn zeta. unfold wait_for_server_health, bind, print.
  pose proof (wait_loop_pauses dns_name ("http://" ++ dns_name) 41 40 0 w
                eq_refl (le_n _) (le_n _)) as H.
  cbn zeta in H.
  destruct (wait_loop 41 dns_name ("http://" ++ dns_name) 0 w) as [o s ev].
  cbn [res evs fin app] in *. destruct H as (H1 & H2).
  change (probes (EvPrint
            [FS "Waiting for "; FS dns_name;
             FS " to boot web application..."] :: ev)) with (probes ev).
  cbn [slept last_probe].
  split; [|split; [|split]].
  - destruct o as [[|]|e|]; cbv iota in H1 |- *; try tauto; try lia.
    destruct H1 as (? & ? & Hl & ?). rewrite Hl. auto.
  - destruct o as [[|]|e|]; cbv iota in H1; try tauto; lia.
  - destruct o as [[|]|e|]; cbv iota in H1; try tauto; lia.
  - intros u t a [[=]|H]. eauto.
Qed.

End HealthPauses.

(** ** Which instances [main] tracks, and what its [finally] block does *)

Section Tracking.

Import Sys Horizontal Watch Teardown.

Variable config : configuration.
Variables (lg_dns log_name sg2_id : string).

(** The [finally] block asks for the termination of the tracked
    identifiers and of no others. *)
Lemma main_cleanup_terminates_tracked (f : frame) (w : world)
    (ids : list string) (err : option exn) :
  In (EvAws (TerminateInstances ids) err) (evs (main_cleanup (f, w))) ->
  ids = all_instance_ids f.
Proof.
  unfold main_cleanup, print_section, bind, lift, get_locals, try_except,
    ret, print, sleep, aws.
  cbn [fst snd res fin evs].
  destruct f as [g l t0]. cbn [sg all_instance_ids].
  destruct l as [|i l].
  - destruct g as [g|]; cbn.
    + destruct (aws_script w (aws_calls w) (DeleteSecurityGroup g)); cbn;
        intros H; repeat (destruct H as [H|H]; try discriminate H); elim H.
    + intros [H|[]]. discriminate H.
  - cbn.
    destruct (aws_script w (aws_calls w) (TerminateInstances (i :: l)))
      as [[]|e]; cbn.
    + destruct g as [g|]; cbn.
      * destruct (aws_script w (S (aws_calls w)) (DeleteSecurityGroup g));
          cbn; intros H;
          repeat (destruct H as [H|H];
                  [first [discriminate H | injection H as <- _; reflexivity]|]);
          elim H.
      * intros H.
        repeat (destruct H as [H|H];
                [first [discriminate H | injection H as <- _; reflexivity]|]).
        elim H.
    + intros H.
      repeat (destruct H as [H|H];
              [first [discriminate H | injection H as <- _; reflexivity]|]).
      elim H.
Qed.

(** An attempt leaves the security group alone and tracks at most one more
    identifier. *)
Lemma scale_out_tracks (f : frame) (w : world) :
  let r := scale_out config lg_dns sg2_id (f, w) in
  all_instance_ids (fst (fin r)) = all_instance_ids f \/
  exists i, all_instance_ids (fst (fin r)) = (all_instance_ids f ++ [i])%list.
Proof.
  cbn zeta.
  unfold scale_out, try_except, bind, lift, set_locals, ret. cbn [fst snd].
  destruct (create_instance config (WEB_SERVICE_AMI config) sg2_id w)
    as [[i|e|] w1 ev1]; cbn [fst snd res fin evs is_Exception print];
    [| left; reflexivity | left; reflexivity].
  unfold aws.
  destruct (aws_script w1 (aws_calls w1) (Reload (id i))) as [dns|e];
    cbn [fst snd res fin evs app is_Exception print];
    [| right; exists (id i); reflexivity].
  destruct (no_dns dns); cbn [fst snd res fin evs app print];
    [right; exists (id i); reflexivity |].
  destruct (wait_for_server_health (Str.of_opt dns) _)
    as [[[|]|e|] w2 ev2]; cbn [fst snd res fin evs app is_Exception print];
    try (right; exists (id i); reflexivity).
  unfold requests_get.
  destruct (http_script w2 (http_calls w2) _ None) as [a|e];
    cbn [fst snd res fin evs app is_Exception print];
    [| right; exists (id i); reflexivity].
  destruct (status_code a =? 200);
    cbn [fst snd res fin evs app is_Exception print now];
    right; exists (id i); reflexivity.
Qed.

Variable float : string -> result Q.

(** An iteration tracks an identifier only when it has asked for an
    instance. *)
Lemma loop_body_tracks (f : frame) (w : world) :
  let r := loop_body config float lg_dns log_name sg2_id (f, w) in
  sg (fst (fin r)) = sg f /\
  exists added,
    all_instance_ids (fst (fin r)) = (all_instance_ids f ++ added)%list /\
    (List.length added <= launches (evs r))%nat.
Proof.
  cbn zeta. rewrite loop_body_unfold. cbn zeta.
  destruct (res (get_rps float lg_dns log_name w)) as [rps|e|];
    cbn [fin evs fst];
    try (split; [reflexivity | exists []; rewrite app_nil_r; split;
                                [reflexivity | cbn; lia]]).
  set (t := clock_script _ _). set (w1 := with_clock_calls _ _).
  destruct (Float.ltb rps 50 &&
            Float.ltb 100 (total_seconds t (last_launch_time f))).
  2:{ cbn [fin evs fst]. split; [reflexivity|].
      exists []. rewrite app_nil_r. split; [reflexivity | cbn; lia]. }
  destruct (scale_out_run config lg_dns sg2_id f w1)
    as (_ & Hl & _ & Hsg & _).
  pose proof (scale_out_tracks f w1) as Hids. cbn zeta in Hids, Hsg.
  assert (H : sg (fst (fin (scale_out config lg_dns sg2_id (f, w1)))) = sg f /\
    exists added,
      all_instance_ids (fst (fin (scale_out config lg_dns sg2_id (f, w1))))
      = (all_instance_ids f ++ added)%list /\
      forall pre post,
        (List.length added
         <= launches (pre ++ evs (scale_out config lg_dns sg2_id (f, w1))
                          ++ post))%nat).
  { split; [exact Hsg|]. destruct Hids as [Hi|[i Hi]].
    - exists []. rewrite app_nil_r. split; [exact Hi | intros; cbn; lia].
    - exists [i]. split; [exact Hi|]. intros pre post.
      rewrite !launches_app, Hl. cbn. lia. }
  destruct H as (H1 & added & H2 & H3).
  destruct (res (scale_out config lg_dns sg2_id (f, w1))) as [[|]|e|];
    cbn [fin evs]; (split; [exact H1|]); exists added; (split; [exact H2|]).
  - specialize (H3 (evs (get_rps float lg_dns log_name w) ++ report rps t f
                      ++ [low])%list [EvSleep 1]).
    now rewrite <- !app_assoc in H3.
  - specialize (H3 (evs (get_rps float lg_dns log_name w) ++ report rps t f
                      ++ [low])%list []).
    now rewrite <- !app_assoc, app_nil_r in H3.
  - specialize (H3 (evs (get_rps float lg_dns log_name w) ++ report rps t f
                      ++ [low])%list []).
    now rewrite <- !app_assoc, app_nil_r in H3.
  - specialize (H3 (evs (get_rps float lg_dns log_name w) ++ report rps t f
                      ++ [low])%list []).
    now rewrite <- !app_assoc, app_nil_r in H3.
Qed.

(** X5.  The monitoring loop never drops an identifier it tracks and never
    rebinds the security group: however many rounds it runs and however it
    ends, the tracked identifiers are the ones it started with, followed by
    at most one new identifier for each instance it asked for. *)
Theorem monitor_tracks_instances (fuel : nat) (f : frame) (w : world) :
  let r := monitor config float fuel lg_dns log_name sg2_id (f, w) in
  sg (fst (fin r)) = sg f /\
  exists added,
    all_instance_ids (fst (fin r)) = (all_instance_ids f ++ added)%list /\
    (List.length added <= launches (evs r))%nat.
Proof.
  revert f w. induction fuel as [|fuel IH]; intros f w.
  - cbn. split; [reflexivity|]. exists []. now rewrite app_nil_r.
  - cbn zeta. rewrite monitor_unfold. cbn zeta.
    assert (Hstay : forall (o : outcome unit) (wk : world) (ev : list event),
              sg (fst (fin (Run o (f, wk) ev))) = sg f /\
              exists added,
                all_instance_ids (fst (fin (Run o (f, wk) ev)))
                = (all_instance_ids f ++ added)%list /\
                (List.length added <= launches (evs (Run o (f, wk) ev)))%nat).
    { intros o wk ev. split; [reflexivity|]. exists [].
      rewrite app_nil_r. split; [reflexivity | cbn; lia]. }
    destruct (res (is_test_complete lg_dns log_name w)) as [[|]|e|];
      try apply Hstay.
    clear Hstay.
    set (wk := fin (is_test_complete lg_dns log_name w)).
    destruct (loop_body_tracks f wk) as (B1 & a1 & B2 & B3).
    destruct (loop_body config float lg_dns log_name sg2_id (f, wk))
      as [[[]|e|] [fb wb] evb]; cbn [res fin evs fst] in *.
    + destruct (IH fb wb) as (M1 & a2 & M2 & M3).
      split; [congruence|]. exists (a1 ++ a2)%list. split.
      * rewrite M2, B2. now rewrite app_assoc.
      * rewrite length_app, !launches_app. lia.
    + split; [exact B1|]. exists a1. split; [exact B2|].
      rewrite launches_app. lia.
    + split; [exact B1|]. exists a1. split; [exact B2|].
      rewrite launches_app. lia.
Qed.


(** X6.  An instance that was granted and whose start-up then fails is
    not tracked.  When [create_instance] raises after its request for the
    instance was granted (the wait for the running state or the reload
    raised), the attempt prints the error and ends; the local variables
    are as before, so the identifier of the new instance is not among the
    tracked ones, and the [finally] block, which asks for the termination
    of the tracked identifiers only, leaves the instance running. *)
Theorem unready_instance_is_not_tracked
    (f : frame) (w : world) (iid : string) (e : exn) :
  let launch :=
    CreateInstances (WEB_SERVICE_AMI config) (INSTANCE_TYPE config) sg2_id in
  let c := create_instance config (WEB_SERVICE_AMI config) sg2_id w in
  let r := scale_out config lg_dns sg2_id (f, w) in
  aws_script w (aws_calls w) launch = Ok iid ->
  res c = Raise e ->
  ~ In iid (all_instance_ids f) ->
  res r = Ret Fallthrough /\
  In (EvAws launch None) (evs r) /\
  fst (fin r) = f /\
  forall ids err,
    In (EvAws (TerminateInstances ids) err) (evs (main_cleanup (fin r))) ->
    ~ In iid ids.
Proof.
  cbn zeta. intros Hl Hc Hnew.
  destruct (scale_out_run config lg_dns sg2_id f w)
    as (_ & _ & _ & _ & _ & _ & Hs).
  cbn zeta in Hs. rewrite (Hs e Hc). cbn [res fin evs fst].
  split; [reflexivity | split; [| split; [reflexivity|]]].
  - apply in_or_app. left. clear Hs Hc.
    unfold create_instance, bind, aws, print, ret. rewrite Hl.
    cbn [res fin evs with_aws_calls aws_script aws_calls].
    destruct (aws_script w (S (aws_calls w)) (WaitUntilRunning iid))
      as [[]|e1]; cbn [res fin evs app with_aws_calls aws_script aws_calls];
      [| left; reflexivity].
    destruct (aws_script w (S (S (aws_calls w))) (Reload iid)) as [dns|e2];
      left; reflexivity.
  - intros ids err H.
    apply main_cleanup_terminates_tracked in H. now subst ids.
Qed.

(** X7.  What [main] ends with.  The [finally] block never swallows what
    the [try] block ended with, a return or an exception, and it raises
    itself in one case only: when the request to terminate the tracked
    instances raises, that exception is what leaves [main].  A failure to
    delete the security group changes nothing. *)
Theorem main_outcome (fuel : nat) (w : world) :
  let b := main_body config float fuel (initial_frame, w) in
  let ids := all_instance_ids (fst (fin b)) in
  let wb := snd (fin b) in
  let t := aws_script wb (aws_calls wb) (TerminateInstances ids) in
  res (main config float fuel w)
  = match res b with
    | Diverge => Diverge
    | o => match ids, t with
           | _ :: _, Err e => Raise e
           | _, _ => o
           end
    end.
Proof.
  cbn zeta. unfold main, try_finally.
  destruct (main_body config float fuel (initial_frame, w))
    as [o [[g ids t0] wb] evb].
  cbn [res fin evs fst snd all_instance_ids].
  assert (H : res (main_cleanup (Frame g ids t0, wb))
              = match ids, aws_script wb (aws_calls wb) (TerminateInstances ids)
                with
                | _ :: _, Err e => Raise e
                | _, _ => Ret tt
                end).
  { unfold main_cleanup, print_section, bind, lift, get_locals, try_except,
      ret, print, sleep, aws.
    cbn [fst snd res fin evs sg all_instance_ids].
    destruct ids as [|i ids].
    - destruct g as [g|]; cbn; [|reflexivity].
      destruct (aws_script wb (aws_calls wb) (DeleteSecurityGroup g));
        reflexivity.
    - cbn.
      destruct (aws_script wb (aws_calls wb) (TerminateInstances (i :: ids)))
        as [[]|e]; cbn; [|reflexivity].
      destruct g as [g|]; cbn; [|reflexivity].
      destruct (aws_script wb (S (aws_calls wb)) (DeleteSecurityGroup g));
        reflexivity. }
  destruct (main_cleanup (Frame g ids t0, wb)) as [oc sc evc].
  cbn [res] in H. subst oc.
  destruct o as [[]|e|]; [| |reflexivity];
    destruct ids as [|i ids]; try reflexivity;
    destruct (aws_script wb (aws_calls wb) (TerminateInstances (i :: ids)));
    reflexivity.
Qed.

(** X8.  When the creation of the security group raises, [main] has made
    no other request to the cloud and makes none: the [finally] block
    prints its heading and does nothing else, no termination, no wait of a
    minute, no deletion, and the exception leaves [main]. *)
Theorem main_without_security_group (fuel : nat) (w : world) (e : exn) :
  let t := clock_script w (clock_calls w) in
  let create :=
    CreateSecurityGroup
      ("vm_scaling_project_sg_" ++ Str.of_Z (Z.quot t 1000000))
      "Security Group for VM Scaling Project" in
  let r := main config float fuel w in
  aws_script w (aws_calls w) create = Err e ->
  res r = Raise e /\
  evs r = (evs (print_section "1 - create two security groups" w)
           ++ [EvNow t; EvAws create (Some e)]
           ++ evs (print_section "Cleanup: Terminating Resources" w))%list /\
  aws_calls (fin r) = S (aws_calls w).
Proof.
  cbn zeta. intros H.
  unfold main, try_finally, main_body, main_cleanup, time_time, print_section,
    bind, lift, get_locals, set_locals, ret, print, now, aws.
  cbn [fst snd res fin evs]. cbn [with_clock_calls aws_script aws_calls].
  rewrite H. cbn. auto.
Qed.

End Tracking.

Section TrackingRuns.

Import Sys Horizontal Watch Scenarios.

(** X6, in an account whose new instances never reach the running
    state. *)
Lemma unready_instance_is_not_tracked_witness :
  let r := scale_out config lg group (monitoring, stalled) in
  res r = Ret Fallthrough /\
  In (EvAws (CreateInstances (WEB_SERVICE_AMI config) (INSTANCE_TYPE config)
                             group) None) (evs r) /\
  fst (fin r) = monitoring /\
  forall ids err,
    In (EvAws (TerminateInstances ids) err) (evs (main_cleanup (fin r))) ->
    ~ In "i-0a1b2c3d" ids.
Proof.
  apply (unready_instance_is_not_tracked config lg group monitoring stalled
           "i-0a1b2c3d" waiter_error).
  - reflexivity.
  - reflexivity.
  - intros [H|[H|[]]]; discriminate H.
Defined.

(** X8, in an account that may not create security groups. *)
Lemma main_without_security_group_witness :
  let r := main config Float.of_string 3 groupless in
  res r = Raise unauthorized /\
  evs r = (evs (print_section "1 - create two security groups" groupless)
           ++ [EvNow 200000000;
               EvAws (CreateSecurityGroup
                        "vm_scaling_project_sg_200"
                        "Security Group for VM Scaling Project")
                     (Some unauthorized)]
           ++ evs (print_section "Cleanup: Terminating Resources" groupless))
          %list /\
  aws_calls (fin r) = 1%nat.
Proof.
  apply (main_without_security_group config Float.of_string 3 groupless
           unauthorized).
  reflexivity.
Defined.

End TrackingRuns.

(** ** [add_web_service_instance] *)

Section AddWebService.

Import Sys Horizontal Watch Submit.

Variable config : configuration.
Variables (lg_dns log_name sg2_id : string).

(** One round of the loop. *)
Lemma submit_loop_unfold (fuel : nat) (add_req : string) (w : world) :
  submit_loop (S fuel) lg_dns log_name add_req w =
  let w1 := with_http_calls (S (http_calls w)) w in
  match http_script w (http_calls w) add_req None with
  | Err e => Run (Raise e) w1 [EvGet add_req None (Err e)]
  | Ok a =>
      if status_code a =? 200
      then Run (Ret tt) w1 [EvGet add_req None (Ok a); submitted]
      else
        let k := is_test_complete lg_dns log_name w1 in
        match res k with
        | Ret true =>
            Run (Ret tt) (fin k)
                (EvGet add_req None (Ok a) :: evs k ++ [not_submitted])
        | Ret false =>
            let m := submit_loop fuel lg_dns log_name add_req (fin k) in
            Run (res m) (fin m)
                (EvGet add_req None (Ok a) :: evs k ++ evs m)
        | Raise e => Run (Raise e) (fin k) (EvGet add_req None (Ok a) :: evs k)
        | Diverge => Run Diverge (fin k) (EvGet add_req None (Ok a) :: evs k)
        end
  end.
Proof.
  cbn [submit_loop]. unfold bind at 1. unfold requests_get.
  destruct (http_script w (http_calls w) add_req None) as [a|e];
    [|reflexivity].
  cbn [res fin evs]. destruct (status_code a =? 200); [reflexivity|].
  unfold bind.
  destruct (is_test_complete lg_dns log_name _) as [[[|]|e|] wk evk];
    cbn [res fin evs print app]; try reflexivity.
  destruct (submit_loop fuel lg_dns log_name add_req wk) as [o s ev].
  reflexivity.
Qed.

Lemma submit_loop_spec (d : string) (fuel : nat) :
  forall w : world,
    let add_req := add_url lg_dns d in
    let r := submit_loop fuel lg_dns log_name add_req w in
    launches (evs r) = 0%nat /\
    existsb is_sleep (evs r) = false /\
    (forall u t a, In (EvGet u t a) (evs r) ->
       t = None /\ (u = add_req \/ u = log_url lg_dns log_name)) /\
    (res r <> Ret tt -> registered lg_dns (evs r) = false) /\
    (res r = Ret tt -> submission lg_dns log_name (evs r)).
Proof.
  induction fuel as [|fuel IH]; intros w.
  - cbn. split; [reflexivity | split; [reflexivity | split; [| split]]];
      [tauto | reflexivity | discriminate].
  - cbn zeta. rewrite submit_loop_unfold. cbn zeta.
    destruct (http_script w (http_calls w) (add_url lg_dns d) None)
      as [a|e] eqn:Ha; cbn [res fin evs].
    2:{ split; [reflexivity | split; [reflexivity | split; [| split]]].
        - intros u t a [E|[]]. injection E as <- <- <-. auto.
        - reflexivity.
        - discriminate. }
    assert (Hadd : is_registration lg_dns
                     (EvGet (add_url lg_dns d) None (Ok a))
                   = (status_code a =? 200)).
    { cbn [is_registration]. now rewrite add_url_prefix. }
    destruct (status_code a =? 200) eqn:Hs; cbn [res fin evs].
    { split; [reflexivity | split; [reflexivity | split; [| split]]].
      - intros u t a' [E|[E|[]]];
          [injection E as <- <- <-; auto | discriminate E].
      - intros H. now elim H.
      - intros _. left. unfold registered. cbn [existsb]. rewrite Hadd.
        split; reflexivity. }
    set (w1 := with_http_calls (S (http_calls w)) w).
    pose proof (is_test_complete_cases lg_dns log_name w1) as Hk.
    cbn zeta in Hk.
    destruct (open_answer w1 0 (log_name ++ ".log")) as [[]|eo].
    2:{ rewrite Hk. cbn [res fin evs app]. unfold launches, registered.
        cbn [filter is_launch List.length existsb is_sleep].
        rewrite Hadd.
        split; [reflexivity | split; [reflexivity | split; [| split]]].
        - intros u t a' [E|[]]; injection E as <- <- <-; auto.
        - reflexivity.
        - discriminate. }
    destruct Hk as [Hkev Hkres]. rewrite Hkev.
    pose proof (fetch_not_registration lg_dns log_name
                  (http_script w1 (http_calls w1) (log_url lg_dns log_name)
                     None)) as Hnr.
    destruct (http_script w1 (http_calls w1) (log_url lg_dns log_name) None)
      as [b|e] eqn:Hb; rewrite Hkres.
    2:{ cbn [res fin evs app]. unfold launches, registered.
        cbn [filter is_launch List.length existsb is_sleep].
        rewrite Hadd, Hnr.
        split; [reflexivity | split; [reflexivity | split; [| split]]].
        - intros u t a' [E|[E|[]]]; injection E as <- <- <-; auto.
        - reflexivity.
        - discriminate. }
    destruct (Str.contains "[Test finished]" (text b)) eqn:Hm;
      cbn [res fin evs app].
    { unfold launches, registered.
      cbn [filter is_launch List.length existsb is_sleep app].
      split; [reflexivity | split; [reflexivity | split; [| split]]].
      - intros u t a' [E|[E|[E|[]]]];
          [injection E as <- <- <-; auto | injection E as <- <- <-; auto
          | discriminate E].
      - intros H. now elim H.
      - intros _. right. unfold registered. cbn [existsb].
        rewrite Hadd, Hnr. repeat split. exists b. split; [|exact Hm].
        right. left. reflexivity. }
    specialize (IH (fin (is_test_complete lg_dns log_name w1))).
    cbn zeta in IH. destruct IH as (I1 & I2 & I3 & I4 & I5).
    destruct (submit_loop fuel lg_dns log_name (add_url lg_dns d) _)
      as [o s ev]. cbn [res fin evs app] in *.
    unfold launches, registered in *.
    cbn [filter is_launch List.length existsb is_sleep orb].
    rewrite Hadd, Hnr. cbn [orb].
    split; [exact I1 | split; [exact I2 | split; [| split; [exact I4|]]]].
    + intros u t a' [E|[E|H]];
        [injection E as <- <- <-; auto | injection E as <- <- <-; auto
        | eauto].
    + intros Hret. specialize (I5 Hret). unfold submission in *.
      unfold registered. cbn [existsb]. rewrite Hadd, Hnr. cbn [orb].
      assert (Hne : ev <> []).
      { intros ->. destruct I5 as [[_ F]|[_ [F _]]]; discriminate F. }
      assert (Hfin : forall x y, final (x :: y :: ev) = final ev).
      { intros x y. destruct ev as [|z ev']; [now elim Hne | reflexivity]. }
      rewrite Hfin.
      destruct I5 as [[R F]|[R [F (c & Hin & Hc)]]]; [left | right]; auto.
      repeat split; auto. exists c. split; [|exact Hc]. right. right.
      exact Hin.
Qed.

(** X9.  [add_web_service_instance] asks for one instance and then asks
    the load generator to add it until the load generator accepts or the
    test is over.  It asks for no second instance however often it is
    refused, it never sleeps between its requests, and it builds the
    registration URL from the DNS name as it is, [None] included.  When
    it returns, either its last registration request came back with
    status 200 or no registration did and the log it fetched last holds
    the terminal marker. *)
Theorem add_web_service_instance_submits
    (fuel : nat) (w : world) (ins : instance) :
  let c := create_instance config (WEB_SERVICE_AMI config) sg2_id w in
  let add_req := "http://" ++ lg_dns ++ "/test/horizontal/add?dns="
                           ++ Str.of_opt (public_dns_name ins) in
  let r := add_web_service_instance config fuel lg_dns sg2_id log_name w in
  res c = Ret ins ->
  launches (evs r) = 1%nat /\
  existsb is_sleep (evs r) = false /\
  (forall u t a, In (EvGet u t a) (evs r) ->
     t = None /\ (u = add_req \/ u = log_url lg_dns log_name)) /\
  (res r = Ret tt -> submission lg_dns log_name (evs r)).
Proof.
  cbn zeta. intros Hc.
  destruct (create_instance_run config (WEB_SERVICE_AMI config) sg2_id w)
    as (err & rest & Hev & Hrest & _ & _).
  destruct (provisioning_steps_silent lg_dns rest Hrest) as (R1 & R2 & _).
  assert (Hquiet : existsb is_sleep rest = false /\
                   forall u t a, ~ In (EvGet u t a) rest).
  { clear - Hrest. induction rest as [|x l IH]; [split; [reflexivity | tauto]|].
    cbn [forallb] in Hrest. apply andb_prop in Hrest. destruct Hrest as [Hx Hl].
    destruct (IH Hl) as [I1 I2]. cbn [existsb]. rewrite I1.
    split.
    - destruct x as [? ? ?| | | |[] ?]; try discriminate Hx; reflexivity.
    - intros u t a [E|H]; [subst x; discriminate Hx | exact (I2 u t a H)]. }
  destruct Hquiet as [Q1 Q2].
  assert (Hunf :
    add_web_service_instance config fuel lg_dns sg2_id log_name w =
    let c := create_instance config (WEB_SERVICE_AMI config) sg2_id w in
    let m := submit_loop fuel lg_dns log_name
               ("http://" ++ lg_dns ++ "/test/horizontal/add?dns="
                          ++ Str.of_opt (public_dns_name ins)) (fin c) in
    Run (res m) (fin m)
        (evs c ++ EvPrint [FS "New WS launched. id="; FS (id ins);
                           FS ", dns=";
                           FS (Str.of_opt (public_dns_name ins))] :: evs m)).
  { cbn zeta. unfold add_web_service_instance, bind, print.
    destruct (create_instance config (WEB_SERVICE_AMI config) sg2_id w)
      as [oc wc evc]. cbn [res] in Hc. subst oc. cbn [res fin evs].
    destruct (submit_loop fuel lg_dns log_name _ wc) as [o s ev].
    reflexivity. }
  rewrite Hunf. cbn zeta. clear Hunf. rewrite Hev.
  pose proof (submit_loop_spec (Str.of_opt (public_dns_name ins)) fuel
                (fin (create_instance config (WEB_SERVICE_AMI config) sg2_id
                        w)))
    as H. cbn zeta in H. unfold add_url in H.
  destruct (submit_loop fuel lg_dns log_name _ _) as [o s ev].
  cbn [res fin evs app] in *.
  destruct H as (H1 & H2 & H3 & H4 & H5).
  split; [| split; [| split]].
  - rewrite launches_cons, launches_app, launches_cons, R1, H1. reflexivity.
  - cbn [existsb is_sleep orb]. rewrite existsb_app, Q1.
    cbn [existsb is_sleep orb]. exact H2.
  - intros u t a [E|H]; [discriminate E|].
    apply in_app_or in H. destruct H as [H|[E|H]];
      [elim (Q2 u t a H) | discriminate E | eauto].
  - intros Hret. specialize (H5 Hret). unfold submission in *.
    assert (Hne : ev <> []).
    { intros ->. destruct H5 as [[_ F]|[_ [F _]]]; discriminate F. }
    assert (Hfin : forall x l y, final (x :: l ++ y :: ev) = final ev).
    { intros x l y. rewrite final_cons_app.
      destruct ev as [|z ev']; [now elim Hne | reflexivity]. }
    rewrite Hfin.
    assert (Hreg : forall x y,
              is_registration lg_dns x = false ->
              is_registration lg_dns y = false ->
              registered lg_dns (x :: rest ++ y :: ev) = registered lg_dns ev).
    { intros x y Hx Hy. unfold registered in *. cbn [existsb].
      rewrite existsb_app, Hx, R2. cbn [existsb orb]. now rewrite Hy. }
    rewrite Hreg by reflexivity.
    destruct H5 as [[R F]|[R [F (b & Hin & Hb)]]]; [left | right]; auto.
    repeat split; auto. exists b. split; [|exact Hb].
    right. apply in_or_app. right. right. exact Hin.
Qed.

End AddWebService.

Section AddWebServiceRuns.

Import Sys Horizontal Watch Submit Scenarios.

(** X9, with an instance that comes up without a public DNS name: the
    load generator is asked to add the worker [None]. *)
Lemma add_web_service_instance_submits_witness :
  let r := add_web_service_instance config 2 lg group log nameless in
  launches (evs r) = 1%nat /\
  existsb is_sleep (evs r) = false /\
  (forall u t a, In (EvGet u t a) (evs r) ->
     t = None /\
     (u = "http://" ++ lg ++ "/test/horizontal/add?dns=None" \/
      u = log_url lg log)) /\
  (res r = Ret tt -> submission lg log (evs r)).
Proof.
  apply (add_web_service_instance_submits config lg log group 2 nameless
           (Instance "i-0a1b2c3d" None)).
  reflexivity.
Defined.

End AddWebServiceRuns.

(** ** The teardown of the autoscaling script *)

Section FlowLemmas.

Import Sys Teardown Flow.

Variable p : event -> bool.

Lemma count_app (l1 l2 : list event) :
  count p (l1 ++ l2) = (count p l1 + count p l2)%nat.
Proof. unfold count. now rewrite filter_app, length_app. Qed.

Lemma never_count (l : list event) : existsb p l = false -> count p l = 0%nat.
Proof.
  unfold count. induction l as [|e l IH]; [reflexivity|].
  cbn. destruct (p e); [discriminate | exact IH].
Qed.

Lemma never_print_at (l : list fmt) :
  p (EvPrint l) = false -> never p (print l).
Proof. intros H s. cbn. now rewrite H. Qed.

Lemma always_aws (r : aws_req) :
  (forall err, p (EvAws r err) = true) -> always p 1 (aws r).
Proof. intros H s. unfold count. cbn. now rewrite H. Qed.

Lemma always_bind_l {S A B} (n : nat) (m : M S A) (k : A -> M S B) :
  always p n m -> (forall a, never p (k a)) -> always p n (bind m k).
Proof.
  intros Hm Hk s. unfold bind. specialize (Hm s).
  destruct (m s) as [[a|e|] s1 ev1]; cbn [evs] in *; auto.
  specialize (Hk a s1). destruct (k a s1) as [o s2 ev2]. cbn [evs] in *.
  rewrite count_app, Hm, (never_count _ Hk). lia.
Qed.

Lemma always_bind_r {S A B} (n : nat) (m : M S A) (k : A -> M S B) :
  never p m -> returns m -> (forall a, always p n (k a)) ->
  always p n (bind m k).
Proof.
  intros Hm Hr Hk s. unfold bind. specialize (Hm s).
  destruct (Hr s) as [a Ha].
  destruct (m s) as [o s1 ev1]; cbn [res evs] in *. subst o.
  specialize (Hk a s1). destruct (k a s1) as [o s2 ev2]. cbn [evs] in *.
  now rewrite count_app, Hk, (never_count _ Hm).
Qed.

Lemma always_try {S A} (n : nat) (m : M S A) (catches : exn -> bool)
    (handler : exn -> M S A) :
  always p n m -> (forall e, never p (handler e)) ->
  always p n (try_except m catches handler).
Proof.
  intros Hm Hh s. unfold try_except. specialize (Hm s).
  destruct (m s) as [[a|e|] s1 ev1]; cbn [evs] in *; auto.
  destruct (catches e); cbn [evs]; auto.
  specialize (Hh e s1). destruct (handler e s1) as [o s2 ev2].
  cbn [evs] in *. rewrite count_app, Hm, (never_count _ Hh). lia.
Qed.

Lemma tally_of_always {S A} (n : nat) (m : M S A) :
  always p n m -> tally p n m.
Proof. intros H s a _. apply H. Qed.

Lemma tally_bind_never {S A B} (n : nat) (m : M S A) (k : A -> M S B) :
  never p m -> (forall a, tally p n (k a)) -> tally p n (bind m k).
Proof.
  intros Hm Hk s b. unfold bind. specialize (Hm s).
  destruct (m s) as [[a|e|] s1 ev1]; cbn [res evs] in *; try discriminate.
  specialize (Hk a s1 b). destruct (k a s1) as [o s2 ev2]. cbn [res evs] in *.
  intros H. rewrite count_app, (Hk H), (never_count _ Hm). reflexivity.
Qed.

Lemma settles_bind {S A B} (n : nat) (m : M S A) (k : A -> M S B) :
  never p m -> (forall a, settles p n (k a)) -> settles p n (bind m k).
Proof.
  intros Hm Hk s. unfold bind. specialize (Hm s).
  destruct (m s) as [[a|e|] s1 ev1]; cbn [res evs] in *;
    [| now apply never_count | exact I].
  specialize (Hk a s1). destruct (k a s1) as [o s2 ev2]. cbn [res evs] in *.
  rewrite count_app, (never_count _ Hm). destruct o; auto.
Qed.

Lemma settles_of_tally {S A} (n : nat) (m : M S A) :
  tally p n m -> no_raise m -> settles p n m.
Proof.
  intros Ht Hn s. specialize (Ht s). specialize (Hn s).
  destruct (res (m s)) as [a|e|];
    [now apply (Ht a) | now elim (Hn e) | exact I].
Qed.

End FlowLemmas.

Ltac hush_step :=
  first [ quiet_step | simple apply never_print_at; reflexivity ].

Ltac hush := repeat hush_step.

Section NoRaise.

Import Sys Flow.

Lemma no_raise_ret {S A} (a : A) : no_raise (@ret S A a).
Proof. intros s e. discriminate. Qed.

Lemma no_raise_print (l : list fmt) : no_raise (print l).
Proof. intros s e. discriminate. Qed.

Lemma no_raise_bind {S A B} (m : M S A) (k : A -> M S B) :
  no_raise m -> (forall a, no_raise (k a)) -> no_raise (bind m k).
Proof.
  intros Hm Hk s e. unfold bind. specialize (Hm s).
  destruct (m s) as [[a|e'|] s1 ev1]; cbn [res] in *;
    [| now elim (Hm e') | discriminate].
  specialize (Hk a s1 e). now destruct (k a s1).
Qed.

(** A handler for [Exception] that does not raise makes its [try]
    statement safe. *)
Lemma no_raise_try {S A} (m : M S A) (handler : exn -> M S A) :
  (forall e, no_raise (handler e)) ->
  no_raise (try_except m is_Exception handler).
Proof.
  intros Hh s e. unfold try_except.
  destruct (m s) as [[a|e'|] s1 ev1]; cbn [res is_Exception];
    try discriminate.
  specialize (Hh e' s1 e). now destruct (handler e' s1).
Qed.

Lemma returns_ret {S A} (a : A) : returns (@ret S A a).
Proof. intros s. now exists a. Qed.

Lemma returns_print (l : list fmt) : returns (print l).
Proof. intros s. now exists tt. Qed.

End NoRaise.

Section DestroyResources.

Import Sys Teardown Flow Calls Autoscaling.

Variable config : settings.

Lemma destroy_resources_no_raise (fuel : nat) :
  no_raise (destroy_resources config fuel).
Proof.
  unfold destroy_resources, print_section.
  repeat (apply no_raise_bind; [|intros ?]);
    try (apply no_raise_try; intros ?); apply no_raise_print.
Qed.

(** The wait for the deletion of the group makes one kind of request. *)
Lemma await_group_deletion_never (p : event -> bool) (fuel : nat) :
  p (EvPrint [FS "ASG deletion in progress..."]) = false ->
  (forall n, p (EvSleep n) = false) ->
  (forall kw err,
     p (EvAws (Client "autoscaling" "describe_auto_scaling_groups" kw) err)
     = false) ->
  never p (await_group_deletion config fuel).
Proof.
  intros Hprint Hsleep Hdesc.
  pose proof (never_print_at p _ Hprint) as H1.
  pose proof (never_sleep p Hsleep) as H2.
  pose proof (fun kw => never_aws p _ (Hdesc kw)) as H3.
  induction fuel as [|n IH]; cbn [await_group_deletion]; unfold cfg; quiet.
Qed.

Ltac tally_step :=
  first
    [ simple apply tally_bind_never; [solve [hush] | intros ?]
    | simple apply tally_of_always ].

Ltac always_step :=
  first
    [ simple apply always_aws; intros; reflexivity
    | simple apply always_try; [| intros ?; solve [hush]]
    | simple apply always_bind_r;
      [ solve [hush]
      | first [simple apply returns_print | simple apply returns_ret]
      | intros ? ]
    | simple apply always_bind_l; [| intros ?; solve [hush]] ].

(** X10.  No exception leaves [destroy_resources]: each of its six steps
    handles what it raises, whatever the cloud answers and whatever the
    configuration file lacks.  It returns, or it waits without end for
    the group to disappear. *)
Theorem destroy_resources_never_raises (fuel : nat) (w : world) :
  res (destroy_resources config fuel w) = Ret tt \/
  res (destroy_resources config fuel w) = Diverge.
Proof.
  pose proof (destroy_resources_no_raise fuel w) as H.
  destruct (res (destroy_resources config fuel w)) as [[]|e|]; auto.
  now elim (H e).
Qed.

Lemma destroy_resources_heading (fuel : nat) :
  always (is_heading "Cleanup: Terminating Resources")
         1 (destroy_resources config fuel).
Proof.
  pose proof (fun n => await_group_deletion_never
                (is_heading "Cleanup: Terminating Resources") n
                eq_refl (fun _ => eq_refl) (fun _ _ => eq_refl)) as Hw.
  unfold destroy_resources, print_section, cfg.
  apply always_bind_l.
  - intros s. reflexivity.
  - intros _. hush.
Qed.

Lemma destroy_resources_alarms (fuel : nat) :
  tally (is_call "cloudwatch" "delete_alarms") 1
        (destroy_resources config fuel).
Proof.
  pose proof (fun n => await_group_deletion_never
                (is_call "cloudwatch" "delete_alarms") n
                eq_refl (fun _ => eq_refl) (fun _ _ => eq_refl)) as Hw.
  unfold destroy_resources, print_section, cfg.
  repeat tally_step. repeat always_step.
Qed.

Lemma destroy_resources_instances (fuel : nat) :
  tally (is_call "ec2" "describe_instances") 1
        (destroy_resources config fuel).
Proof.
  pose proof (fun n => await_group_deletion_never
                (is_call "ec2" "describe_instances") n
                eq_refl (fun _ => eq_refl) (fun _ _ => eq_refl)) as Hw.
  unfold destroy_resources, print_section, cfg.
  repeat tally_step. repeat always_step.
Qed.


Ltac tally_with_key H :=
  destruct H as [v H];
  unfold destroy_resources, print_section, cfg; rewrite H; cbn [of_result];
  repeat tally_step; repeat always_step.

Lemma destroy_resources_group (fuel : nat) :
  has_key "auto_scaling_group_name" (configuration config) ->
  tally (is_call "autoscaling" "delete_auto_scaling_group") 1
        (destroy_resources config fuel).
Proof.
  intros H.
  pose proof (fun n => await_group_deletion_never
                (is_call "autoscaling" "delete_auto_scaling_group") n
                eq_refl (fun _ => eq_refl) (fun _ _ => eq_refl)) as Hw.
  tally_with_key H.
Qed.

Lemma destroy_resources_template (fuel : nat) :
  has_key "launch_template_name" (configuration config) ->
  tally (is_call "ec2" "delete_launch_template") 1
        (destroy_resources config fuel).
Proof.
  intros H.
  pose proof (fun n => await_group_deletion_never
                (is_call "ec2" "delete_launch_template") n
                eq_refl (fun _ => eq_refl) (fun _ _ => eq_refl)) as Hw.
  tally_with_key H.
Qed.

Lemma destroy_resources_balancer (fuel : nat) :
  has_key "load_balancer_name" (configuration config) ->
  tally (is_call "elbv2" "describe_load_balancers") 1
        (destroy_resources config fuel).
Proof.
  intros H.
  pose proof (fun n => await_group_deletion_never
                (is_call "elbv2" "describe_load_balancers") n
                eq_refl (fun _ => eq_refl) (fun _ _ => eq_refl)) as Hw.
  tally_with_key H.
Qed.

Lemma destroy_resources_targets (fuel : nat) :
  has_key "auto_scaling_target_group" (configuration config) ->
  tally (is_call "elbv2" "describe_target_groups") 1
        (destroy_resources config fuel).
Proof.
  intros H.
  pose proof (fun n => await_group_deletion_never
                (is_call "elbv2" "describe_target_groups") n
                eq_refl (fun _ => eq_refl) (fun _ _ => eq_refl)) as Hw.
  tally_with_key H.
Qed.

(** X11.  The steps of [destroy_resources] do not depend on each other's
    success.  Whenever it returns it has asked, once each, for the
    deletion of the group, the deletion of the launch template, the load
    balancers and the target groups of the configured names (each
    provided the configuration file has the name), for the instances
    that carry the project tag, and for the deletion of the two alarms,
    whatever the cloud answered to the earlier requests. *)
Theorem destroy_resources_steps_independent (fuel : nat) (w : world) :
  let r := destroy_resources config fuel w in
  let calls service op := count (is_call service op) (evs r) in
  let configured key := has_key key (configuration config) in
  res r = Ret tt ->
  (configured "auto_scaling_group_name" ->
   calls "autoscaling" "delete_auto_scaling_group" = 1%nat) /\
  (configured "launch_template_name" ->
   calls "ec2" "delete_launch_template" = 1%nat) /\
  (configured "load_balancer_name" ->
   calls "elbv2" "describe_load_balancers" = 1%nat) /\
  (configured "auto_scaling_target_group" ->
   calls "elbv2" "describe_target_groups" = 1%nat) /\
  calls "ec2" "describe_instances" = 1%nat /\
  calls "cloudwatch" "delete_alarms" = 1%nat.
Proof.
  cbn zeta. intros Hr.
  split; [intros H; exact (destroy_resources_group fuel H w tt Hr)|].
  split; [intros H; exact (destroy_resources_template fuel H w tt Hr)|].
  split; [intros H; exact (destroy_resources_balancer fuel H w tt Hr)|].
  split; [intros H; exact (destroy_resources_targets fuel H w tt Hr)|].
  split; [exact (destroy_resources_instances fuel w tt Hr)|].
  exact (destroy_resources_alarms fuel w tt Hr).
Qed.

End DestroyResources.

(** ** [main] of the autoscaling script *)

Section AutoscalingMain.

Import Sys Teardown Flow Calls Autoscaling.

Variable config : settings.

Lemma tally_try (p : event -> bool) {S A} (n : nat) (m : M S A)
    (handler : exn -> M S A) :
  settles p n m -> (forall e, tally p n (handler e)) ->
  tally p n (try_except m is_Exception handler).
Proof.
  intros Hm Hh s a. unfold try_except. specialize (Hm s).
  destruct (m s) as [[b|e|] s1 ev1]; cbn [res evs is_Exception] in *;
    [auto | | discriminate].
  specialize (Hh e s1 a). destruct (handler e s1) as [o s2 ev2].
  cbn [res evs] in *. intros H. rewrite count_app, Hm, (Hh H). reflexivity.
Qed.

Section Quiet.

Variable p : event -> bool.
Hypothesis p_get : forall u t a, p (EvGet u t a) = false.
Hypothesis p_sleep : forall n, p (EvSleep n) = false.

Lemma initialize_loop_never (fuel : nat) :
  forall url resp, never p (initialize_loop fuel url resp).
Proof.
  pose proof (never_requests_get p p_get) as H1.
  pose proof (never_sleep p p_sleep) as H2.
  induction fuel as [|n IH]; intros url resp; cbn [initialize_loop]; quiet.
Qed.

Lemma is_test_complete_never (lg : json) (log_name : string) :
  never p (is_test_complete lg log_name).
Proof.
  pose proof (never_requests_get p p_get) as H1.
  unfold is_test_complete. quiet.
Qed.

Lemma await_test_never (fuel : nat) :
  forall lg log_name pause, never p (await_test fuel lg log_name pause).
Proof.
  pose proof is_test_complete_never as H1.
  pose proof (never_sleep p p_sleep) as H2.
  induction fuel as [|n IH]; intros lg log_name pause; cbn [await_test];
    quiet.
Qed.

End Quiet.

Ltac settle_main p :=
  let H1 := fresh in
  let H2 := fresh in
  pose proof (fun n => initialize_loop_never p (fun _ _ _ => eq_refl)
                         (fun _ => eq_refl) n) as H1;
  pose proof (fun n => await_test_never p (fun _ _ _ => eq_refl)
                         (fun _ => eq_refl) n) as H2;
  unfold main_body, get_default_vpc, get_subnets, create_instance,
    initialize_warmup, initialize_test, test_id_of, print_section, cfg,
    Horizontal.time_time, http_ingress, metric_alarm;
  repeat (simple apply settles_bind; [solve [hush] | intros ?]);
  apply settles_of_tally; [| apply destroy_resources_no_raise].

Lemma main_body_heading (fuel : nat) :
  settles (is_heading "Cleanup: Terminating Resources") 1
          (main_body config fuel).
Proof.
  settle_main (is_heading "Cleanup: Terminating Resources").
  apply tally_of_always, destroy_resources_heading.
Qed.

Lemma main_body_alarms (fuel : nat) :
  settles (is_call "cloudwatch" "delete_alarms") 1 (main_body config fuel).
Proof.
  settle_main (is_call "cloudwatch" "delete_alarms").
  apply destroy_resources_alarms.
Qed.

(** X12.  No exception leaves [main] of the autoscaling script, and a run
    that returns has gone through [destroy_resources] exactly once,
    whether the set-up and the tests went well or failed at any point:
    its events hold the heading of the teardown once and one request to
    delete the alarms. *)
Theorem autoscaling_main_cleans_up_once (fuel : nat) (w : world) :
  let r := main config fuel w in
  (res r = Ret tt \/ res r = Diverge) /\
  (res r = Ret tt ->
   count (is_heading "Cleanup: Terminating Resources") (evs r) = 1%nat /\
   count (is_call "cloudwatch" "delete_alarms") (evs r) = 1%nat).
Proof.
  cbn zeta. split.
  - assert (H : no_raise (main config fuel)).
    { unfold main. apply no_raise_try. intros e.
      apply no_raise_bind; [apply no_raise_print | intros _].
      apply destroy_resources_no_raise. }
    specialize (H w).
    destruct (res (main config fuel w)) as [[]|e|]; auto. now elim (H e).
  - intros Hr. split.
    + refine (tally_try _ 1 _ _ (main_body_heading fuel) _ w tt Hr).
      intros e. apply tally_bind_never; [hush | intros _].
      apply tally_of_always, destroy_resources_heading.
    + refine (tally_try _ 1 _ _ (main_body_alarms fuel) _ w tt Hr).
      intros e. apply tally_bind_never; [hush | intros _].
      apply destroy_resources_alarms.
Qed.

End AutoscalingMain.

Section AutoscalingTeardownRuns.

Import Sys Teardown Calls Autoscaling Scenarios.

(** X11, in a world whose cloud answers every client call with [None], so
    that every step that reads an answer fails: the later steps run all
    the same. *)
Lemma destroy_resources_steps_independent_witness :
  let r := destroy_resources settings 3 unreachable in
  let calls service op := count (is_call service op) (evs r) in
  let configured key := has_key key (configuration settings) in
  (configured "auto_scaling_group_name" ->
   calls "autoscaling" "delete_auto_scaling_group" = 1%nat) /\
  (configured "launch_template_name" ->
   calls "ec2" "delete_launch_template" = 1%nat) /\
  (configured "load_balancer_name" ->
   calls "elbv2" "describe_load_balancers" = 1%nat) /\
  (configured "auto_scaling_target_group" ->
   calls "elbv2" "describe_target_groups" = 1%nat) /\
  calls "ec2" "describe_instances" = 1%nat /\
  calls "cloudwatch" "delete_alarms" = 1%nat.
Proof.
  apply (destroy_resources_steps_independent settings 3 unreachable).
  reflexivity.
Defined.

End AutoscalingTeardownRuns.

(** ** Waiting for a test of the autoscaling script *)

Section AwaitTest.

Import Sys Autoscaling Poll.

Variables (lg_dns : json) (log_name : string) (pause : Z).

Variables (url path : string).
Hypothesis url_eq :
  url = "http://" ++ Json.str lg_dns ++ "/log?name=" ++ log_name.
Hypothesis path_eq : path = log_name ++ ".log".

Lemma polls_ext (n : nat) :
  forall f g : nat -> result response,
    (forall k, (k < n)%nat -> f k = g k) ->
    polls url pause f n = polls url pause g n.
Proof.
  induction n as [|n IH]; intros f g H; [reflexivity|].
  cbn [polls]. rewrite (H 0%nat) by lia. do 2 f_equal.
  apply IH. intros k Hk. apply H. lia.
Qed.

(** One look at the log, when the log file could be opened. *)
Lemma is_test_complete_poll (w : world) :
  let a := http_script w (http_calls w) url None in
  let k := is_test_complete lg_dns log_name w in
  open_answer w 0 path = Ok tt ->
  res k = Ret (finished a) /\
  evs k = [EvGet url None a] /\
  http_script (fin k) = http_script w /\
  http_calls (fin k) = S (http_calls w) /\
  lookup path (files (fin k)) = Some (saved a) /\
  forall j, open_answer (fin k) j path = open_answer w (S j) path.
Proof.
  cbn zeta. rewrite url_eq, path_eq. intros Ho.
  assert (Hshift : forall (fs : list (string * string)) (n j : nat),
            open_answer
              (with_http_calls n
                 (with_files fs (with_open_calls (S (open_calls w)) w)))
              j (log_name ++ ".log")
            = open_answer w (S j) (log_name ++ ".log")).
  { intros fs n j. unfold open_answer. cbn. now rewrite Nat.add_succ_r. }
  unfold is_test_complete, bind, try_except, requests_get, open_w,
    write, close, read, ret.
  rewrite Ho. cbn.
  destruct (http_script w (http_calls w) _ None) as [resp|e]; cbn;
    rewrite ?lookup_store; cbn; rewrite ?store_store, ?lookup_store; cbn;
    repeat split; auto; intros j; apply Hshift.
Qed.

(** One look at the log, when the log file could not be opened. *)
Lemma is_test_complete_locked (w : world) (e : exn) :
  let k := is_test_complete lg_dns log_name w in
  open_answer w 0 path = Err e ->
  res k = Raise e /\ evs k = [].
Proof.
  cbn zeta. rewrite path_eq. intros Ho.
  unfold is_test_complete, bind, open_w. rewrite Ho. split; reflexivity.
Qed.

(** The first [n] looks at the log do not end the wait. *)
Lemma await_test_rounds (n : nat) :
  forall (fuel : nat) (w : world),
    (forall k, (k < n)%nat -> open_answer w k path = Ok tt) ->
    (forall k, (k < n)%nat ->
       finished (http_script w (http_calls w + k) url None) = false) ->
    (n <= fuel)%nat ->
    exists w',
      (forall k, http_script w' (http_calls w' + k) url None
                 = http_script w (http_calls w + (n + k)) url None) /\
      (forall k, open_answer w' k path = open_answer w (n + k) path) /\
      let r := await_test fuel lg_dns log_name pause w in
      let r' := await_test (fuel - n) lg_dns log_name pause w' in
      res r = res r' /\
      fin r = fin r' /\
      evs r = (polls url pause
                 (fun k => http_script w (http_calls w + k) url None) n
               ++ evs r')%list.
Proof.
  induction n as [|n IH]; intros fuel w Hopen Hno Hfuel.
  - exists w. rewrite Nat.sub_0_r. cbn [polls app Nat.add]. auto.
  - destruct fuel as [|fuel]; [lia|].
    destruct (is_test_complete_poll w (Hopen 0%nat ltac:(lia)))
      as (K1 & K2 & K3 & K4 & _ & K6).
    cbn zeta in K1, K2, K3, K4, K6.
    pose proof (Hno 0%nat ltac:(lia)) as H0. rewrite Nat.add_0_r in H0.
    rewrite H0 in K1.
    cbn zeta. cbn [await_test Nat.sub]. unfold bind.
    destruct (is_test_complete lg_dns log_name w) as [ok wk evk].
    cbn [res fin evs] in *. subst ok evk. cbn [sleep res fin evs].
    assert (Hshift : forall k, http_script wk (http_calls wk + k) url None
                      = http_script w (http_calls w + S k) url None).
    { intros k. rewrite K3, K4. f_equal. lia. }
    destruct (IH fuel wk) as (w' & W1 & W2 & W3).
    + intros k Hk. rewrite K6. apply Hopen. lia.
    + intros k Hk. rewrite Hshift. apply Hno. lia.
    + lia.
    + exists w'. split; [| split].
      * intros k. rewrite W1, Hshift. reflexivity.
      * intros k. rewrite W2, K6. reflexivity.
      * cbn zeta in W3. destruct W3 as (R1 & R2 & R3).
        destruct (await_test fuel lg_dns log_name pause wk) as [o s ev].
        cbn [res fin evs app polls] in *. subst o s ev.
        rewrite Nat.add_0_r.
        rewrite (polls_ext n _ _ (fun k _ => Hshift k)). auto.
Qed.

End AwaitTest.

Section AwaitTestProperties.

Import Sys Autoscaling Poll.

(** X13.  The loop in which [main] of the autoscaling script waits for a
    test.  As long as [open] returns for the log file, the loop fetches
    the log, sleeps for [pause] seconds after each fetch that does not
    show the terminal marker, a fetch that raised included, and returns
    after the first fetch that shows it.  The log file then holds the
    text of that fetch. *)
Theorem await_test_polls (fuel n : nat) (lg_dns : json) (log_name : string)
    (pause : Z) (w : world) :
  let path := log_name ++ ".log" in
  let url := "http://" ++ Json.str lg_dns ++ "/log?name=" ++ log_name in
  let answer k := http_script w (http_calls w + k) url None in
  let r := await_test fuel lg_dns log_name pause w in
  (forall k, (k <= n)%nat -> open_answer w k path = Ok tt) ->
  (forall k, (k < n)%nat -> finished (answer k) = false) ->
  finished (answer n) = true ->
  (n < fuel)%nat ->
  res r = Ret tt /\
  evs r = (polls url pause answer n ++ [EvGet url None (answer n)])%list /\
  lookup path (files (fin r)) = Some (saved (answer n)).
Proof.
  cbn zeta. intros Hopen Hno Hyes Hfuel.
  destruct (await_test_rounds lg_dns log_name pause _ _ eq_refl eq_refl n
              fuel w)
    as (w' & W1 & W2 & W3); [intros; apply Hopen; lia | exact Hno | lia |].
  cbn zeta in W3. destruct W3 as (-> & -> & ->).
  destruct (fuel - n)%nat as [|m] eqn:Hm; [lia|].
  destruct (is_test_complete_poll lg_dns log_name _ _ eq_refl eq_refl w')
    as (K1 & K2 & _ & _ & K5 & _).
  { rewrite W2, Nat.add_0_r. apply Hopen. lia. }
  cbn zeta in K1, K2, K5.
  pose proof (W1 0%nat) as E. rewrite !Nat.add_0_r in E. rewrite E in *.
  rewrite Hyes in K1.
  cbn [await_test]. unfold bind.
  destruct (is_test_complete lg_dns log_name w') as [ok wk evk].
  cbn [res fin evs] in *. subst ok evk. cbn [res fin evs ret].
  rewrite app_nil_r. auto.
Qed.

(** X14.  While [open] returns for the log file and no fetch of the log
    shows the terminal marker the wait goes on, however many rounds it is
    given: a load generator that has become unreachable does not end it,
    since the exception of the fetch is handled inside
    [is_test_complete]. *)
Theorem await_test_never_gives_up (fuel : nat) (lg_dns : json)
    (log_name : string) (pause : Z) (w : world) :
  let path := log_name ++ ".log" in
  let url := "http://" ++ Json.str lg_dns ++ "/log?name=" ++ log_name in
  let answer k := http_script w (http_calls w + k) url None in
  let r := await_test fuel lg_dns log_name pause w in
  (forall k, open_answer w k path = Ok tt) ->
  (forall k, finished (answer k) = false) ->
  res r = Diverge /\
  evs r = polls url pause answer fuel.
Proof.
  cbn zeta. intros Hopen Hno.
  destruct (await_test_rounds lg_dns log_name pause _ _ eq_refl eq_refl fuel
              fuel w)
    as (w' & _ & _ & W3); [intros; apply Hopen | intros; apply Hno | lia |].
  cbn zeta in W3. destruct W3 as (-> & _ & ->).
  rewrite Nat.sub_diag. cbn. now rewrite app_nil_r.
Qed.

(** X25.  The wait does not outlive its log file: when [open] raises in
    a round, after rounds that did not show the terminal marker, the
    exception leaves [await_test] at once, without a fetch in that
    round. *)
Theorem await_test_open_error (fuel n : nat) (lg_dns : json)
    (log_name : string) (pause : Z) (w : world) (e : exn) :
  let path := log_name ++ ".log" in
  let url := "http://" ++ Json.str lg_dns ++ "/log?name=" ++ log_name in
  let answer k := http_script w (http_calls w + k) url None in
  let r := await_test fuel lg_dns log_name pause w in
  (forall k, (k < n)%nat -> open_answer w k path = Ok tt) ->
  (forall k, (k < n)%nat -> finished (answer k) = false) ->
  open_answer w n path = Err e ->
  (n < fuel)%nat ->
  res r = Raise e /\
  evs r = polls url pause answer n.
Proof.
  cbn zeta. intros Hopen Hno Herr Hfuel.
  destruct (await_test_rounds lg_dns log_name pause _ _ eq_refl eq_refl n
              fuel w)
    as (w' & W1 & W2 & W3); [exact Hopen | exact Hno | lia |].
  cbn zeta in W3. destruct W3 as (-> & _ & ->).
  destruct (fuel - n)%nat as [|m] eqn:Hm; [lia|].
  destruct (is_test_complete_locked lg_dns log_name _ eq_refl w' e)
    as (K1 & K2).
  { rewrite W2, Nat.add_0_r. exact Herr. }
  cbn [await_test]. unfold bind.
  destruct (is_test_complete lg_dns log_name w') as [ok wk evk].
  cbn [res fin evs] in *. subst ok evk. cbn [res fin evs].
  rewrite app_nil_r. auto.
Qed.

End AwaitTestProperties.

Section AwaitTestRuns.

Import Sys Autoscaling Poll Scenarios.

(** X13, at a load generator whose log cannot be fetched, then shows a
    running test, then a finished one. *)
Lemma await_test_polls_witness :
  let url := "http://" ++ lg ++ "/log?name=" ++ log in
  let r := await_test 3 (JStr lg) log 20 winding_down in
  res r = Ret tt /\
  evs r = [EvGet url None (Err refused); EvSleep 20;
           EvGet url None (Ok (Response 200 quiet_report)); EvSleep 20;
           EvGet url None (Ok (Response 200 finished_report))] /\
  lookup (log ++ ".log") (files (fin r)) = Some finished_report.
Proof.
  apply (await_test_polls 3 2 (JStr lg) log 20 winding_down).
  - intros k _. reflexivity.
  - intros [|[|k]] Hk; [reflexivity | reflexivity | lia].
  - reflexivity.
  - lia.
Defined.

(** X14, at a load generator that nothing reaches. *)
Lemma await_test_never_gives_up_witness :
  let url := "http://" ++ lg ++ "/log?name=" ++ log in
  let r := await_test 5 (JStr lg) log 10 unreachable in
  res r = Diverge /\
  evs r = polls url 10 (fun _ => Err refused) 5.
Proof.
  apply (await_test_never_gives_up 5 (JStr lg) log 10 unreachable).
  - intros k. reflexivity.
  - reflexivity.
Defined.

(** X25, with a log name that names a file in a directory that does not
    exist. *)
Lemma await_test_open_error_witness :
  let r := await_test 3 (JStr lg) "runs/test.1436.log" 20 winding_down in
  res r = Raise (Exn OSError
                   "No such file or directory: runs/test.1436.log.log") /\
  evs r = [].
Proof.
  apply (await_test_open_error 3 0 (JStr lg) "runs/test.1436.log" 20
           winding_down).
  - intros k Hk. lia.
  - intros k Hk. lia.
  - reflexivity.
  - lia.
Defined.

End AwaitTestRuns.

(** ** The first steps of the autoscaling script *)

Section Network.

Import Sys Autoscaling.

Variable config : settings.

(** X15.  In an account without a default VPC [get_default_vpc] raises
    [IndexError], and [main], which has created nothing yet, prints the
    error and goes through [destroy_resources] all the same. *)
Theorem main_without_default_vpc (fuel : nat) (w : world) (reply : json) :
  let describe :=
    Client "ec2" "describe_vpcs"
      (JObj [("Filters",
              JList [JObj [("Name", JStr "isDefault");
                           ("Values", JList [JStr "true"])]])]) in
  let w1 := with_aws_calls (S (aws_calls w)) w in
  let d := destroy_resources config fuel w1 in
  aws_script w (aws_calls w) describe = Ok reply ->
  Json.get_key "Vpcs" reply = Ok (JList []) ->
  res (get_default_vpc w) = Raise (Exn IndexError "list index out of range") /\
  main config fuel w
  = Run (res d) (fin d)
        (EvAws describe None
         :: EvPrint [FS "CRITICAL ERROR: "; FS "list index out of range"]
         :: evs d).
Proof.
  cbn zeta. intros H1 H2.
  assert (Hg : get_default_vpc w
               = Run (Raise (Exn IndexError "list index out of range"))
                     (with_aws_calls (S (aws_calls w)) w)
                     [EvAws (Client "ec2" "describe_vpcs"
                               (JObj [("Filters",
                                       JList [JObj [("Name", JStr "isDefault");
                                                    ("Values",
                                                     JList [JStr "true"])]])]))
                            None]).
  { unfold get_default_vpc, bind, aws. rewrite H1. cbn [res fin evs].
    unfold of_result, Json.and_then. rewrite H2. reflexivity. }
  split; [now rewrite Hg|].
  unfold main, try_except, main_body. unfold bind at 1. rewrite Hg.
  cbn [res fin evs is_Exception exn_msg]. unfold bind, print.
  cbn [res fin evs].
  destruct (destroy_resources config fuel _) as [o s ev]. reflexivity.
Qed.

(** X16.  [get_subnets] returns the [SubnetId] of every subnet that the
    cloud lists for the VPC, in the order of the list, none left out;
    for a VPC without subnets it returns the empty list. *)
Theorem get_subnets_lists_every_subnet (vpc_id : json) (w : world)
    (reply : json) (subnets ids : list json) :
  let describe :=
    Client "ec2" "describe_subnets"
      (JObj [("Filters",
              JList [JObj [("Name", JStr "vpc-id");
                           ("Values", JList [vpc_id])]])]) in
  aws_script w (aws_calls w) describe = Ok reply ->
  Json.get_key "Subnets" reply = Ok (JList subnets) ->
  Forall2 (fun s i => Json.get_key "SubnetId" s = Ok i) subnets ids ->
  res (get_subnets vpc_id w) = Ret ids /\
  evs (get_subnets vpc_id w) = [EvAws describe None].
Proof.
  cbn zeta. intros H1 H2 H3.
  unfold get_subnets, bind, aws. rewrite H1. cbn [res fin evs].
  unfold Json.and_then at 1. rewrite H2. cbn [Json.iter Json.and_then].
  assert (H : Json.for_each (Json.get_key "SubnetId") subnets = Ok ids).
  { clear - H3. induction H3 as [|s i l l' Hs _ IH]; [reflexivity|].
    cbn [Json.for_each]. rewrite Hs. cbn [Json.and_then]. rewrite IH.
    reflexivity. }
  rewrite H. split; reflexivity.
Qed.

End Network.

Section NetworkRuns.

Import Sys Autoscaling Scenarios.

(** X15, in such an account. *)
Lemma main_without_default_vpc_witness :
  res (get_default_vpc bare) = Raise (Exn IndexError "list index out of range")
  /\ res (main settings 3 bare) = Ret tt.
Proof.
  destruct (main_without_default_vpc settings 3 bare (JObj [("Vpcs", JList [])])
              eq_refl eq_refl) as [H1 H2].
  split; [exact H1|]. rewrite H2. reflexivity.
Defined.

(** X16, in the account of the scenarios, with its two subnets. *)
Lemma get_subnets_lists_every_subnet_witness :
  res (get_subnets (JStr "vpc-0abc") smooth)
  = Ret [JStr "subnet-1"; JStr "subnet-2"].
Proof.
  apply (get_subnets_lists_every_subnet (JStr "vpc-0abc") smooth
           (client_reply "describe_subnets")
           [JObj [("SubnetId", JStr "subnet-1")];
            JObj [("SubnetId", JStr "subnet-2")]]
           [JStr "subnet-1"; JStr "subnet-2"]).
  - reflexivity.
  - reflexivity.
  - repeat constructor.
Defined.

End NetworkRuns.

(** ** Which instances [destroy_resources] terminates *)

Section Keeps.

Import Sys Tagged.

Lemma calls_app (l1 l2 : list event) :
  calls (l1 ++ l2) = (calls l1 ++ calls l2)%list.
Proof. apply filter_app. Qed.

Lemma keeps_ret {A} (a : A) : keeps (ret a).
Proof. intros w. cbn. split; [reflexivity | lia]. Qed.

Lemma keeps_raise {A} (e : exn) : keeps (@raise world A e).
Proof. intros w. cbn. split; [reflexivity | lia]. Qed.

Lemma keeps_diverge {A} : keeps (@diverge world A).
Proof. intros w. cbn. split; [reflexivity | lia]. Qed.

Lemma keeps_of_result {A} (r : result A) : keeps (of_result r).
Proof. destruct r; intros w; cbn; (split; [reflexivity | lia]). Qed.

Lemma keeps_print (l : list fmt) : keeps (print l).
Proof. intros w. cbn. split; [reflexivity | lia]. Qed.

Lemma keeps_sleep (n : Z) : keeps (sleep n).
Proof. intros w. cbn. split; [reflexivity | lia]. Qed.

Lemma keeps_aws (r : aws_req) : keeps (aws r).
Proof. intros w. cbn. split; [reflexivity | lia]. Qed.

Lemma keeps_bind {A B} (m : M world A) (k : A -> M world B) :
  keeps m -> (forall a, keeps (k a)) -> keeps (bind m k).
Proof.
  intros Hm Hk w. unfold bind. destruct (Hm w) as [M1 M2].
  destruct (m w) as [[a|e|] w1 ev1]; cbn [fin evs] in *; auto.
  destruct (Hk a w1) as [K1 K2]. destruct (k a w1) as [o w2 ev2].
  cbn [fin evs] in *. rewrite calls_app, length_app.
  split; [congruence | lia].
Qed.

Lemma keeps_try_except {A} (m : M world A) (catches : exn -> bool)
    (handler : exn -> M world A) :
  keeps m -> (forall e, keeps (handler e)) ->
  keeps (try_except m catches handler).
Proof.
  intros Hm Hh w. unfold try_except. destruct (Hm w) as [M1 M2].
  destruct (m w) as [[a|e|] w1 ev1]; cbn [fin evs] in *; auto.
  destruct (catches e); cbn [fin evs]; auto.
  destruct (Hh e w1) as [K1 K2]. destruct (handler e w1) as [o w2 ev2].
  cbn [fin evs] in *. rewrite calls_app, length_app.
  split; [congruence | lia].
Qed.

Lemma listed_of_never {A} (m : M world A) :
  Teardown.never (Calls.is_call "ec2" "terminate_instances") m -> listed m.
Proof.
  intros H w kwargs err Hin. specialize (H w). exfalso.
  induction (evs (m w)) as [|x l IH]; [elim Hin|].
  cbn [existsb] in H. apply orb_false_iff in H. destruct H as [Hx Hl].
  destruct Hin as [->|Hin]; [discriminate Hx | auto].
Qed.

(** A call found among the calls of a first part or of a second part is
    found among the calls of the whole. *)
Lemma listed_app (w w1 : world) (ev1 ev2 : list event) (kwargs : json) :
  aws_script w1 = aws_script w ->
  aws_calls w1 = (aws_calls w + List.length (calls ev1))%nat ->
  ((exists k reply ids,
      nth_error (calls ev1) k = Some (EvAws query None) /\
      aws_script w (aws_calls w + k) query = Ok reply /\
      Autoscaling.ids_of_reservations reply = Ok ids /\
      ids <> [] /\ kwargs = JObj [("InstanceIds", JList ids)]) \/
   (exists k reply ids,
      nth_error (calls ev2) k = Some (EvAws query None) /\
      aws_script w1 (aws_calls w1 + k) query = Ok reply /\
      Autoscaling.ids_of_reservations reply = Ok ids /\
      ids <> [] /\ kwargs = JObj [("InstanceIds", JList ids)])) ->
  exists k reply ids,
    nth_error (calls (ev1 ++ ev2)%list) k = Some (EvAws query None) /\
    aws_script w (aws_calls w + k) query = Ok reply /\
    Autoscaling.ids_of_reservations reply = Ok ids /\
    ids <> [] /\ kwargs = JObj [("InstanceIds", JList ids)].
Proof.
  intros Hs Hc [(k & reply & ids & Hn & H)|(k & reply & ids & Hn & Ha & H)].
  - exists k, reply, ids. split; [|exact H].
    rewrite calls_app, nth_error_app1; [exact Hn|].
    apply nth_error_Some. congruence.
  - exists (List.length (calls ev1) + k)%nat, reply, ids.
    rewrite calls_app, nth_error_app2 by lia.
    replace (List.length (calls ev1) + k - List.length (calls ev1))%nat
      with k by lia.
    split; [exact Hn|]. split; [|exact H].
    rewrite Hs, Hc in Ha. now rewrite Nat.add_assoc.
Qed.

Lemma listed_bind {A B} (m : M world A) (k : A -> M world B) :
  listed m -> keeps m -> (forall a, listed (k a)) -> listed (bind m k).
Proof.
  intros Hm Hs Hk w kwargs err. unfold bind.
  specialize (Hm w kwargs err). destruct (Hs w) as [S1 S2].
  destruct (m w) as [[a|e|] w1 ev1]; cbn [fin evs] in *; auto.
  specialize (Hk a w1 kwargs err). destruct (k a w1) as [o w2 ev2].
  cbn [evs] in *. intros Hin. apply in_app_or in Hin.
  apply (listed_app w w1 ev1 ev2 kwargs S1 S2).
  destruct Hin as [Hin|Hin]; [left | right]; auto.
Qed.

Lemma listed_try_except {A} (m : M world A) (catches : exn -> bool)
    (handler : exn -> M world A) :
  listed m -> keeps m -> (forall e, listed (handler e)) ->
  listed (try_except m catches handler).
Proof.
  intros Hm Hs Hh w kwargs err. unfold try_except.
  specialize (Hm w kwargs err). destruct (Hs w) as [S1 S2].
  destruct (m w) as [[a|e|] w1 ev1]; cbn [fin evs] in *; auto.
  destruct (catches e); cbn [evs]; auto.
  specialize (Hh e w1 kwargs err). destruct (handler e w1) as [o w2 ev2].
  cbn [evs] in *. intros Hin. apply in_app_or in Hin.
  apply (listed_app w w1 ev1 ev2 kwargs S1 S2).
  destruct Hin as [Hin|Hin]; [left | right]; auto.
Qed.

End Keeps.

Ltac keep_step :=
  first
    [ solve [auto]
    | simple apply keeps_ret | simple apply keeps_raise
    | simple apply keeps_diverge | simple apply keeps_of_result
    | simple apply keeps_print | simple apply keeps_sleep
    | simple apply keeps_aws
    | match goal with |- Tagged.keeps (Sys.aws ?r) => exact (keeps_aws r) end
    | simple apply keeps_bind; [|intros ?]
    | simple apply keeps_try_except; [|intros ?]
    | match goal with
      | |- Tagged.keeps (if ?b then _ else _) => destruct b
      | |- Tagged.keeps (match ?x with _ => _ end) => destruct x
      end ].

Ltac keep := repeat keep_step.

Section TaggedInstances.

Import Sys Teardown Calls Tagged Autoscaling.

Variable config : settings.

Lemma await_group_deletion_keeps (fuel : nat) :
  keeps (await_group_deletion config fuel).
Proof.
  induction fuel as [|n IH]; cbn [await_group_deletion]; unfold cfg; keep.
Qed.

(** The step that terminates instances, after its first [print]. *)
Lemma terminate_step_listed :
  listed
    (bind (aws query) (fun instances =>
     bind (of_result (ids_of_reservations instances)) (fun ids_to_term =>
     match ids_to_term with
     | [] => ret tt
     | _ =>
         bind (aws (Client "ec2" "terminate_instances"
                      (JObj [("InstanceIds", JList ids_to_term)])))
           (fun _ =>
         bind (print [FS "Terminating: "; FJ (JList ids_to_term)])
           (fun _ =>
         aws (WaitFor "ec2" "instance_terminated"
                (JObj [("InstanceIds", JList ids_to_term)]))))
     end))).
Proof.
  intros w kwargs err. unfold bind, aws, of_result, ret, raise, print.
  cbn [with_aws_calls aws_script aws_calls].
  destruct (aws_script w (aws_calls w) query) as [reply|e] eqn:Hq;
    cbn [res fin evs app aws_script aws_calls with_aws_calls].
  2:{ intros [H|[]]. discriminate H. }
  destruct (ids_of_reservations reply) as [ids|e] eqn:Hi;
    cbn [res fin evs app aws_script aws_calls with_aws_calls].
  2:{ intros [H|[]]. discriminate H. }
  destruct ids as [|x ids];
    cbn [res fin evs app aws_script aws_calls with_aws_calls].
  { intros [H|[]]. discriminate H. }
  assert (Hgood : forall err' tl,
    EvAws (Client "ec2" "terminate_instances"
             (JObj [("InstanceIds", JList (x :: ids))])) err'
    = EvAws (Client "ec2" "terminate_instances" kwargs) err ->
    exists k reply0 ids0,
      nth_error (calls (EvAws query None :: tl)) k
      = Some (EvAws query None) /\
      aws_script w (aws_calls w + k) query = Ok reply0 /\
      ids_of_reservations reply0 = Ok ids0 /\
      ids0 <> [] /\ kwargs = JObj [("InstanceIds", JList ids0)]).
  { intros err' tl [= <- _]. exists 0%nat, reply, (x :: ids).
    rewrite Nat.add_0_r. repeat split; auto. discriminate. }
  destruct (aws_script w (S (aws_calls w)) _) as [v|e];
    cbn [res fin evs app aws_script aws_calls with_aws_calls].
  2:{ intros [H|[H|[]]]; [discriminate H | eauto]. }
  destruct (aws_script w (S (S (aws_calls w))) _) as [[]|e];
    cbn [res fin evs app];
    intros [H|[H|[H|[H|[]]]]]; try discriminate H; eauto.
Qed.

Lemma destroy_resources_listed (fuel : nat) :
  listed (destroy_resources config fuel).
Proof.
  pose proof (fun n => await_group_deletion_never config
                (is_call "ec2" "terminate_instances") n
                eq_refl (fun _ => eq_refl) (fun _ _ => eq_refl)) as Hw.
  pose proof await_group_deletion_keeps as Hk.
  pose proof terminate_step_listed as Ht.
  unfold destroy_resources, print_section, cfg.
  repeat (simple apply listed_bind;
          [apply listed_of_never; solve [hush] | solve [keep] | intros ?]).
  simple apply listed_bind; [| solve [keep] | intros ?].
  2:{ apply listed_of_never. hush. }
  simple apply listed_try_except;
    [| solve [keep] | intros ?; apply listed_of_never; hush].
  simple apply listed_bind;
    [apply listed_of_never; hush | keep |intros ?].
  exact Ht.
Qed.

(** X17.  [destroy_resources] terminates instances by the project tag:
    each of its requests to terminate instances names the instances that
    the cloud listed in answer to its query for running or pending
    instances with the tag [Project=vm-scaling], one of the calls of the
    run: all that the answer lists and no others, in one request.  When
    the answer lists none it asks for no termination. *)
Theorem destroy_resources_terminates_tagged (fuel : nat) (w : world)
    (kwargs : json) (err : option exn) :
  let r := destroy_resources config fuel w in
  In (EvAws (Client "ec2" "terminate_instances" kwargs) err) (evs r) ->
  exists k reply ids,
    nth_error (calls (evs r)) k = Some (EvAws query None) /\
    aws_script w (aws_calls w + k) query = Ok reply /\
    ids_of_reservations reply = Ok ids /\
    ids <> [] /\
    kwargs = JObj [("InstanceIds", JList ids)].
Proof. apply destroy_resources_listed. Qed.

End TaggedInstances.

Section TaggedRuns.

Import Sys Teardown Calls Tagged Autoscaling Scenarios.

(** X17, in the account of the scenarios, where the query lists one
    instance. *)
Lemma destroy_resources_terminates_tagged_witness :
  let r := destroy_resources settings 3 smooth in
  exists k reply ids,
    nth_error (calls (evs r)) k = Some (EvAws query None) /\
    aws_script smooth (aws_calls smooth + k) query = Ok reply /\
    ids_of_reservations reply = Ok ids /\
    ids <> [] /\
    JObj [("InstanceIds", JList [JStr "i-0000000a"])]
    = JObj [("InstanceIds", JList ids)].
Proof.
  apply (destroy_resources_terminates_tagged settings 3 smooth
           (JObj [("InstanceIds", JList [JStr "i-0000000a"])]) None).
  vm_compute. repeat first [left; reflexivity | right].
Defined.

(** X18.  The two nested loops of [destroy_resources] collect the
    [InstanceId] of every instance of every reservation of the answer, in
    the order of the answer. *)
Theorem ids_of_reservations_flattens (instances : json)
    (reservations : list json) (groups : list (list json)) :
  Json.get_key "Reservations" instances = Ok (JList reservations) ->
  Forall2
    (fun r ids =>
       exists members,
         Json.get_key "Instances" r = Ok (JList members) /\
         Forall2 (fun i id => Json.get_key "InstanceId" i = Ok id) members ids)
    reservations groups ->
  ids_of_reservations instances = Ok (concat groups).
Proof.
  intros H1 H2. unfold ids_of_reservations. rewrite H1.
  cbn [Json.and_then Json.iter].
  match goal with
  | |- Json.and_then (Json.for_each ?f _) _ = _ =>
      assert (H : Json.for_each f reservations = Ok groups)
  end.
  { clear H1. induction H2 as [|r ids l l' (members & Hm & Hids) _ IH];
      [reflexivity|].
    cbn [Json.for_each]. rewrite Hm. cbn [Json.and_then Json.iter].
    assert (Hin : Json.for_each (Json.get_key "InstanceId") members = Ok ids).
    { clear - Hids. induction Hids as [|i id m m' Hi _ IH']; [reflexivity|].
      cbn [Json.for_each]. rewrite Hi. cbn [Json.and_then]. rewrite IH'.
      reflexivity. }
    rewrite Hin. cbn [Json.and_then]. rewrite IH. reflexivity. }
  rewrite H. reflexivity.
Qed.

(** X18, on the answer of the scenarios. *)
Lemma ids_of_reservations_flattens_witness :
  ids_of_reservations (client_reply "describe_instances")
  = Ok [JStr "i-0000000a"].
Proof.
  apply (ids_of_reservations_flattens (client_reply "describe_instances")
           [JObj [("Instances",
                   JList [JObj [("InstanceId", JStr "i-0000000a");
                                ("PublicDnsName", JStr lg)]])]]
           [[JStr "i-0000000a"]]).
  - reflexivity.
  - repeat econstructor.
Defined.

End TaggedRuns.

(** ** The log file and the rate of the horizontal-scaling script *)

Section LogFile.

Import Sys Horizontal Poll.

Lemma lookup_store_other (path other content : string)
    (fs : list (string * string)) :
  String.eqb other path = false ->
  lookup other (store path content fs) = lookup other fs.
Proof.
  intros Hne. induction fs as [|[p c] fs IH]; cbn.
  - rewrite String.eqb_sym. now rewrite Hne.
  - destruct (String.eqb p path) eqn:E; cbn.
    + apply String.eqb_eq in E. subst p.
      rewrite (String.eqb_sym path other), Hne. reflexivity.
    + destruct (String.eqb p other); [reflexivity | exact IH].
Qed.

(** X19.  [is_test_complete] of the horizontal-scaling script keeps the
    log in the file [<log_name>.log].  When [open] returned, the file
    holds after the call the text just fetched and nothing of what it held
    before, and it is empty when the fetch raised, the file having been
    truncated when it was opened; no other file is touched.  When [open]
    raised, its exception leaves the function and no file has changed. *)
Theorem is_test_complete_saves_log (lg_dns log_name : string) (w : world) :
  let a := http_script w (http_calls w) (log_url lg_dns log_name) None in
  let r := is_test_complete lg_dns log_name w in
  match open_answer w 0 (log_name ++ ".log") with
  | Ok _ =>
      lookup (log_name ++ ".log") (files (fin r)) = Some (saved a) /\
      forall path,
        String.eqb path (log_name ++ ".log") = false ->
        lookup path (files (fin r)) = lookup path (files w)
  | Err e =>
      res r = Raise e /\ files (fin r) = files w
  end.
Proof.
  cbn zeta.
  unfold is_test_complete, bind, requests_get, open_w, write, close, ret.
  destruct (open_answer w 0 _) as [[]|eo]; cbn; [|auto].
  destruct (http_script w (http_calls w) _ None) as [resp|e]; cbn;
    rewrite ?lookup_store; cbn; rewrite ?store_store, ?lookup_store;
    (split; [reflexivity | intros path H; now apply lookup_store_other]).
Qed.

End LogFile.

Section LogFileRuns.

Import Sys Horizontal Scenarios.

(** In a directory without subdirectories, a log name that names a file
    in a directory, and one that holds a NUL character: [open] raises and
    nothing is fetched. *)
Example is_test_complete_unopenable :
  let r := is_test_complete lg "runs/test.1436.log" calm in
  let n := is_test_complete lg (String Ascii.zero "test.1436.log") calm in
  res r = Raise (Exn OSError
                   "No such file or directory: runs/test.1436.log.log") /\
  evs r = [] /\
  res n = Raise (Exn ValueError "embedded null byte") /\
  evs n = [].
Proof. repeat split. Qed.

End LogFileRuns.

Section RateSections.

Import Sys Horizontal ConfigParser Report.










End RateSections.

Section RateSectionsRuns.

Import Sys Horizontal Scenarios.


End RateSectionsRuns.

(** ** How the monitoring loop ends *)

Section LoopExit.

Import Sys Horizontal Watch.

Variable config : configuration.
Variables (lg_dns log_name sg2_id : string).
Variable float : string -> result Q.

Lemma final_app (l1 l2 : list event) :
  l2 <> [] -> final (l1 ++ l2) = final l2.
Proof.
  destruct l2 as [|x l2]; [intros H; now elim H | intros _].
  apply final_app_cons.
Qed.

(** X21.  The monitoring loop returns for one reason only: its last event
    is a fetch of the log, by [is_test_complete], whose text holds the
    terminal marker.  Nothing else, whatever the rate or the outcome of an
    attempt, ends the loop with a return. *)
Theorem monitor_returns_on_completion (fuel : nat) (f : frame) (w : world) :
  let r := monitor config float fuel lg_dns log_name sg2_id (f, w) in
  res r = Ret tt ->
  exists a,
    final (evs r) = EvGet (log_url lg_dns log_name) None (Ok a) /\
    Str.contains "[Test finished]" (text a) = true.
Proof.
  revert f w. induction fuel as [|fuel IH]; intros f w; [discriminate|].
  cbn zeta. rewrite monitor_unfold. cbn zeta.
  pose proof (is_test_complete_cases lg_dns log_name w) as Hk.
  cbn zeta in Hk.
  destruct (open_answer w 0 (log_name ++ ".log")) as [[]|eo];
    [|rewrite Hk; discriminate].
  destruct Hk as [Hev Hres]. rewrite Hev.
  destruct (http_script w (http_calls w) (log_url lg_dns log_name) None)
    as [a|e]; rewrite Hres; [|discriminate].
  destruct (Str.contains "[Test finished]" (text a)) eqn:Hm.
  - intros _. exists a. split; [reflexivity | exact Hm].
  - destruct (loop_body config float lg_dns log_name sg2_id _)
      as [[[]|e|] sb evb]; cbn [res fin evs]; try discriminate.
    destruct sb as [fb wb]. intros Hr.
    destruct (IH fb wb Hr) as (a' & Hf & Ha').
    exists a'. split; [|exact Ha'].
    assert (Hne : evs (monitor config float fuel lg_dns log_name sg2_id
                         (fb, wb)) <> []).
    { intros E. rewrite E in Hf. discriminate Hf. }
    rewrite app_assoc, final_app by exact Hne. exact Hf.
Qed.

End LoopExit.

(** ** What an attempt asks of the load generator *)

Section Probes.

Import Sys Horizontal Watch.

Lemma last_probe_app (l1 l2 : list event) :
  Obs.last_probe (l1 ++ l2)
  = match Obs.last_probe l2 with
    | Some a => Some a
    | None => Obs.last_probe l1
    end.
Proof.
  induction l1 as [|e l1 IH]; cbn.
  - now destruct (Obs.last_probe l2).
  - rewrite IH. now destruct (Obs.last_probe l2).
Qed.

Lemma last_probe_In (l : list event) (x : result response) :
  Obs.last_probe l = Some x -> exists u t, In (EvGet u (Some t) x) l.
Proof.
  induction l as [|e l IH]; [discriminate|].
  cbn [Obs.last_probe]. destruct (Obs.last_probe l) as [y|].
  - intros [= <-]. destruct (IH eq_refl) as (u & t & H).
    exists u, t. now right.
  - destruct e as [u [t|] a0| | | |]; try discriminate.
    intros [= <-]. exists u, t. now left.
Qed.

(** [create_instance] makes no request over HTTP. *)
Lemma create_instance_quiet (config : configuration)
    (ami sg_id : string) (w : world) :
  let c := create_instance config ami sg_id w in
  Obs.last_probe (evs c) = None /\
  forall u t a, ~ In (EvGet u t a) (evs c).
Proof.
  cbn zeta.
  destruct (create_instance_run config ami sg_id w)
    as (err & rest & Hev & Hrest & _). rewrite Hev. clear Hev.
  assert (H : Obs.last_probe rest = None /\
              forall u t a, ~ In (EvGet u t a) rest).
  { induction rest as [|x l IH]; [split; [reflexivity | tauto]|].
    cbn [forallb] in Hrest. apply andb_prop in Hrest.
    destruct Hrest as [Hx Hl]. destruct (IH Hl) as [I1 I2].
    cbn [Obs.last_probe]. rewrite I1. split.
    - destruct x as [? [?|] ?| | | |]; try reflexivity. discriminate Hx.
    - intros u t a [E|H]; [subst x; discriminate Hx | exact (I2 u t a H)]. }
  destruct H as [H1 H2]. cbn [Obs.last_probe]. rewrite H1.
  split; [reflexivity|].
  intros u t a [E|H]; [discriminate E | exact (H2 u t a H)].
Qed.

(** What the health check asks, and what its success means. *)
Lemma health_check_facts (dns_name : string) (w : world) :
  let h := wait_for_server_health dns_name w in
  (forall u t a, In (EvGet u t a) (evs h) ->
                 u = "http://" ++ dns_name /\ t = Some 1) /\
  (res h = Ret true ->
   exists p,
     Obs.last_probe (evs h) = Some (Ok p) /\ status_code p = 200 /\
     In (EvGet ("http://" ++ dns_name) (Some 1) (Ok p)) (evs h)).
Proof.
  cbn zeta.
  assert (Hg : forall u t a,
            In (EvGet u t a) (evs (wait_for_server_health dns_name w)) ->
            u = "http://" ++ dns_name /\ t = Some 1).
  { unfold wait_for_server_health, bind, print.
    pose proof (wait_loop_pauses dns_name ("http://" ++ dns_name) 41 40 0 w
                  eq_refl (le_n _) (le_n _)) as H.
    cbn zeta in H. destruct H as [_ H].
    destruct (wait_loop 41 dns_name ("http://" ++ dns_name) 0 w) as [o s ev].
    cbn [res fin evs app] in *.
    intros u t a [E|Hin]; [discriminate E | eauto]. }
  split; [exact Hg|].
  intros Hr.
  assert (Hp : exists p,
            Obs.last_probe (evs (wait_for_server_health dns_name w))
            = Some (Ok p) /\ status_code p = 200).
  { revert Hr. unfold wait_for_server_health, bind, print.
    pose proof (@wait_loop_spec dns_name ("http://" ++ dns_name) 41 40 0 w
                  eq_refl (le_n _) (le_n _)) as H.
    cbn zeta in H. destruct H as (_ & _ & H & _).
    destruct (wait_loop 41 dns_name ("http://" ++ dns_name) 0 w) as [o s ev].
    cbn [res fin evs app] in *. intros Hr. destruct (H Hr) as (p & Hl & Hs).
    exists p. cbn [Obs.last_probe]. rewrite Hl. auto. }
  destruct Hp as (p & Hl & Hs). exists p.
  split; [exact Hl | split; [exact Hs|]].
  destruct (last_probe_In _ _ Hl) as (u & t & Hin).
  destruct (Hg _ _ _ Hin) as [-> [= ->]]. exact Hin.
Qed.

End Probes.

Section Registration.

Import Sys Horizontal Watch.

Variable config : configuration.
Variables (lg_dns sg2_id : string).

(** X22.  An attempt asks the load generator for nothing but the
    registration of the instance it has probed: a request without a
    time-out occurs in an attempt only as the registration of a DNS name
    whose last probe, the last probe of the attempt, came back with status
    200.  An instance without a DNS name, or one that no probe found
    healthy, is not registered. *)
Theorem registration_follows_health_check
    (f : frame) (w : world) (u : string) (a : result response) :
  let r := scale_out config lg_dns sg2_id (f, w) in
  In (EvGet u None a) (evs r) ->
  exists dns p,
    u = add_url lg_dns dns /\
    Obs.last_probe (evs r) = Some (Ok p) /\
    status_code p = 200 /\
    In (EvGet ("http://" ++ dns) (Some 1) (Ok p)) (evs r).
Proof.
  cbn zeta.
  unfold scale_out, try_except, bind, lift, set_locals, ret. cbn [fst snd].
  destruct (create_instance_quiet config (WEB_SERVICE_AMI config) sg2_id w)
    as [Cp Cg].
  destruct (create_instance config (WEB_SERVICE_AMI config) sg2_id w)
    as [[i|e|] w1 ev1]; cbn [fst snd res fin evs is_Exception print] in *.
  2:{ intros H. apply in_app_or in H. destruct H as [H|[H|[]]];
        [elim (Cg _ _ _ H) | discriminate H]. }
  2:{ intros H. elim (Cg _ _ _ H). }
  unfold aws.
  destruct (aws_script w1 (aws_calls w1) (Reload (id i))) as [dns|e];
    cbn [fst snd res fin evs app is_Exception print].
  2:{ intros H. apply in_app_or in H. destruct H as [H|H];
        [apply in_app_or in H; destruct H as [H|[H|[]]];
         [elim (Cg _ _ _ H) | discriminate H]
        | destruct H as [H|[]]; discriminate H]. }
  destruct (no_dns dns); cbn [fst snd res fin evs app print].
  { intros H. apply in_app_or in H. destruct H as [H|[H|[H|[]]]];
      [elim (Cg _ _ _ H) | discriminate H | discriminate H]. }
  destruct (health_check_facts (Str.of_opt dns)
              (with_aws_calls (S (aws_calls w1)) w1)) as (Hg & Ht).
  destruct (wait_for_server_health (Str.of_opt dns) _)
    as [[[|]|e|] w2 ev2]; cbn [fst snd res fin evs app is_Exception print]
    in *.
  - destruct (Ht eq_refl) as (p & Hp & Hs & Hin).
    assert (Hdone : forall ans tl,
      (forall x, In x tl -> Obs.is_probe x = false /\
                            forall u' a', x <> EvGet u' None a') ->
      In (EvGet u None a)
         (ev1 ++ EvAws (Reload (id i)) None
              :: ev2 ++ EvGet (add_url lg_dns (Str.of_opt dns)) None ans
              :: tl) ->
      exists dns0 p0,
        u = add_url lg_dns dns0 /\
        Obs.last_probe
          (ev1 ++ EvAws (Reload (id i)) None
               :: ev2 ++ EvGet (add_url lg_dns (Str.of_opt dns)) None ans
               :: tl) = Some (Ok p0) /\
        status_code p0 = 200 /\
        In (EvGet ("http://" ++ dns0) (Some 1) (Ok p0))
           (ev1 ++ EvAws (Reload (id i)) None
                :: ev2 ++ EvGet (add_url lg_dns (Str.of_opt dns)) None ans
                :: tl)).
    { intros ans tl Htl H. exists (Str.of_opt dns), p.
      assert (Hlast : Obs.last_probe tl = None).
      { clear - Htl. induction tl as [|x tl IH]; [reflexivity|].
        cbn [Obs.last_probe]. rewrite IH.
        - destruct (Htl x (or_introl eq_refl)) as [Hx _].
          destruct x as [? [?|] ?| | | |]; try reflexivity. discriminate Hx.
        - intros y Hy. apply Htl. now right. }
      split; [| split; [| split; [exact Hs|]]].
      - apply in_app_or in H. destruct H as [H|[H|H]];
          [elim (Cg _ _ _ H) | discriminate H |].
        apply in_app_or in H. destruct H as [H|[H|H]].
        + destruct (Hg _ _ _ H) as [_ F]. discriminate F.
        + now injection H as <- _.
        + destruct (Htl _ H) as [_ F]. now elim (F u a).
      - rewrite last_probe_app. cbn [Obs.last_probe].
        rewrite last_probe_app. cbn [Obs.last_probe]. rewrite Hlast, Hp.
        reflexivity.
      - apply in_or_app. right. right. apply in_or_app. left. exact Hin. }
    unfold requests_get.
    destruct (http_script w2 (http_calls w2) _ None) as [ans|e];
      cbn [fst snd res fin evs app is_Exception print].
    + destruct (status_code ans =? 200);
        cbn [fst snd res fin evs app is_Exception print now];
        repeat (rewrite <- app_assoc; cbn [app]); apply Hdone;
        intros x Hx;
        repeat (destruct Hx as [<-|Hx];
                [split; [reflexivity | discriminate]|]);
        elim Hx.
    + repeat (rewrite <- app_assoc; cbn [app]). apply Hdone.
      intros x Hx;
        repeat (destruct Hx as [<-|Hx]; [split; [reflexivity | discriminate]|]);
        elim Hx.
  - intros H. apply in_app_or in H. destruct H as [H|[H|H]];
      [elim (Cg _ _ _ H) | discriminate H |].
    apply in_app_or in H. destruct H as [H|[H|[]]];
      [destruct (Hg _ _ _ H) as [_ F]; discriminate F | discriminate H].
  - intros H. apply in_app_or in H. destruct H as [H|[H|[]]];
      [| discriminate H].
    apply in_app_or in H. destruct H as [H|[H|H]];
      [elim (Cg _ _ _ H) | discriminate H |].
    destruct (Hg _ _ _ H) as [_ F]. discriminate F.
  - intros H. apply in_app_or in H. destruct H as [H|[H|H]];
      [elim (Cg _ _ _ H) | discriminate H |].
    destruct (Hg _ _ _ H) as [_ F]. discriminate F.
Qed.

End Registration.

Section LoopExitRuns.

Import Sys Horizontal Watch Scenarios.

(** X21, on a log that holds the terminal marker at the first look. *)
Lemma monitor_returns_on_completion_witness :
  exists a,
    final (evs (monitor config Float.of_string 1 lg log group
                  (monitoring, over)))
    = EvGet (log_url lg log) None (Ok a) /\
    Str.contains "[Test finished]" (text a) = true.
Proof.
  apply (monitor_returns_on_completion config lg log group Float.of_string 1
           monitoring over).
  reflexivity.
Defined.

(** X22, in an attempt that registers its instance. *)
Lemma registration_follows_health_check_witness :
  let r := scale_out config lg group (monitoring, calm) in
  exists dns p,
    add_url lg ws = add_url lg dns /\
    Obs.last_probe (evs r) = Some (Ok p) /\
    status_code p = 200 /\
    In (EvGet ("http://" ++ dns) (Some 1) (Ok p)) (evs r).
Proof.
  apply (registration_follows_health_check config lg group monitoring calm
           (add_url lg ws) (Ok (Response 200 ""))).
  vm_compute. repeat first [left; reflexivity | right].
Defined.

End LoopExitRuns.

(** ** Runs of the monitoring loop without an attempt *)

Section Idle.

Import Sys Horizontal Watch.

Variable config : configuration.
Variables (lg_dns log_name sg2_id : string).
Variable float : string -> result Q.

(** The completion check leaves the answers of the load generator and
    the clock as they were, whether [open] returned or raised. *)
Lemma is_test_complete_fin (w : world) :
  let k := is_test_complete lg_dns log_name w in
  http_script (fin k) = http_script w /\
  clock_script (fin k) = clock_script w /\
  clock_calls (fin k) = clock_calls w.
Proof.
  cbn zeta.
  unfold is_test_complete, bind, requests_get, open_w, write, close, ret.
  destruct (open_answer w 0 _) as [[]|eo]; cbn; [|auto].
  destruct (http_script w (http_calls w) _ None); cbn; auto.
Qed.

(** The loop under an invariant of the world that rules out an attempt in
    every round. *)
Lemma monitor_idle (inv : world -> Prop) (f : frame) :
  (forall w, inv w -> inv (fin (is_test_complete lg_dns log_name w))) ->
  (forall w rps,
     inv w ->
     let g := get_rps float lg_dns log_name w in
     res g = Ret rps ->
     Float.ltb rps 50
     && Float.ltb 100
          (total_seconds (clock_script (fin g) (clock_calls (fin g)))
                         (last_launch_time f)) = false /\
     inv (with_clock_calls (S (clock_calls (fin g))) (fin g))) ->
  forall (fuel : nat) (w : world),
    inv w ->
    let r := monitor config float fuel lg_dns log_name sg2_id (f, w) in
    launches (evs r) = 0%nat /\ fst (fin r) = f.
Proof.
  intros Hk Hg. induction fuel as [|fuel IH]; intros w Hw;
    [split; reflexivity|].
  cbn zeta. rewrite monitor_unfold. cbn zeta.
  pose proof (is_test_complete_launches lg_dns log_name w) as Hl.
  specialize (Hk w Hw).
  destruct (res (is_test_complete lg_dns log_name w)) as [[|]|e|];
    try (split; [exact Hl | reflexivity]).
  set (wk := fin (is_test_complete lg_dns log_name w)) in *.
  rewrite loop_body_unfold. cbn zeta.
  destruct (get_rps_run float lg_dns log_name wk) as (Hev & _ & _).
  cbn zeta in Hev. rewrite Hev.
  specialize (Hg wk). cbn zeta in Hg.
  destruct (res (get_rps float lg_dns log_name wk)) as [rps|e|];
    try (cbn [res fin evs]; split; [rewrite launches_app, Hl |];
         reflexivity).

  destruct (Hg rps Hk eq_refl) as [Hno Hinv]. rewrite Hno.
  cbn [res fin evs].
  destruct (IH _ Hinv) as [I1 I2].
  destruct (monitor config float fuel lg_dns log_name sg2_id _)
    as [o s ev]. cbn [res fin evs] in *.
  split; [|exact I2].
  unfold report. cbn [app].
  rewrite ?launches_cons, ?launches_app, Hl, ?launches_cons, I1.
  reflexivity.
Qed.

(** X23.  While the load generator reports no rate below 50 the
    monitoring loop asks for no instance, however many rounds it runs and
    whatever the clock says, and its local variables stay as they were. *)
Theorem no_launch_while_rate_is_high (fuel : nat) (f : frame) (w : world) :
  let r := monitor config float fuel lg_dns log_name sg2_id (f, w) in
  (forall i a sections rps,
     http_script w i (log_url lg_dns log_name) None = Ok a ->
     ConfigParser.sections_of_string (text a) = Ok sections ->
     first_rps float (rev sections) = Ok rps ->
     ~ (rps < 50)%Q) ->
  launches (evs r) = 0%nat /\ fst (fin r) = f.
Proof.
  cbn zeta. intros H.
  apply (monitor_idle (fun w' => http_script w' = http_script w)).
  - intros w' Hw'. destruct (is_test_complete_fin w') as (F & _). congruence.
  - intros w' rps Hw'. cbn zeta. intros Hr.
    destruct (get_rps_run float lg_dns log_name w') as (_ & Hfin & _).
    rewrite Hfin. cbn [http_script with_clock_calls with_http_calls].
    split; [|exact Hw'].
    apply andb_false_iff. left.
    destruct (Float.ltb rps 50) eqn:E; [|reflexivity].
    apply ltb_lt in E. exfalso. revert Hr.
    unfold get_rps, bind, requests_get, of_result. rewrite Hw'.
    destruct (http_script w (http_calls w') (log_url lg_dns log_name) None)
      as [a|e] eqn:Ha; cbn [res fin evs]; [|discriminate].
    destruct (ConfigParser.sections_of_string (text a)) as [l|e] eqn:Hs;
      cbn [res fin evs ret raise]; [|discriminate].
    destruct (first_rps float (rev l)) as [q|e] eqn:Hq;
      cbn [res ret raise]; [|discriminate].
    intros [= ->]. exact (H _ _ _ _ Ha Hs Hq E).
  - reflexivity.
Qed.

(** X24.  While the clock reads no more than 100 seconds after
    [last_launch_time] the monitoring loop asks for no instance, however
    low the rate and however many rounds it runs, and its local variables
    stay as they were. *)
Theorem no_launch_during_cool_down (fuel : nat) (f : frame) (w : world) :
  let r := monitor config float fuel lg_dns log_name sg2_id (f, w) in
  (forall i,
     ~ (100 < total_seconds (clock_script w i) (last_launch_time f))%Q) ->
  launches (evs r) = 0%nat /\ fst (fin r) = f.
Proof.
  cbn zeta. intros H.
  apply (monitor_idle (fun w' => clock_script w' = clock_script w)).
  - intros w' Hw'. destruct (is_test_complete_fin w') as (_ & F & _).
    congruence.
  - intros w' rps Hw'. cbn zeta. intros Hr.
    destruct (get_rps_run float lg_dns log_name w') as (_ & Hfin & _).
    rewrite Hfin.
    cbn [clock_script clock_calls with_clock_calls with_http_calls].
    split; [|exact Hw'].
    apply andb_false_iff. right. rewrite Hw'.
    destruct (Float.ltb 100 _) eqn:E; [|reflexivity].
    apply ltb_lt in E. now elim (H (clock_calls w')).
  - reflexivity.
Qed.

End Idle.

Section IdleRuns.

Import Sys Horizontal Watch Scenarios.

(** X23, at a load generator that reports eighty requests per second. *)
Lemma no_launch_while_rate_is_high_witness :
  let r := monitor config Float.of_string 5 lg log group (monitoring, busy) in
  launches (evs r) = 0%nat /\ fst (fin r) = monitoring.
Proof.
  apply (no_launch_while_rate_is_high config lg log group Float.of_string 5
           monitoring busy).
  intros i a sections rps Ha Hs Hq Hlt.
  injection Ha as <-. vm_compute in Hs. injection Hs as <-.
  vm_compute in Hq. injection Hq as <-. vm_compute in Hlt. discriminate Hlt.
Defined.

(** X24, with a low rate and a clock that stands still inside the
    cool-down. *)
Lemma no_launch_during_cool_down_witness :
  let r :=
    monitor config Float.of_string 5 lg log group (monitoring, timeless) in
  launches (evs r) = 0%nat /\ fst (fin r) = monitoring.
Proof.
  apply (no_launch_during_cool_down config lg log group Float.of_string 5
           monitoring timeless).
  intros i Hlt. vm_compute in Hlt. discriminate Hlt.
Defined.

End IdleRuns.
